(** * TruthLens: the text normalizer, the model client, the response parser
      and the classification orchestrator, embedded from the Python sources

    - [src/data_preprocessing.py]   -> [Module TextPreprocessor]
    - [src/model_handler.py]        -> [Module OllamaHandler]
    - [src/fake_news_classifier.py] -> [Module FakeNewsClassifier]

    A Python [str] is a sequence of Unicode code points: it is modelled as a
    list of code points, so that [len], slicing ends and the character
    classes behave as in the interpreter.  What Python decides by looking a
    code point up in its Unicode tables is decided here on the ASCII range
    by explicit tables, and above it by a [UnicodeData] record that every
    definition and every theorem takes as a parameter. *)

From Stdlib Require Import List Bool Arith ZArith NArith Lia.
From Stdlib Require Import Ascii String DecimalString QArith.
Import ListNotations.
Close Scope Q_scope.

Set Implicit Arguments.

(** ** Python strings *)

Module Py.
Local Open Scope N_scope.

(** A code point. *)
Definition char := N.

(** A Python [str]. *)
Definition str := list char.

(** An ASCII literal of the sources as a [str]. *)
Definition lit (s : string) : str :=
  List.map N_of_ascii (list_ascii_of_string s).

Definition char_eqb (a b : char) : bool := N.eqb a b.

(** [len(s)], a Python [int]. *)
Definition len (s : str) : Z := Z.of_nat (List.length s).

(** The part of the interpreter's and of the [regex] module's Unicode
    tables that the program consults, for code points from 128 on. *)
Record UnicodeData := {
  u_isspace : char -> bool;          (* [str.isspace], and [\s] of [re] *)
  u_word : char -> bool;             (* [\w] of [regex] *)
  u_space : char -> bool;            (* [\s] of [regex] *)
  u_letter : char -> bool;           (* [\p{L}] of [regex] *)
  u_isupper : char -> bool;          (* [str.isupper] on one character *)
  u_upper : char -> str;             (* [str.upper] on one character *)
  u_decimal : char -> option Z;      (* the decimal digit value, if any *)
  u_ignorecase : char -> char -> bool (* [re.IGNORECASE]: pattern, text *)
}.

(** A table with nothing above ASCII: no letters, digits or spaces there,
    and no case mapping.  It is the table of the concrete runs. *)
Definition ascii_only : UnicodeData := {|
  u_isspace := fun _ => false;
  u_word := fun _ => false;
  u_space := fun _ => false;
  u_letter := fun _ => false;
  u_isupper := fun _ => false;
  u_upper := fun c => [c];
  u_decimal := fun _ => None;
  u_ignorecase := fun _ _ => false
|}.

Definition is_ascii (c : char) : bool := c <? 128.
Definition between (lo hi c : char) : bool := (lo <=? c) && (c <=? hi).

Definition ascii_upper_letter : char -> bool := between 65 90.
Definition ascii_lower_letter : char -> bool := between 97 122.
Definition ascii_digit : char -> bool := between 48 57.

(** ASCII case folding [a-z] to [A-Z]. *)
Definition ascii_to_upper (c : char) : char :=
  if ascii_lower_letter c then c - 32 else c.

Section Classes.
Variable db : UnicodeData.

(** [c.isspace()]: TAB, LF, VT, FF, CR, the four separators FS GS RS US
    and the space; it is the class [str.split()] and [str.strip()] use,
    and the class [\s] of the standard [re] module on a [str]. *)
Definition isspace (c : char) : bool :=
  if is_ascii c then between 9 13 c || between 28 32 c else u_isspace db c.

(** [\w] of the [regex] module on a [str]: letters, digits, underscore. *)
Definition re_word (c : char) : bool :=
  if is_ascii c
  then ascii_upper_letter c || ascii_lower_letter c || ascii_digit c
       || char_eqb c 95
  else u_word db c.

(** [\s] of the [regex] module on a [str]: the White_Space property. *)
Definition re_space (c : char) : bool :=
  if is_ascii c then between 9 13 c || char_eqb c 32 else u_space db c.

(** [\p{L}] of the [regex] module. *)
Definition is_letter (c : char) : bool :=
  if is_ascii c then ascii_upper_letter c || ascii_lower_letter c
  else u_letter db c.

(** [c.isupper()] for one character. *)
Definition isupper (c : char) : bool :=
  if is_ascii c then ascii_upper_letter c else u_isupper db c.

(** [c.upper()] for one character; the full case mapping may give
    several code points. *)
Definition upper_char (c : char) : str :=
  if is_ascii c then [ascii_to_upper c] else u_upper db c.

(** [s.upper()]. *)
Definition upper (s : str) : str := List.flat_map upper_char s.

(** The decimal value of a code point, for [\d] of [re] and [int()]. *)
Definition decimal_value (c : char) : option Z :=
  if is_ascii c
  then if ascii_digit c then Some (Z.of_N c - 48)%Z else None
  else u_decimal db c.

(** [\d] of the standard [re] module on a [str]. *)
Definition isdecimal (c : char) : bool :=
  match decimal_value c with Some _ => true | None => false end.

(** A pattern literal [p] against a text character [c] under
    [re.IGNORECASE]; the patterns of the program are ASCII. *)
Definition ignorecase_eqb (p c : char) : bool :=
  if is_ascii c then char_eqb (ascii_to_upper p) (ascii_to_upper c)
  else u_ignorecase db p c.

(** [s.lstrip()], [s.rstrip()] and [s.strip()] with no argument. *)
Fixpoint lstrip (s : str) : str :=
  match s with
  | [] => []
  | c :: t => if isspace c then lstrip t else s
  end.

Definition rstrip (s : str) : str := List.rev (lstrip (List.rev s)).

Definition strip (s : str) : str := rstrip (lstrip s).

(** [s.split()] with no argument: the maximal runs of characters that
    are not whitespace, in order; never an empty word. *)
Fixpoint split (s : str) : list str :=
  match s with
  | [] => []
  | c :: t =>
      if isspace c then split t
      else match t with
           | [] => [[c]]
           | d :: _ =>
               if isspace d then [c] :: split t
               else match split t with
                    | w :: ws => (c :: w) :: ws
                    | [] => [[c]]
                    end
           end
  end.

(** [int(s)] on a string of decimal digits (what [\d{1,3}] captured);
    [None] stands for the [ValueError] of any other character. *)
Fixpoint int_digits (acc : Z) (s : str) : option Z :=
  match s with
  | [] => Some acc
  | c :: t =>
      match decimal_value c with
      | Some d => int_digits (10 * acc + d)%Z t
      | None => None
      end
  end.

Definition int (s : str) : option Z :=
  match s with
  | [] => None
  | _ => int_digits 0%Z s
  end.
End Classes.

(** [sep.join(words)]. *)
Fixpoint join (sep : str) (words : list str) : str :=
  match words with
  | [] => []
  | [w] => w
  | w :: ws => w ++ sep ++ join sep ws
  end.

(** [s.count(c)] for a one-character [c]. *)
Definition count (c : char) (s : str) : Z :=
  Z.of_nat (List.length (List.filter (char_eqb c) s)).

(** [str(n)], as an f-string renders an [int]. *)
Definition str_of_int (n : Z) : str :=
  lit (NilZero.string_of_int (Z.to_int n)).

(** [needle in s]. *)
Fixpoint starts_with (needle s : str) : bool :=
  match needle, s with
  | [], _ => true
  | x :: n', y :: s' => char_eqb x y && starts_with n' s'
  | _ :: _, [] => false
  end.

Fixpoint contains (needle s : str) : bool :=
  starts_with needle s ||
  match s with
  | [] => false
  | _ :: t => contains needle t
  end.

End Py.

(** ** Regular expressions of the program

    The patterns are built from combinators in continuation-passing style:
    a matcher takes what is to follow it and the text at the current
    position.  Alternatives are tried in the order a backtracking engine
    tries them, so the first success is the engine's match. *)

Module Re.
Import Py.

Section Matchers.
Variable A : Type.

(** A continuation: the text from the current position on. *)
Definition cont := str -> option A.

(** One character of a class. *)
Definition one (p : char -> bool) (k : cont) : cont :=
  fun s => match s with
           | c :: t => if p c then k t else None
           | [] => None
           end.

(** A literal, character by character under [eqb pattern text]. *)
Fixpoint literal (eqb : char -> char -> bool) (l : str) (k : cont) : cont :=
  match l with
  | [] => k
  | x :: l' => one (eqb x) (literal eqb l' k)
  end.

(** [p*], greedy: the longest run first, then shorter ones. *)
Fixpoint star (p : char -> bool) (k : cont) (s : str) : option A :=
  match s with
  | c :: t =>
      if p c
      then match star p k t with
           | Some r => Some r
           | None => k s
           end
      else k s
  | [] => k []
  end.

(** [a|b]: the left branch first. *)
Definition alt (a b : cont) : cont :=
  fun s => match a s with
           | Some r => Some r
           | None => b s
           end.

(** [re.search]: the leftmost position at which the pattern matches. *)
Fixpoint search (m : cont) (s : str) : option A :=
  match m s with
  | Some r => Some r
  | None => match s with
            | [] => None
            | _ :: t => search m t
            end
  end.
End Matchers.

(** [(p{1,n})] as the last item of a pattern, greedy: the captured text is
    the longest run of at most [n] characters of the class, and the match
    fails when there is none. *)
Fixpoint take_upto (p : char -> bool) (n : nat) (s : str) : str :=
  match n, s with
  | S n', c :: t => if p c then c :: take_upto p n' t else []
  | _, _ => []
  end.

Definition capture_upto (p : char -> bool) (n : nat) : cont str :=
  fun s => match take_upto p n s with
           | [] => None
           | g => Some g
           end.

(** [re.sub(r'(C)\1+', r'\1', s)] for a character class [C]: scanning from
    the left, a character of the class that is followed by itself starts a
    match, the match takes the whole run, and the run is replaced by one
    copy; every other character is copied.  [run] is the character of the
    match in progress. *)
Fixpoint sub_repeats (p : char -> bool) (run : option char) (s : str) : str :=
  match s with
  | [] => []
  | c :: t =>
      let fresh :=
        match t with
        | d :: _ =>
            if p c && char_eqb c d then c :: sub_repeats p (Some c) t
            else c :: sub_repeats p None t
        | [] => [c]
        end in
      match run with
      | Some r => if char_eqb c r then sub_repeats p (Some r) t else fresh
      | None => fresh
      end
  end.

End Re.

(** ** [src/data_preprocessing.py] *)

Module TextPreprocessor.
Import Py.

(** The dictionary [extract_features] returns.  [uppercase_ratio] is the
    quotient of two integers; it is kept as the exact fraction, of which
    the Python float is the rounding. *)
Module Features.
Record t := {
  length : Z;
  word_count : Z;
  exclamation_count : Z;
  question_count : Z;
  uppercase_ratio : Q;
  has_clickbait_words : bool
}.
End Features.

Definition mem (c : char) (l : str) : bool := List.existsb (char_eqb c) l.

(** The punctuation that [[^\w\s.,!?;:\'-]] keeps. *)
Definition kept_punctuation : str := lit ".,!?;:'-".

(** The punctuation of [([.,!?;:])\1+]. *)
Definition collapsed_punctuation : str := lit ".,!?;:".

(** [not s] for a [str]. *)
Definition falsy (s : str) : bool :=
  match s with
  | [] => true
  | _ :: _ => false
  end.

(** The four error messages of [validate_input]; the two about the length
    are f-strings over the bound. *)
Definition empty_message : str := lit "Text cannot be empty".

Definition too_short_message (min_length : Z) : str :=
  lit "Text too short. Minimum " ++ str_of_int min_length
    ++ lit " characters required".

Definition too_long_message (max_length : Z) : str :=
  lit "Text too long. Maximum " ++ str_of_int max_length
    ++ lit " characters allowed".

Definition alphabetic_message : str :=
  lit "Text must contain alphabetic characters".

Section WithUnicode.
Variable db : UnicodeData.

(** A character that [re.sub(r'[^\w\s.,!?;:\'-]', '', text)] keeps. *)
Definition kept (c : char) : bool :=
  re_word db c || re_space db c || mem c kept_punctuation.

(** [clean_text(text)].  The guard returns the empty string for an empty
    text; the three rewriting steps and the final [strip] follow in the
    order of the source.  No step can raise on a [str], so the [except]
    branch has no counterpart. *)
Definition clean_text (text : str) : str :=
  if falsy text then []
  else
    let text := join (lit " ") (split db text) in
    let text := List.filter kept text in
    let text :=
      Re.sub_repeats (fun c => mem c collapsed_punctuation) None text in
    strip db text.

(** [validate_input(text, min_length, max_length)]: the pair
    [(is_valid, error_message)]. *)
Definition validate_input (text : str) (min_length max_length : Z)
  : bool * option str :=
  if falsy text || falsy (strip db text) then
    (false, Some empty_message)
  else
    let cleaned_text := strip db text in
    if (len cleaned_text <? min_length)%Z then
      (false, Some (too_short_message min_length))
    else if (len cleaned_text >? max_length)%Z then
      (false, Some (too_long_message max_length))
    else if negb (List.existsb (is_letter db) cleaned_text) then
      (false, Some alphabetic_message)
    else (true, None).

(** [extract_features(text)]. *)
Definition extract_features (text : str) : Features.t := {|
  Features.length := len text;
  Features.word_count := Z.of_nat (List.length (split db text));
  Features.exclamation_count := count 33%N text;
  Features.question_count := count 63%N text;
  Features.uppercase_ratio :=
    if falsy text then 0%Q
    else (Z.of_nat (List.length (List.filter (isupper db) text))
          # Pos.of_nat (List.length text))%Q;
  Features.has_clickbait_words := false
|}.
End WithUnicode.

(** The defaults of [validate_input]'s keyword arguments. *)
Definition default_min_length : Z := 10.
Definition default_max_length : Z := 10000.

End TextPreprocessor.

(** ** Values of the interpreter

    The program hands on what the service sent without looking at its
    type, so a reply is kept as the value [response.json()] decoded. *)

Module Json.
Import Py.

(** A decoded JSON value: a [str], [list], [dict], [int], [float], [bool]
    or [None]. *)
#[warnings="-register-all"]
Inductive t :=
| Str (s : str)
| Array (items : list t)
| Object (members : list (str * t))
| Int (n : Z)
| Float (x : Q)
| Bool (b : bool)
| Null.

(** [type(v).__name__]. *)
Definition type_name (v : t) : str :=
  match v with
  | Str _ => lit "str"
  | Array _ => lit "list"
  | Object _ => lit "dict"
  | Int _ => lit "int"
  | Float _ => lit "float"
  | Bool _ => lit "bool"
  | Null => lit "NoneType"
  end.

(** Whether [v[:100]] is defined: a [str] and a [list] can be sliced, any
    other value raises. *)
Definition sliceable (v : t) : bool :=
  match v with
  | Str _ => true
  | Array _ => true
  | _ => false
  end.

(** [bool(v)]. *)
Definition truthy (v : t) : bool :=
  match v with
  | Str s => match s with [] => false | _ :: _ => true end
  | Array items => match items with [] => false | _ :: _ => true end
  | Object members => match members with [] => false | _ :: _ => true end
  | Int n => negb (n =? 0)%Z
  | Float x => negb (Qeq_bool x 0%Q)
  | Bool b => b
  | Null => false
  end.
End Json.

(** An exception that leaves the function it was raised in, with the text
    [str(e)] gives. *)
Inductive Exception :=
| AttributeError (message : Py.str).

Definition str_of_exception (e : Exception) : Py.str :=
  match e with
  | AttributeError message => message
  end.

(** The [AttributeError] of [v.name] for a value without that method. *)
Definition no_attribute (v : Json.t) (name : Py.str) : Exception :=
  AttributeError
    (Py.lit "'" ++ Json.type_name v ++ Py.lit "' object has no attribute '"
       ++ name ++ Py.lit "'").

(** How a call ends: it returns a value or raises. *)
Inductive Completion (A : Type) :=
| Returned (value : A)
| Raised (e : Exception).

Arguments Returned {A} value.
Arguments Raised {A} e.

(** ** [src/config.py] and [src/model_handler.py] *)

(** The class attributes of [Config] that the handler reads. *)
Module Config.
Record t := {
  OLLAMA_BASE_URL : Py.str;
  OLLAMA_MODEL : Py.str;
  OLLAMA_API_ENDPOINT : Py.str;
  REQUEST_TIMEOUT : Z;
  MAX_RETRIES : Z;
  TEMPERATURE : Q;
  MAX_TOKENS : Z
}.
End Config.

(** The configuration when the environment sets none of the variables. *)
Definition default_config : Config.t :=
  {| Config.OLLAMA_BASE_URL := Py.lit "http://localhost:11434";
     Config.OLLAMA_MODEL := Py.lit "llama3:8b";
     Config.OLLAMA_API_ENDPOINT := Py.lit "http://localhost:11434/api/generate";
     Config.REQUEST_TIMEOUT := 120;
     Config.MAX_RETRIES := 3;
     Config.TEMPERATURE := 1 # 10;
     Config.MAX_TOKENS := 500 |}.

Module OllamaHandler.
Import Py.

(** The JSON body of the request. *)
Module Payload.
Record t := {
  model : str;
  prompt : str;
  stream : bool;
  temperature : Q;
  num_predict : Z
}.
End Payload.

(** The decoded JSON object of a reply; [result.get(key, default)] reads
    each field, so each may be absent.  The [response] is whatever value
    the object holds under that key: the handler slices it for its log and
    hands it on.  The other fields are only handed on. *)
Module Body.
Record t := {
  response : option Json.t;
  model : option str;
  total_duration : option Z;
  load_duration : option Z;
  prompt_eval_count : option Z;
  eval_count : option Z
}.
End Body.

(** The dictionary [generate_response] returns on success. *)
Module Reply.
Record t := {
  response : Json.t;
  model : str;
  total_duration : Z;
  load_duration : Z;
  prompt_eval_count : Z;
  eval_count : Z
}.
End Reply.

(** What [requests.post], [raise_for_status] and [response.json] come to
    in one pass through the [try] block: the decoded object, or the
    [except] clause that catches what they raised.  A decoded value that
    is not an object has no [get]: the last clause catches that too. *)
Inductive Outcome :=
| Replied (body : Body.t)
| Timeout
| ConnectionError
| HTTPError
| JSONDecodeError
| OtherException.

(** The model endpoint: the outcome of the [n]-th request ([n] from 0),
    given its payload. *)
Definition Endpoint := nat -> Payload.t -> Outcome.

(** The world the handler acts on: the prompts [generate_response] has
    been called with, and the requests sent to the endpoint, the latest
    first in both. *)
Record World := {
  calls : list str;
  requests : list Payload.t
}.

(** The world before anything was asked of the handler. *)
Definition untouched : World := {| calls := []; requests := [] |}.

(** [requests.post(...)] followed by [raise_for_status()] and [json()],
    after the requests [sent] so far. *)
Definition post (endpoint : Endpoint) (payload : Payload.t)
    (sent : list Payload.t) : Outcome * list Payload.t :=
  (endpoint (List.length sent) payload, payload :: sent).

(** [range(n)]. *)
Definition range (n : Z) : list Z :=
  List.map Z.of_nat (List.seq 0 (Z.to_nat n)).

Definition get {A} (field : option A) (default : A) : A :=
  match field with
  | Some v => v
  | None => default
  end.

Section Handler.
Variable config : Config.t.
Variable endpoint : Endpoint.

(** [self.model] and [self.max_retries], set by [__init__]. *)
Definition self_model : str := Config.OLLAMA_MODEL config.
Definition max_retries : Z := Config.MAX_RETRIES config.

(** The [for attempt in range(self.max_retries)] loop, over the attempts
    that remain.  Running out of attempts is the [return None] after the
    loop.  Before it returns a reply the [try] block formats
    [result.get('response', '')[:100]] for the log: a value that cannot be
    sliced raises there, [except Exception] catches it and the handler
    returns [None]. *)
Fixpoint attempt_loop (payload : Payload.t) (attempts : list Z)
    (sent : list Payload.t) : option Reply.t * list Payload.t :=
  match attempts with
  | [] => (None, sent)
  | attempt :: rest =>
      let (outcome, sent) := post endpoint payload sent in
      match outcome with
      | Replied result =>
          if Json.sliceable (get (Body.response result) (Json.Str []))
          then
            (Some {| Reply.response :=
                       get (Body.response result) (Json.Str []);
                     Reply.model := get (Body.model result) self_model;
                     Reply.total_duration :=
                       get (Body.total_duration result) 0%Z;
                     Reply.load_duration :=
                       get (Body.load_duration result) 0%Z;
                     Reply.prompt_eval_count :=
                       get (Body.prompt_eval_count result) 0%Z;
                     Reply.eval_count := get (Body.eval_count result) 0%Z |},
             sent)
          else (None, sent)
      | Timeout =>
          if (attempt =? max_retries - 1)%Z then (None, sent)
          else attempt_loop payload rest sent
      | ConnectionError => (None, sent)
      | HTTPError => (None, sent)
      | JSONDecodeError => (None, sent)
      | OtherException => (None, sent)
      end
  end.

(** The [payload] dictionary; a [temperature] of [None] is replaced by
    [Config.TEMPERATURE]. *)
Definition build_payload (prompt : str) (temperature : option Q) : Payload.t :=
  let temperature := get temperature (Config.TEMPERATURE config) in
  {| Payload.model := self_model;
     Payload.prompt := prompt;
     Payload.stream := false;
     Payload.temperature := temperature;
     Payload.num_predict := Config.MAX_TOKENS config |}.

(** [generate_response(prompt, temperature=None)]: the call is recorded,
    then the loop runs. *)
Definition generate_response (prompt : str) (temperature : option Q)
    (w : World) : option Reply.t * World :=
  let payload := build_payload prompt temperature in
  let (result, sent) :=
    attempt_loop payload (range max_retries) (requests w) in
  (result, {| calls := prompt :: calls w; requests := sent |}).
End Handler.

End OllamaHandler.

(** ** [src/fake_news_classifier.py] *)

Module FakeNewsClassifier.
Import Py.

(** The dictionary [_parse_model_response] returns. *)
Module Parsed.
Record t := {
  classification : str;
  confidence : Z;
  reasoning : str;
  raw_response : str
}.
End Parsed.

(** The [model_info] entry of a successful result. *)
Module ModelInfo.
Record t := {
  model : str;
  eval_count : Z
}.
End ModelInfo.

(** The dictionary [classify] returns.  A key that a branch of [classify]
    does not set, and a key it sets to [None], are both [None] here.  The
    [reasoning] is the parser's text, or the reply as the handler gave it
    in the branch of the parse failure. *)
Module Result.
Record t := {
  success : bool;
  error : option str;
  classification : option str;
  confidence : Z;
  reasoning : option Json.t;
  features : option TextPreprocessor.Features.t;
  model_info : option ModelInfo.t
}.
End Result.

Definition quote : str := [34%N].

(** [_create_classification_prompt(text)]: the f-string around the text. *)
Definition _create_classification_prompt (text : str) : str :=
  lit "You are an expert fact-checker and misinformation analyst. Analyze the following news article or headline and determine if it is REAL or FAKE news.

Consider the following factors:
1. Sensationalism and emotional manipulation
2. Factual claims that can be verified
3. Source credibility indicators
4. Logical consistency and coherence
5. Use of clickbait language
6. Presence of verifiable facts vs opinions

News Article/Headline:
" ++ quote ++ text ++ quote ++ lit "

Provide your analysis in the following format:

CLASSIFICATION: [REAL or FAKE]
CONFIDENCE: [A percentage from 0-100]
REASONING: [Detailed explanation of your decision, highlighting specific indicators]

Be thorough and analytical in your reasoning.".

(** The two error messages of [classify]'s own. *)
Definition communication_error : str :=
  lit "Failed to communicate with Ollama. Please ensure the service is running.".

Definition parse_error : str := lit "Failed to parse model response".

(** The class [[:\-]]. *)
Definition separator (c : char) : bool :=
  char_eqb c 58%N || char_eqb c 45%N.

Section WithUnicode.
Variable db : UnicodeData.

(** [LABEL\s*[:\-]\s*] followed by [k]. *)
Definition labelled {A} (eqb : char -> char -> bool) (label : str)
    (k : Re.cont A) : Re.cont A :=
  Re.literal eqb label
    (Re.star (isspace db) (Re.one separator (Re.star (isspace db) k))).

(** The group [(REAL|FAKE)], last in its pattern. *)
Definition real_or_fake : Re.cont str :=
  Re.alt (Re.literal char_eqb (lit "REAL") (fun _ => Some (lit "REAL")))
         (Re.literal char_eqb (lit "FAKE") (fun _ => Some (lit "FAKE"))).

(** [re.search(r'CLASSIFICATION\s*[:\-]\s*(REAL|FAKE)', s)], as
    [group(1)] of the match. *)
Definition classification_match (s : str) : option str :=
  Re.search (labelled char_eqb (lit "CLASSIFICATION") real_or_fake) s.

(** [re.search(r'CONFIDENCE\s*[:\-]\s*(\d{1,3})', s)]. *)
Definition confidence_match (s : str) : option str :=
  Re.search
    (labelled char_eqb (lit "CONFIDENCE")
       (Re.capture_upto (isdecimal db) 3)) s.

(** [re.search] of the label [REASONING\s*[:\-]\s*] followed by a group
    that takes every character left, under [re.IGNORECASE | re.DOTALL]:
    [group(1)] is the rest of the text. *)
Definition reasoning_match (s : str) : option str :=
  Re.search
    (labelled (ignorecase_eqb db) (lit "REASONING") (fun rest => Some rest))
    s.

(** The [try] block of [_parse_model_response] on a [str]; [None] is an
    exception raised inside it, which only [int()] could raise. *)
Definition parse_body (response : str) : option Parsed.t :=
  let response_upper := upper db response in
  let classification :=
    match classification_match response_upper with
    | Some group1 => group1
    | None => lit "UNKNOWN"
    end in
  match
    match confidence_match response_upper with
    | Some group1 => int db group1
    | None => Some 50%Z
    end
  with
  | None => None
  | Some confidence =>
      let confidence := Z.max 0 (Z.min 100 confidence) in
      let reasoning :=
        match reasoning_match response with
        | Some group1 => strip db group1
        | None => strip db response
        end in
      Some {| Parsed.classification := classification;
              Parsed.confidence := confidence;
              Parsed.reasoning := reasoning;
              Parsed.raw_response := response |}
  end.

(** The dictionary of the [except] branch, for a [str]. *)
Definition fault_record (response : str) : Parsed.t :=
  {| Parsed.classification := lit "UNKNOWN";
     Parsed.confidence := 0;
     Parsed.reasoning := strip db response;
     Parsed.raw_response := response |}.

(** [_parse_model_response(response)] on the value it is called with.
    The [try] block starts with [response.upper()], which a value that is
    not a [str] does not have: the [AttributeError] is caught like any
    exception of the block.  The [except] branch then builds its record
    with [response.strip()], outside any [try]: on a [str] it returns the
    record, on any other value the [AttributeError] of [strip] leaves the
    function. *)
Definition _parse_model_response (response : Json.t)
  : Completion (option Parsed.t) :=
  match
    match response with
    | Json.Str response => parse_body response
    | _ => None
    end
  with
  | Some parsed => Returned (Some parsed)
  | None =>
      match response with
      | Json.Str response => Returned (Some (fault_record response))
      | _ => Raised (no_attribute response (lit "strip"))
      end
  end.

Variable config : Config.t.
Variable endpoint : OllamaHandler.Endpoint.

(** The record of the three failure branches of [classify]. *)
Definition failure (error : option str) (reasoning : option Json.t)
  : Result.t :=
  {| Result.success := false;
     Result.error := error;
     Result.classification := None;
     Result.confidence := 0;
     Result.reasoning := reasoning;
     Result.features := None;
     Result.model_info := None |}.

(** [classify(text)], in the world of the requests sent.  Nothing in it
    catches what the parser raises. *)
Definition classify (text : str) (w : OllamaHandler.World)
  : Completion Result.t * OllamaHandler.World :=
  let (is_valid, error_msg) :=
    TextPreprocessor.validate_input db text
      TextPreprocessor.default_min_length
      TextPreprocessor.default_max_length in
  if negb is_valid then (Returned (failure error_msg None), w)
  else
    let cleaned_text := TextPreprocessor.clean_text db text in
    let features := TextPreprocessor.extract_features db cleaned_text in
    let prompt := _create_classification_prompt cleaned_text in
    let (model_output, w) :=
      OllamaHandler.generate_response config endpoint prompt None w in
    match model_output with
    | None =>
        (Returned (failure (Some communication_error) None), w)
    | Some model_output =>
        match
          _parse_model_response (OllamaHandler.Reply.response model_output)
        with
        | Raised e => (Raised e, w)
        | Returned None =>
            (Returned
               (failure (Some parse_error)
                  (Some (OllamaHandler.Reply.response model_output))), w)
        | Returned (Some parsed_result) =>
            (Returned
               {| Result.success := true;
                  Result.error := None;
                  Result.classification :=
                    Some (Parsed.classification parsed_result);
                  Result.confidence := Parsed.confidence parsed_result;
                  Result.reasoning :=
                    Some (Json.Str (Parsed.reasoning parsed_result));
                  Result.features := Some features;
                  Result.model_info :=
                    Some {| ModelInfo.model :=
                              OllamaHandler.Reply.model model_output;
                            ModelInfo.eval_count :=
                              OllamaHandler.Reply.eval_count model_output |} |},
             w)
        end
    end.
End WithUnicode.

End FakeNewsClassifier.

(** ** [app.py] *)

Module App.
Import Py.

(** What a run of the script puts on the page, as it stands when the run
    ends.  [Empty] is a placeholder of [st.empty()] with nothing in it; a
    spinner is gone once its block is left. *)
Inductive Element :=
| Title (body : str)
| Caption (body : str)
| Subheader (body : str)
| TextArea (placeholder : str)
| Button (label : str)
| Warning (body : str)
| Error (body : str)
| Markdown (body : str)
| Empty.

(** The object [FakeNewsClassifier()]. *)
Inductive Classifier := FakeNewsClassifier_object.

(** [st.session_state] as a run finds it: each of the three keys may be
    missing. *)
Module Stored.
Record t := {
  classifier : option (option Classifier);
  latest_result : option (option FakeNewsClassifier.Result.t);
  is_loading : option bool
}.
End Stored.

(** [st.session_state] with the three keys set. *)
Module SessionState.
Record t := {
  classifier : option Classifier;
  latest_result : option FakeNewsClassifier.Result.t;
  is_loading : bool
}.
End SessionState.

(** The session state of a new session, and the one a run leaves to the
    next. *)
Definition fresh : Stored.t :=
  {| Stored.classifier := None;
     Stored.latest_result := None;
     Stored.is_loading := None |}.

Definition kept_for_next_run (s : SessionState.t) : Stored.t :=
  {| Stored.classifier := Some (SessionState.classifier s);
     Stored.latest_result := Some (SessionState.latest_result s);
     Stored.is_loading := Some (SessionState.is_loading s) |}.

(** [initialize_session_state()]: a missing key gets its default. *)
Definition initialize_session_state (state : Stored.t) : SessionState.t :=
  {| SessionState.classifier :=
       match Stored.classifier state with
       | None => None
       | Some v => v
       end;
     SessionState.latest_result :=
       match Stored.latest_result state with
       | None => None
       | Some v => v
       end;
     SessionState.is_loading :=
       match Stored.is_loading state with
       | None => false
       | Some v => v
       end |}.

(** [render_hero()]. *)
Definition render_hero : list Element :=
  [Title (lit "TruthLens");
   Caption (lit "Simple AI verification for news text")].

(** [a == b] on two [str]. *)
Fixpoint str_eqb (a b : str) : bool :=
  match a, b with
  | [], [] => true
  | x :: a', y :: b' => char_eqb x y && str_eqb a' b'
  | _, _ => false
  end.

(** The two labels of the result card. *)
Definition real_news : str := [9989%N] ++ lit " Real News".
Definition fake_news : str := [9888%N] ++ [65039%N] ++ lit " Fake News".

(** The f-string of the result block. *)
Definition result_block (label_class label_text : str) (confidence : Z)
  : str :=
  lit "
        <div class=" ++ FakeNewsClassifier.quote ++ lit "result-box" ++ FakeNewsClassifier.quote ++ lit ">
            <div class=" ++ FakeNewsClassifier.quote ++ lit "result-title" ++ FakeNewsClassifier.quote ++ lit ">Analysis Result</div>
            <div class=" ++ FakeNewsClassifier.quote
  ++ label_class
  ++ FakeNewsClassifier.quote ++ lit ">"
  ++ label_text
  ++ lit "</div>
            <div class=" ++ FakeNewsClassifier.quote ++ lit "confidence" ++ FakeNewsClassifier.quote ++ lit ">Confidence: <strong>"
  ++ str_of_int confidence
  ++ lit "%</strong></div>
        ".

(** The f-string of the explanation block. *)
Definition explanation_block (reasoning : str) : str :=
  lit "
            <div class=" ++ FakeNewsClassifier.quote ++ lit "explanation-block" ++ FakeNewsClassifier.quote ++ lit ">
                <strong>Explanation:</strong><br>"
  ++ reasoning
  ++ lit "
            </div>
            ".

Section WithService.
Variable db : UnicodeData.
Variable config : Config.t.
Variable endpoint : OllamaHandler.Endpoint.

(** [str(v)] for a value that is not a [str], as the interpreter prints
    it; an f-string calls it on what it interpolates. *)
Variable str_of_value : Json.t -> str.

Definition format (v : Json.t) : str :=
  match v with
  | Json.Str s => s
  | _ => str_of_value v
  end.

(** [render_result_card(result)].  The argument is [None] or a dictionary
    of [classify]; a classification of [None] is not equal to REAL. *)
Definition render_result_card (result : option FakeNewsClassifier.Result.t)
  : list Element :=
  match result with
  | None => []
  | Some result =>
      if negb (FakeNewsClassifier.Result.success result) then []
      else
        let classification := FakeNewsClassifier.Result.classification result in
        let confidence := FakeNewsClassifier.Result.confidence result in
        let is_real :=
          match classification with
          | Some c => str_eqb c (lit "REAL")
          | None => false
          end in
        let label_class :=
          if is_real then lit "result-real" else lit "result-fake" in
        let label_text := if is_real then real_news else fake_news in
        [Markdown (result_block label_class label_text confidence)]
        ++ match FakeNewsClassifier.Result.reasoning result with
           | Some reasoning =>
               if Json.truthy reasoning
               then [Markdown (explanation_block (format reasoning))]
               else []
           | None => []
           end
        ++ [Markdown (lit "</div>")]
  end.

(** The loader of the results column, and the text shown before any
    analysis. *)
Definition loader : str :=
  lit "
                <div class='card loader-container'>
                    <div class='loader'></div>
                    <div class='loading-text'>Analyzing your content...</div>
                </div>
                ".

Definition how_it_works : str :=
  lit "
                <div class='card card--accent'>
                    <div class='section-header'>How It Works</div>
                    <ul style='margin: 10px 0; padding-left: 20px;'>
                        <li>Enter or paste news content in the left panel</li>
                        <li>Click 'Analyze' to verify authenticity</li>
                        <li>Get instant Fake/Real classification</li>
                        <li>View confidence score and explanation</li>
                    </ul>
                </div>
                ".

(** The left column: the text area and the button. *)
Definition left_col : list Element :=
  [Subheader (lit "Enter News Content");
   TextArea (lit "Paste your news article or headline...");
   Button (lit "Analyze")].

(** [main()], one run of the script: the session state it finds, the text
    of the text area, whether the button was pressed, and the world of the
    requests.  What [classify] raises is caught and shown by [st.error],
    and the latest result stays as it was; [finally] resets [is_loading]
    and empties the placeholder of the loader. *)
Definition main (state : Stored.t) (news_text : str) (analyze_button : bool)
    (w : OllamaHandler.World)
  : list Element * SessionState.t * OllamaHandler.World :=
  let s := initialize_session_state state in
  let hero := render_hero in
  let s :=
    match SessionState.classifier s with
    | None =>
        {| SessionState.classifier := Some FakeNewsClassifier_object;
           SessionState.latest_result := SessionState.latest_result s;
           SessionState.is_loading := SessionState.is_loading s |}
    | Some _ => s
    end in
  let '(pressed, s, w) :=
    if analyze_button then
      if TextPreprocessor.falsy (strip db news_text)
      then ([Warning (lit "Please enter text to analyze.")], s, w)
      else
        let s :=
          {| SessionState.classifier := SessionState.classifier s;
             SessionState.latest_result := SessionState.latest_result s;
             SessionState.is_loading := true |} in
        let (result, w) :=
          FakeNewsClassifier.classify db config endpoint news_text w in
        let (shown, s) :=
          match result with
          | Returned result =>
              ([],
               {| SessionState.classifier := SessionState.classifier s;
                  SessionState.latest_result := Some result;
                  SessionState.is_loading := SessionState.is_loading s |})
          | Raised e =>
              ([Error
                  ([10060%N] ++ lit " **Analysis Error:** "
                     ++ str_of_exception e)],
               s)
          end in
        let s :=
          {| SessionState.classifier := SessionState.classifier s;
             SessionState.latest_result := SessionState.latest_result s;
             SessionState.is_loading := false |} in
        (Empty :: shown, s, w)
    else ([], s, w) in
  let results :=
    if SessionState.is_loading s then [Markdown loader]
    else
      match SessionState.latest_result s with
      | Some result => render_result_card (Some result)
      | None => [Markdown how_it_works]
      end in
  (hero ++ left_col ++ [Subheader (lit "Analysis Results")] ++ pressed
     ++ results,
   s, w).
End WithService.

End App.

(** * Vocabulary of the properties *)

(** Two neighbours that are the same character of the class [p]: a run of
    two or more identical characters of the class. *)
Fixpoint has_run (p : Py.char -> bool) (s : Py.str) : bool :=
  match s with
  | [] => false
  | c :: t =>
      match t with
      | d :: _ => p c && Py.char_eqb c d
      | [] => false
      end || has_run p t
  end.

(** Two neighbours that are both of the class [p]: a run of the class that
    is longer than one character. *)
Fixpoint has_adjacent (p : Py.char -> bool) (s : Py.str) : bool :=
  match s with
  | [] => false
  | c :: t =>
      match t with
      | d :: _ => p c && p d
      | [] => false
      end || has_adjacent p t
  end.

(** The marks that [clean_text] keeps, and the marks whose runs it
    collapses, as classes. *)
Definition kept_mark (c : Py.char) : bool :=
  TextPreprocessor.mem c TextPreprocessor.kept_punctuation.

Definition collapsed_mark (c : Py.char) : bool :=
  TextPreprocessor.mem c TextPreprocessor.collapsed_punctuation.

(** The text [s] holds, somewhere, the label, optional whitespace, a colon
    or a hyphen, optional whitespace, and then a text [g] that [payload]
    accepts. *)
Definition follows_label (db : Py.UnicodeData) (label : Py.str)
    (payload : Py.str -> Prop) (s : Py.str) : Prop :=
  exists pre ws1 sep ws2 g post,
    s = pre ++ label ++ ws1 ++ sep :: ws2 ++ g ++ post /\
    List.forallb (Py.isspace db) ws1 = true /\
    FakeNewsClassifier.separator sep = true /\
    List.forallb (Py.isspace db) ws2 = true /\
    payload g.

(** One to three decimal digits. *)
Definition digits_1_3 (db : Py.UnicodeData) (g : Py.str) : Prop :=
  (1 <= List.length g <= 3)%nat /\ List.forallb (Py.isdecimal db) g = true.

(** [max(0, min(100, n))]. *)
Definition clamp (n : Z) : Z := Z.max 0 (Z.min 100 n).

(** The reply of the scenario: three labelled lines. *)
Definition labelled_reply : Py.str :=
  Py.lit "CLASSIFICATION: REAL" ++ [10%N] ++ Py.lit "CONFIDENCE: 95"
    ++ [10%N] ++ Py.lit "REASONING: ...".

(** The three failures that the client does not retry. *)
Definition non_transient (o : OllamaHandler.Outcome) : bool :=
  match o with
  | OllamaHandler.ConnectionError => true
  | OllamaHandler.HTTPError => true
  | OllamaHandler.JSONDecodeError => true
  | _ => false
  end.

(** The world after [generate_response] was called with a prompt in the
    world [w] and sent [n] requests. *)
Definition sent_after (config : Config.t) (prompt : Py.str)
    (temperature : option Q) (n : nat) (w : OllamaHandler.World)
  : OllamaHandler.World :=
  {| OllamaHandler.calls := prompt :: OllamaHandler.calls w;
     OllamaHandler.requests :=
       List.repeat (OllamaHandler.build_payload config prompt temperature) n
         ++ OllamaHandler.requests w |}.

(** The prompt that [classify] sends for a text. *)
Definition prompt_of (db : Py.UnicodeData) (text : Py.str) : Py.str :=
  FakeNewsClassifier._create_classification_prompt
    (TextPreprocessor.clean_text db text).

(** [validate_input] as [classify] calls it, with the default bounds. *)
Definition validate (db : Py.UnicodeData) (text : Py.str)
  : bool * option Py.str :=
  TextPreprocessor.validate_input db text
    TextPreprocessor.default_min_length TextPreprocessor.default_max_length.

(** Every whitespace character of the text is the space itself. *)
Definition plain_spaces (db : Py.UnicodeData) (s : Py.str) : bool :=
  List.forallb (fun c => negb (Py.isspace db c) || Py.char_eqb c 32%N) s.

(** The text is empty or ends with a character that is not whitespace. *)
Definition ends_tight (db : Py.UnicodeData) (s : Py.str) : Prop :=
  s = [] \/ exists v c, s = v ++ [c] /\ Py.isspace db c = false.

(** The text is empty or starts with a character that is not whitespace. *)
Definition starts_tight (db : Py.UnicodeData) (s : Py.str) : Prop :=
  match s with
  | [] => True
  | c :: _ => Py.isspace db c = false
  end.

(** A word character that is not whitespace: a letter, a digit or an
    underscore of any script, as [\w] of the [regex] module reads it. *)
Definition word_character (db : Py.UnicodeData) (c : Py.char) : bool :=
  Py.re_word db c && negb (Py.isspace db c).

(** The reply [s] holds the label REASONING in any letter case, optional
    whitespace and a colon or a hyphen; [rest] is all that follows. *)
Definition reasoning_label (db : Py.UnicodeData) (s rest : Py.str) : Prop :=
  exists pre m ws sep,
    s = pre ++ m ++ ws ++ sep :: rest /\
    List.Forall2 (fun p c => Py.ignorecase_eqb db p c = true)
      (Py.lit "REASONING") m /\
    List.forallb (Py.isspace db) ws = true /\
    FakeNewsClassifier.separator sep = true.

(** The text [t] starts with a match of a label pattern: the label,
    optional whitespace, a colon or a hyphen, optional whitespace, and a
    text [g] that [payload] accepts. *)
Definition starts_with_label (db : Py.UnicodeData) (label : Py.str)
    (payload : Py.str -> Prop) (t : Py.str) : Prop :=
  exists ws1 sep ws2 g post,
    t = label ++ ws1 ++ sep :: ws2 ++ g ++ post /\
    List.forallb (Py.isspace db) ws1 = true /\
    FakeNewsClassifier.separator sep = true /\
    List.forallb (Py.isspace db) ws2 = true /\
    payload g.

(** [g] is the group of the match that [re.search] returns for the
    pattern of the confidence in [s].  The match is the one at the
    leftmost position at which the pattern matches.  There, the whitespace
    before the group is the longest run that a digit follows, and the
    group takes three digits or stops where the digits stop, both items
    being greedy. *)
Definition first_confidence (db : Py.UnicodeData) (s g : Py.str) : Prop :=
  exists pre ws1 sep ws2 post,
    s = pre ++ Py.lit "CONFIDENCE" ++ ws1 ++ sep :: ws2 ++ g ++ post /\
    List.forallb (Py.isspace db) ws1 = true /\
    FakeNewsClassifier.separator sep = true /\
    List.forallb (Py.isspace db) ws2 = true /\
    digits_1_3 db g /\
    (forall pre' t,
       s = pre' ++ t -> (List.length pre' < List.length pre)%nat ->
       ~ starts_with_label db (Py.lit "CONFIDENCE") (digits_1_3 db) t) /\
    (forall ws c rest,
       ws2 ++ g ++ post = ws ++ c :: rest ->
       List.forallb (Py.isspace db) ws = true ->
       Py.isdecimal db c = true ->
       (List.length ws <= List.length ws2)%nat) /\
    ((List.length g = 3)%nat \/
     match post with
     | [] => True
     | c :: _ => Py.isdecimal db c = false
     end).

(** The text [t] starts with the label REASONING in any letter case,
    optional whitespace and a colon or a hyphen. *)
Definition starts_with_reasoning (db : Py.UnicodeData) (t : Py.str) : Prop :=
  exists m ws sep rest,
    t = m ++ ws ++ sep :: rest /\
    List.Forall2 (fun p c => Py.ignorecase_eqb db p c = true)
      (Py.lit "REASONING") m /\
    List.forallb (Py.isspace db) ws = true /\
    FakeNewsClassifier.separator sep = true.

(** [rest] is all that follows the first REASONING label of [s]: the label
    at the leftmost position at which the text holds one. *)
Definition first_reasoning_label (db : Py.UnicodeData) (s rest : Py.str)
  : Prop :=
  exists pre m ws sep,
    s = pre ++ m ++ ws ++ sep :: rest /\
    List.Forall2 (fun p c => Py.ignorecase_eqb db p c = true)
      (Py.lit "REASONING") m /\
    List.forallb (Py.isspace db) ws = true /\
    FakeNewsClassifier.separator sep = true /\
    (forall pre' t,
       s = pre' ++ t -> (List.length pre' < List.length pre)%nat ->
       ~ starts_with_reasoning db t).

(** The dictionary that [generate_response] builds from a decoded body,
    each absent field replaced by its default. *)
Definition reply_of (config : Config.t) (body : OllamaHandler.Body.t)
  : OllamaHandler.Reply.t :=
  {| OllamaHandler.Reply.response :=
       OllamaHandler.get (OllamaHandler.Body.response body) (Json.Str []);
     OllamaHandler.Reply.model :=
       OllamaHandler.get (OllamaHandler.Body.model body)
         (Config.OLLAMA_MODEL config);
     OllamaHandler.Reply.total_duration :=
       OllamaHandler.get (OllamaHandler.Body.total_duration body) 0%Z;
     OllamaHandler.Reply.load_duration :=
       OllamaHandler.get (OllamaHandler.Body.load_duration body) 0%Z;
     OllamaHandler.Reply.prompt_eval_count :=
       OllamaHandler.get (OllamaHandler.Body.prompt_eval_count body) 0%Z;
     OllamaHandler.Reply.eval_count :=
       OllamaHandler.get (OllamaHandler.Body.eval_count body) 0%Z |}.

(** What every run of the page shows above the results: the title and
    caption, the left column and the header of the results column. *)
Definition frame : list App.Element :=
  App.render_hero ++ App.left_col
    ++ [App.Subheader (Py.lit "Analysis Results")].

(** A session of the page: one run of [main] for each pair of the text in
    the text area and whether the button was pressed, the session state
    of a run handed to the next.  The result is the pages shown, in order,
    the session state left and the world. *)
Fixpoint session (db : Py.UnicodeData) (config : Config.t)
    (endpoint : OllamaHandler.Endpoint) (str_of_value : Json.t -> Py.str)
    (state : App.Stored.t) (inputs : list (Py.str * bool))
    (w : OllamaHandler.World)
  : list (list App.Element) * App.Stored.t * OllamaHandler.World :=
  match inputs with
  | [] => ([], state, w)
  | (news_text, analyze_button) :: rest =>
      let '(page, s, w) :=
        App.main db config endpoint str_of_value state news_text
          analyze_button w in
      let '(pages, state, w) :=
        session db config endpoint str_of_value (App.kept_for_next_run s)
          rest w in
      (page :: pages, state, w)
  end.

(** The runs of a session that ask for an analysis: the button pressed on
    a text that is not blank. *)
Definition analyses (db : Py.UnicodeData) (inputs : list (Py.str * bool))
  : nat :=
  List.length
    (List.filter
       (fun input : Py.str * bool =>
          snd input && negb (TextPreprocessor.falsy (Py.strip db (fst input))))
       inputs).

(** The results column that [main] draws for a session state. *)
Definition results (str_of_value : Json.t -> Py.str)
    (s : App.SessionState.t) : list App.Element :=
  if App.SessionState.is_loading s then [App.Markdown App.loader]
  else
    match App.SessionState.latest_result s with
    | Some result => App.render_result_card str_of_value (Some result)
    | None => [App.Markdown App.how_it_works]
    end.

(** The session state that a run finds, once [main] has set the missing
    keys and the classifier. *)
Definition ready (state : App.Stored.t) : App.SessionState.t :=
  let s := App.initialize_session_state state in
  {| App.SessionState.classifier := Some App.FakeNewsClassifier_object;
     App.SessionState.latest_result := App.SessionState.latest_result s;
     App.SessionState.is_loading := App.SessionState.is_loading s |}.

(** The session state after a run whose analysis raised: the latest result
    is the one the run found, and [is_loading] is reset. *)
Definition settled (state : App.Stored.t) : App.SessionState.t :=
  {| App.SessionState.classifier := Some App.FakeNewsClassifier_object;
     App.SessionState.latest_result :=
       App.SessionState.latest_result (App.initialize_session_state state);
     App.SessionState.is_loading := false |}.

(** The message [st.error] shows for an exception. *)
Definition analysis_error (e : Exception) : Py.str :=
  [10060%N] ++ Py.lit " **Analysis Error:** " ++ str_of_exception e.

(** * Properties *)

Lemma char_eqb_eq (a b : Py.char) : Py.char_eqb a b = true <-> a = b.
Proof. apply N.eqb_eq. Qed.

(** ** Whitespace trimming *)

Section StripFacts.
Import Py.
Variable db : UnicodeData.

Lemma lstrip_app (a b : str) :
  lstrip db (a ++ b) =
  if List.forallb (isspace db) a then lstrip db b else lstrip db a ++ b.
Proof.
  induction a as [|c a IH]; simpl; [reflexivity|].
  destruct (isspace db c); simpl; [exact IH | reflexivity].
Qed.

Lemma lstrip_spaces (a : str) :
  List.forallb (isspace db) a = true -> lstrip db a = [].
Proof.
  intros H. rewrite <- (app_nil_r a), lstrip_app, H. reflexivity.
Qed.

(** What [lstrip] removes is a prefix of whitespace. *)
Lemma lstrip_suffix (s : str) :
  exists a, s = a ++ lstrip db s /\ List.forallb (isspace db) a = true.
Proof.
  induction s as [|c s [a [E F]]]; simpl.
  - now exists [].
  - destruct (isspace db c) eqn:Ec.
    + exists (c :: a). simpl. rewrite Ec, F. now rewrite <- E.
    + now exists [].
Qed.

(** What [rstrip] removes is a suffix of whitespace. *)
Lemma rstrip_prefix (s : str) :
  exists b, s = rstrip db s ++ b /\ List.forallb (isspace db) b = true.
Proof.
  unfold rstrip. destruct (lstrip_suffix (List.rev s)) as [a [E F]].
  exists (List.rev a). split.
  - rewrite <- rev_app_distr, <- E. now rewrite rev_involutive.
  - rewrite forallb_forall in *. intros x Hx. apply F.
    now apply in_rev.
Qed.

Lemma forallb_rev (p : char -> bool) (a : str) :
  List.forallb p (List.rev a) = List.forallb p a.
Proof.
  induction a as [|c a IH]; simpl; [reflexivity|].
  rewrite forallb_app, IH. simpl. rewrite andb_true_r. apply andb_comm.
Qed.

Lemma rstrip_app_spaces (s r : str) :
  List.forallb (isspace db) r = true -> rstrip db (s ++ r) = rstrip db s.
Proof.
  intros H. unfold rstrip.
  now rewrite rev_app_distr, lstrip_app, forallb_rev, H.
Qed.

(** Whitespace around a text does not change what [strip] leaves. *)
Lemma strip_padding (l core r : str) :
  List.forallb (isspace db) l = true ->
  List.forallb (isspace db) r = true ->
  strip db (l ++ core ++ r) = strip db core.
Proof.
  intros Hl Hr. unfold strip.
  rewrite lstrip_app, Hl, lstrip_app.
  destruct (List.forallb (isspace db) core) eqn:Hc.
  - rewrite (lstrip_spaces _ Hr), (lstrip_spaces _ Hc). reflexivity.
  - now apply rstrip_app_spaces.
Qed.
End StripFacts.

(** ** Input validation *)

Section ValidateInput.
Import Py TextPreprocessor.
Variable db : UnicodeData.

(** The first test of [validate_input] only depends on the trimmed text:
    an empty text trims to an empty text. *)
Lemma blank_test (text : str) :
  falsy text || falsy (strip db text) = falsy (strip db text).
Proof. destruct text; reflexivity. Qed.

Lemma falsy_nil (s : str) : falsy s = true <-> s = [].
Proof. destruct s; simpl; split; congruence. Qed.

(** [validate_input] reads its text through [strip] only. *)
Lemma validate_input_strip (text text' : str) (min_length max_length : Z) :
  strip db text = strip db text' ->
  validate_input db text min_length max_length =
  validate_input db text' min_length max_length.
Proof.
  intros E. unfold validate_input. rewrite !blank_test, E. reflexivity.
Qed.

Lemma too_short_message_wording (min_length : Z) :
  contains (lit "too short") (too_short_message min_length) = true.
Proof. reflexivity. Qed.

Lemma too_long_message_wording (max_length : Z) :
  contains (lit "too long") (too_long_message max_length) = true.
Proof. reflexivity. Qed.

Lemma too_long_is_not_too_short (min_length max_length : Z) :
  too_short_message min_length <> too_long_message max_length.
Proof.
  intros H. apply (f_equal (fun m => List.nth 9 m 0%N)) in H.
  vm_compute in H. discriminate H.
Qed.

(** The answers of [validate_input], by the first test that fails. *)
Lemma validate_input_cases (text : str) (min_length max_length : Z) :
  let t := strip db text in
  let answer := validate_input db text min_length max_length in
  (t = [] -> answer = (false, Some empty_message)) /\
  (t <> [] -> (len t < min_length)%Z ->
   answer = (false, Some (too_short_message min_length))) /\
  (t <> [] -> (min_length <= len t)%Z -> (max_length < len t)%Z ->
   answer = (false, Some (too_long_message max_length))) /\
  (t <> [] -> (min_length <= len t <= max_length)%Z ->
   List.existsb (is_letter db) t = false ->
   answer = (false, Some alphabetic_message)) /\
  (t <> [] -> (min_length <= len t <= max_length)%Z ->
   List.existsb (is_letter db) t = true ->
   answer = (true, None)).
Proof.
  intros t answer. subst answer. unfold validate_input.
  rewrite blank_test. fold t.
  destruct t as [|c t'] eqn:Et; simpl falsy; cbv iota.
  - repeat split; intros; congruence.
  - split; [intros; discriminate|].
    destruct (Z.ltb_spec (len (c :: t')) min_length) as [Hlt|Hge].
    { repeat split; intros; lia. }
    split; [intros; lia|].
    destruct (Z.gtb_spec (len (c :: t')) max_length) as [Hgt|Hle].
    { repeat split; intros; lia. }
    split; [intros; lia|].
    destruct (List.existsb (is_letter db) (c :: t')) eqn:El; simpl negb;
      cbv iota; split; intros; try congruence; reflexivity.
Qed.
End ValidateInput.

(** C5.  [validate_input] tests, in this order, that the trimmed text is not
    blank, that it is not shorter than [min_length], that it is not longer
    than [max_length], and that it holds a letter; the first test that
    fails decides the answer, [(False, message)], with the message "Text
    cannot be empty", a "too short" message, a "too long" message or the
    message about alphabetic characters; when no test fails the answer is
    [(True, None)]. *)
Theorem validate_input_first_failing_check
    (db : Py.UnicodeData) (text : Py.str) (min_length max_length : Z) :
  let t := Py.strip db text in
  let answer := TextPreprocessor.validate_input db text min_length max_length in
  (t = [] ->
   answer = (false, Some (Py.lit "Text cannot be empty"))) /\
  (t <> [] -> (Py.len t < min_length)%Z ->
   answer = (false, Some (TextPreprocessor.too_short_message min_length)) /\
   Py.contains (Py.lit "too short")
     (TextPreprocessor.too_short_message min_length) = true) /\
  (t <> [] -> (min_length <= Py.len t)%Z -> (max_length < Py.len t)%Z ->
   answer = (false, Some (TextPreprocessor.too_long_message max_length)) /\
   Py.contains (Py.lit "too long")
     (TextPreprocessor.too_long_message max_length) = true) /\
  (t <> [] -> (min_length <= Py.len t <= max_length)%Z ->
   List.existsb (Py.is_letter db) t = false ->
   answer = (false, Some (Py.lit "Text must contain alphabetic characters"))) /\
  (t <> [] -> (min_length <= Py.len t <= max_length)%Z ->
   List.existsb (Py.is_letter db) t = true ->
   answer = (true, None)).
Proof.
  intros t answer.
  destruct (validate_input_cases db text min_length max_length)
    as (Hblank & Hshort & Hlong & Hletters & Hok).
  split; [exact Hblank|].
  split; [intros Hne Hlt; split;
          [now apply Hshort | apply too_short_message_wording]|].
  split; [intros Hne Hge Hgt; split;
          [now apply Hlong | apply too_long_message_wording]|].
  split; [exact Hletters | exact Hok].
Qed.

(** The five answers of [validate_input], each on a concrete text. *)
Lemma validate_input_first_failing_check_witness :
  TextPreprocessor.validate_input Py.ascii_only (Py.lit "") 10 10000
    = (false, Some (Py.lit "Text cannot be empty")) /\
  TextPreprocessor.validate_input Py.ascii_only (Py.lit "Hi") 10 10000
    = (false, Some (Py.lit "Text too short. Minimum 10 characters required")) /\
  TextPreprocessor.validate_input Py.ascii_only (Py.lit "Breaking news") 20 5
    = (false, Some (Py.lit "Text too short. Minimum 20 characters required")) /\
  TextPreprocessor.validate_input Py.ascii_only (Py.lit "Breaking news") 10 12
    = (false, Some (Py.lit "Text too long. Maximum 12 characters allowed")) /\
  TextPreprocessor.validate_input Py.ascii_only
      (Py.lit "1234567890!!!@@@###") 10 10000
    = (false, Some (Py.lit "Text must contain alphabetic characters")) /\
  TextPreprocessor.validate_input Py.ascii_only
      (Py.lit "This is a proper news article text with enough length.")
      10 10000
    = (true, None).
Proof.
  refine (conj _ (conj _ (conj _ (conj _ (conj _ _))))).
  - apply (validate_input_first_failing_check
             Py.ascii_only (Py.lit "") 10 10000).
    reflexivity.
  - apply (validate_input_first_failing_check
             Py.ascii_only (Py.lit "Hi") 10 10000);
      [vm_compute; discriminate | reflexivity].
  - apply (validate_input_first_failing_check
             Py.ascii_only (Py.lit "Breaking news") 20 5);
      [vm_compute; discriminate | reflexivity].
  - apply (validate_input_first_failing_check
             Py.ascii_only (Py.lit "Breaking news") 10 12);
      [vm_compute; discriminate | vm_compute; discriminate | reflexivity].
  - apply (validate_input_first_failing_check
             Py.ascii_only (Py.lit "1234567890!!!@@@###") 10 10000);
      [vm_compute; discriminate
      | split; vm_compute; discriminate
      | reflexivity].
  - apply (validate_input_first_failing_check
             Py.ascii_only
             (Py.lit "This is a proper news article text with enough length.")
             10 10000);
      [vm_compute; discriminate
      | split; vm_compute; discriminate
      | reflexivity].
Defined.

(** C10.  [validate_input] measures the trimmed text: whitespace put
    around a text changes nothing in the answer, so a text shorter than
    [min_length] is rejected as too short whatever whitespace pads it, and
    a text no longer than [max_length] is never rejected as too long
    because of the whitespace around it. *)
Theorem validate_input_measures_trimmed_text
    (db : Py.UnicodeData) (l core r : Py.str) (min_length max_length : Z) :
  List.forallb (Py.isspace db) l = true ->
  List.forallb (Py.isspace db) r = true ->
  let padded := l ++ core ++ r in
  TextPreprocessor.validate_input db padded min_length max_length
    = TextPreprocessor.validate_input db core min_length max_length /\
  (Py.strip db core <> [] ->
   (Py.len (Py.strip db core) < min_length)%Z ->
   TextPreprocessor.validate_input db padded min_length max_length
     = (false, Some (TextPreprocessor.too_short_message min_length))) /\
  ((Py.len (Py.strip db core) <= max_length)%Z ->
   TextPreprocessor.validate_input db padded min_length max_length
     <> (false, Some (TextPreprocessor.too_long_message max_length))).
Proof.
  intros Hl Hr padded.
  assert (E : Py.strip db padded = Py.strip db core)
    by (apply strip_padding; assumption).
  pose proof (validate_input_cases db padded min_length max_length) as H.
  cbv zeta in H. rewrite E in H.
  destruct H as (Hblank & Hshort & Hlong & Hdigits & Hok).
  split; [apply validate_input_strip; exact E|].
  split; [intros Hne Hlt; now apply Hshort|].
  intros Hle Habs.
  destruct (Py.strip db core) as [|c t] eqn:Es.
  - rewrite (Hblank eq_refl) in Habs. vm_compute in Habs. discriminate Habs.
  - destruct (Z.ltb_spec (Py.len (c :: t)) min_length) as [Hlt|Hge].
    + rewrite (Hshort ltac:(discriminate) Hlt) in Habs.
      assert (Hm : TextPreprocessor.too_short_message min_length
                   = TextPreprocessor.too_long_message max_length)
        by congruence.
      now apply too_long_is_not_too_short in Hm.
    + destruct (List.existsb (Py.is_letter db) (c :: t)) eqn:El.
      * rewrite (Hok ltac:(discriminate) ltac:(lia) eq_refl) in Habs.
        discriminate Habs.
      * rewrite (Hdigits ltac:(discriminate) ltac:(lia) eq_refl) in Habs.
        vm_compute in Habs. discriminate Habs.
Qed.

(** "Hi" between spaces has eleven characters and is still too short for a
    minimum of ten; "Breaking news" between spaces has nineteen and is not
    too long for a maximum of fifteen. *)
Lemma validate_input_measures_trimmed_text_witness :
  (Py.len (Py.lit "    Hi     ") >= 10)%Z /\
  TextPreprocessor.validate_input Py.ascii_only (Py.lit "    Hi     ") 10 10000
    = (false, Some (Py.lit "Text too short. Minimum 10 characters required")) /\
  (Py.len (Py.lit "   Breaking news   ") > 15)%Z /\
  TextPreprocessor.validate_input Py.ascii_only
      (Py.lit "   Breaking news   ") 10 15
    <> (false, Some (TextPreprocessor.too_long_message 15)).
Proof.
  refine (conj _ (conj _ (conj _ _))).
  - vm_compute. discriminate.
  - apply (validate_input_measures_trimmed_text Py.ascii_only
             (Py.lit "    ") (Py.lit "Hi") (Py.lit "     ") 10 10000);
      [reflexivity | reflexivity | vm_compute; discriminate | reflexivity].
  - reflexivity.
  - apply (validate_input_measures_trimmed_text Py.ascii_only
             (Py.lit "   ") (Py.lit "Breaking news") (Py.lit "   ") 10 15);
      [reflexivity | reflexivity | vm_compute; discriminate].
Defined.

(** ** Text cleaning *)

Section Runs.
Import Py.
Variable p : char -> bool.

Lemma has_run_cons (c : char) (s : str) :
  has_run p s = false ->
  (p c = false \/ List.hd_error s <> Some c) ->
  has_run p (c :: s) = false.
Proof.
  intros Hs Hc. destruct s as [|d s']; [reflexivity|].
  change (has_run p (c :: d :: s'))
    with (p c && char_eqb c d || has_run p (d :: s')).
  rewrite Hs, orb_false_r.
  destruct Hc as [Hp|Hd]; [now rewrite Hp|].
  destruct (N.eqb_spec c d) as [->|Hne]; [now elim Hd|].
  unfold char_eqb. rewrite (proj2 (N.eqb_neq c d) Hne). apply andb_false_r.
Qed.

Lemma has_run_app (a b : str) :
  has_run p (a ++ b) = false ->
  has_run p a = false /\ has_run p b = false.
Proof.
  induction a as [|c a IH]; simpl app; intros H; [now split|].
  change (has_run p (c :: a ++ b))
    with (match a ++ b with
          | d :: _ => p c && char_eqb c d
          | [] => false
          end || has_run p (a ++ b)) in H.
  apply orb_false_elim in H. destruct H as [Hh Ht].
  destruct (IH Ht) as [Ha Hb]. split; [|exact Hb].
  destruct a as [|d a']; [reflexivity|].
  change (has_run p (c :: d :: a'))
    with (p c && char_eqb c d || has_run p (d :: a')).
  rewrite Ha. simpl in Hh. now rewrite Hh.
Qed.

(** The output of the substitution starts as asked: after a match on [r]
    it does not start with [r], and outside a match it starts with the
    first character of the text. *)
Lemma sub_repeats_head (s : str) :
  (forall r, List.hd_error (Re.sub_repeats p (Some r) s) <> Some r) /\
  List.hd_error (Re.sub_repeats p None s) = List.hd_error s.
Proof.
  induction s as [|c t [IHr IHn]]; [split; [intros r|]; simpl; congruence|].
  assert (Hfresh :
            List.hd_error
              match t with
              | d :: _ =>
                  if p c && char_eqb c d
                  then c :: Re.sub_repeats p (Some c) t
                  else c :: Re.sub_repeats p None t
              | [] => [c]
              end = Some c).
  { destruct t as [|d t']; [reflexivity|].
    now destruct (p c && char_eqb c d). }
  split.
  - intros r. simpl. unfold char_eqb at 1.
    destruct (N.eqb_spec c r) as [->|Hne]; [apply IHr|].
    rewrite Hfresh. congruence.
  - simpl. exact Hfresh.
Qed.

(** After the substitution no character of the class stands next to a copy
    of itself. *)
Lemma sub_repeats_no_run (s : str) (run : option char) :
  has_run p (Re.sub_repeats p run s) = false.
Proof.
  revert run. induction s as [|c t IH]; intros run; [reflexivity|].
  assert (Hfresh :
            has_run p
              match t with
              | d :: _ =>
                  if p c && char_eqb c d
                  then c :: Re.sub_repeats p (Some c) t
                  else c :: Re.sub_repeats p None t
              | [] => [c]
              end = false).
  { destruct t as [|d t'] eqn:Et; [reflexivity|]. rewrite <- Et in *.
    destruct (p c && char_eqb c d) eqn:E.
    - apply has_run_cons; [apply IH|]. right.
      apply (proj1 (sub_repeats_head t)).
    - apply has_run_cons; [apply IH|].
      rewrite (proj2 (sub_repeats_head t)), Et. simpl.
      apply andb_false_iff in E. destruct E as [E|E]; [now left|right].
      intros H. injection H as ->. unfold char_eqb in E.
      now rewrite N.eqb_refl in E. }
  simpl. destruct run as [r|]; [|exact Hfresh].
  destruct (char_eqb c r); [apply IH | exact Hfresh].
Qed.
End Runs.

(** Trimming what the substitution returned brings no doubled character
    back. *)
Lemma strip_sub_repeats_no_run
    (db : Py.UnicodeData) (p : Py.char -> bool) (s : Py.str) :
  has_run p (Py.strip db (Re.sub_repeats p None s)) = false.
Proof.
  set (u := Re.sub_repeats p None s).
  assert (Hu : has_run p u = false) by apply sub_repeats_no_run.
  unfold Py.strip.
  destruct (lstrip_suffix db u) as [a [Ea _]].
  rewrite Ea in Hu. apply has_run_app in Hu. destruct Hu as [_ Hu].
  destruct (rstrip_prefix db (Py.lstrip db u)) as [b [Eb _]].
  rewrite Eb in Hu. apply has_run_app in Hu. now destruct Hu.
Qed.

(** C4, as the code has it.  For every input the output of [clean_text]
    holds no run of two or more identical marks among [. , ! ? ; :]. *)
Theorem clean_text_collapses_repeated_marks
    (db : Py.UnicodeData) (text : Py.str) :
  has_run collapsed_mark (TextPreprocessor.clean_text db text) = false.
Proof.
  unfold TextPreprocessor.clean_text.
  destruct (TextPreprocessor.falsy text); [reflexivity|].
  apply strip_sub_repeats_no_run.
Qed.

(** C4 does not hold as stated: a doubled hyphen and a doubled apostrophe
    are kept as they are, and the two spaces around a deleted character
    stay side by side. *)
Lemma clean_text_keeps_some_runs :
  TextPreprocessor.clean_text Py.ascii_only (Py.lit "well--known")
    = Py.lit "well--known" /\
  has_run kept_mark
    (TextPreprocessor.clean_text Py.ascii_only (Py.lit "well--known")) = true /\
  has_run kept_mark
    (TextPreprocessor.clean_text Py.ascii_only (Py.lit "rock ''n'' roll"))
    = true /\
  has_adjacent (Py.isspace Py.ascii_only)
    (TextPreprocessor.clean_text Py.ascii_only (Py.lit "a @ b")) = true.
Proof. repeat split. Qed.

(** C3 fails on the code.  The two spaces that the deletion of [@] leaves
    side by side in the first pass are collapsed by the second pass. *)
Theorem clean_text_second_pass_differs (db : Py.UnicodeData) :
  TextPreprocessor.clean_text db (Py.lit "a @ b") = Py.lit "a  b" /\
  TextPreprocessor.clean_text db
    (TextPreprocessor.clean_text db (Py.lit "a @ b")) = Py.lit "a b" /\
  TextPreprocessor.clean_text db
    (TextPreprocessor.clean_text db (Py.lit "a @ b"))
  <> TextPreprocessor.clean_text db (Py.lit "a @ b").
Proof. repeat split. discriminate. Qed.

(** ** A second pass of [clean_text] *)

Section SplitJoin.
Import Py.
Variable db : UnicodeData.

Lemma join_cons_head (sep : str) (c : char) (w : str) (ws : list str) :
  join sep ((c :: w) :: ws) = c :: join sep (w :: ws).
Proof. destruct ws; reflexivity. Qed.

Lemma split_words_nonempty (s : str) :
  List.Forall (fun w => w <> []) (split db s).
Proof.
  induction s as [|c t IH]; simpl; [constructor|].
  destruct (isspace db c); [exact IH|].
  destruct t as [|d t']; [constructor; [discriminate | constructor]|].
  destruct (isspace db d); [constructor; [discriminate | exact IH]|].
  destruct (split db (d :: t')) as [|w ws];
    [constructor; [discriminate | constructor]|].
  inversion IH; subst. constructor; [discriminate | assumption].
Qed.

Lemma ends_tight_tail (c d : char) (t : str) :
  ends_tight db (c :: d :: t) -> ends_tight db (d :: t).
Proof.
  intros [H|(v & x & E & Hx)]; [discriminate H|]. right.
  destruct v as [|y v]; [discriminate E|].
  injection E as -> E. now exists v, x.
Qed.

Lemma ends_tight_single (c : char) : ends_tight db [c] -> isspace db c = false.
Proof.
  intros [H|(v & x & E & Hx)]; [discriminate H|].
  destruct v as [|y v]; [now injection E as -> | ].
  injection E as _ E. now destruct v.
Qed.

(** On a text whose whitespace is single spaces between words, splitting
    and joining with a space changes nothing. *)
Lemma join_split_tight (s : str) :
  plain_spaces db s = true -> has_adjacent (isspace db) s = false ->
  ends_tight db s ->
  (starts_tight db s -> join (lit " ") (split db s) = s) /\
  (forall d t, s = d :: t -> isspace db d = true ->
               t <> [] /\ starts_tight db t /\ join (lit " ") (split db s) = t).
Proof.
  induction s as [|c t IH]; intros Hp Ha He.
  - split; [reflexivity | discriminate].
  - simpl in Hp. apply andb_prop in Hp. destruct Hp as [Hc Hp].
    assert (Hat : has_adjacent (isspace db) t = false).
    { destruct t as [|d t']; [reflexivity|].
      change (has_adjacent (isspace db) (c :: d :: t'))
        with (isspace db c && isspace db d
              || has_adjacent (isspace db) (d :: t')) in Ha.
      now apply orb_false_elim in Ha. }
    assert (Het : ends_tight db t).
    { destruct t as [|d t']; [now left | now apply ends_tight_tail in He]. }
    specialize (IH Hp Hat Het). destruct IH as [IHa IHb].
    split.
    + intros Hs. simpl in Hs. simpl. rewrite Hs.
      destruct t as [|d t']; [reflexivity|].
      destruct (isspace db d) eqn:Ed.
      * destruct (IHb d t' eq_refl Ed) as (Hne & _ & E).
        assert (Hd : d = 32%N).
        { simpl in Hp. rewrite Ed in Hp. simpl in Hp.
          apply andb_prop in Hp. now apply char_eqb_eq. }
        destruct (split db (d :: t')) as [|w ws] eqn:Esp;
          [simpl in E; now subst t'|].
        change (join (lit " ") ([c] :: w :: ws))
          with (c :: 32%N :: join (lit " ") (w :: ws)).
        now rewrite E, Hd.
      * specialize (IHa Ed).
        destruct (split db (d :: t')) as [|w ws] eqn:Esp;
          [discriminate IHa|].
        now rewrite join_cons_head, IHa.
    + intros d t0 E Hd. injection E as <- <-.
      assert (Hne : t <> []).
      { intros ->. apply ends_tight_single in He. congruence. }
      assert (Hst : starts_tight db t).
      { destruct t as [|x t']; [exact I|]. simpl.
        change (has_adjacent (isspace db) (c :: x :: t'))
          with (isspace db c && isspace db x
                || has_adjacent (isspace db) (x :: t')) in Ha.
        apply orb_false_elim in Ha. destruct Ha as [Ha _].
        now rewrite Hd in Ha. }
      repeat split; try assumption.
      simpl. rewrite Hd. now apply IHa.
Qed.
End SplitJoin.

Section CleanTwice.
Import Py TextPreprocessor.
Variable db : UnicodeData.

Lemma split_words_no_space (s : str) :
  List.Forall (fun w => List.forallb (fun c => negb (isspace db c)) w = true)
    (split db s).
Proof.
  induction s as [|c t IH]; simpl; [constructor|].
  destruct (isspace db c) eqn:Ec; [exact IH|].
  assert (H1 : List.forallb (fun c => negb (isspace db c)) [c] = true)
    by (simpl; now rewrite Ec).
  destruct t as [|d t']; [now repeat constructor|].
  destruct (isspace db d); [now constructor|].
  destruct (split db (d :: t')) as [|w ws]; [now repeat constructor|].
  inversion IH as [|? ? Hw Hws]; subst.
  constructor; [|exact Hws]. simpl. now rewrite Ec, Hw.
Qed.

Lemma plain_spaces_app (a b : str) :
  plain_spaces db (a ++ b) = plain_spaces db a && plain_spaces db b.
Proof. apply forallb_app. Qed.

Lemma plain_spaces_join (ws : list str) :
  List.Forall (fun w => List.forallb (fun c => negb (isspace db c)) w = true)
    ws ->
  plain_spaces db (join (lit " ") ws) = true.
Proof.
  assert (Hw : forall w,
             List.forallb (fun c => negb (isspace db c)) w = true ->
             plain_spaces db w = true).
  { intros w H. unfold plain_spaces. rewrite forallb_forall in *.
    intros x Hx. now rewrite (H x Hx). }
  induction ws as [|w ws IH]; intros F; [reflexivity|].
  inversion F as [|? ? H1 H2]; subst.
  destruct ws as [|w' ws]; [now apply Hw|].
  change (join (lit " ") (w :: w' :: ws))
    with (w ++ lit " " ++ join (lit " ") (w' :: ws)).
  rewrite !plain_spaces_app, (Hw _ H1), (IH H2). reflexivity.
Qed.

(** The rewriting steps of [clean_text] only delete characters. *)
Lemma forallb_filter (q p : char -> bool) (s : str) :
  List.forallb q s = true -> List.forallb q (List.filter p s) = true.
Proof.
  rewrite !forallb_forall. intros H x Hx. apply filter_In in Hx. now apply H.
Qed.

Lemma forallb_sub_repeats (q p : char -> bool) (s : str) (run : option char) :
  List.forallb q s = true ->
  List.forallb q (Re.sub_repeats p run s) = true.
Proof.
  revert run. induction s as [|c t IH]; intros run H; [reflexivity|].
  simpl in H. apply andb_prop in H. destruct H as [Hc Ht].
  assert (Hfresh :
            List.forallb q
              match t with
              | d :: _ =>
                  if p c && char_eqb c d
                  then c :: Re.sub_repeats p (Some c) t
                  else c :: Re.sub_repeats p None t
              | [] => [c]
              end = true).
  { destruct t as [|d t'] eqn:Et; [simpl; now rewrite Hc|].
    rewrite <- Et in *.
    destruct (p c && char_eqb c d); simpl; now rewrite Hc, IH. }
  simpl. destruct run as [r|]; [|exact Hfresh].
  destruct (char_eqb c r); [now apply IH | exact Hfresh].
Qed.

Lemma forallb_strip (q : char -> bool) (s : str) :
  List.forallb q s = true -> List.forallb q (strip db s) = true.
Proof.
  intros H. unfold strip.
  destruct (lstrip_suffix db s) as [a [Ea _]].
  rewrite Ea, forallb_app in H. apply andb_prop in H. destruct H as [_ H].
  destruct (rstrip_prefix db (lstrip db s)) as [b [Eb _]].
  rewrite Eb, forallb_app in H. apply andb_prop in H. now destruct H.
Qed.

(** What [strip] returns has no whitespace at either end, and [strip]
    leaves such a text as it is. *)
Lemma lstrip_starts_tight (s : str) : starts_tight db (lstrip db s).
Proof.
  induction s as [|c t IH]; simpl; [exact I|].
  destruct (isspace db c) eqn:E; [exact IH | exact E].
Qed.

Lemma lstrip_tight (s : str) : starts_tight db s -> lstrip db s = s.
Proof. destruct s as [|c t]; simpl; [reflexivity | now intros ->]. Qed.

Lemma rstrip_ends_tight (s : str) : ends_tight db (rstrip db s).
Proof.
  unfold rstrip. pose proof (lstrip_starts_tight (List.rev s)) as H.
  destruct (lstrip db (List.rev s)) as [|c v]; [now left|].
  right. exists (List.rev v), c. split; [reflexivity | exact H].
Qed.

Lemma rstrip_tight (s : str) : ends_tight db s -> rstrip db s = s.
Proof.
  unfold rstrip. intros [->|(v & c & -> & Hc)]; [reflexivity|].
  rewrite rev_app_distr. simpl. rewrite Hc. simpl.
  now rewrite rev_involutive.
Qed.

Lemma strip_starts_tight (s : str) : starts_tight db (strip db s).
Proof.
  unfold strip. pose proof (lstrip_starts_tight s) as H.
  destruct (rstrip_prefix db (lstrip db s)) as [b [E _]].
  destruct (rstrip db (lstrip db s)) as [|c v]; [exact I|].
  rewrite E in H. exact H.
Qed.

Lemma strip_tight (s : str) :
  starts_tight db s -> ends_tight db s -> strip db s = s.
Proof.
  intros Hs He. unfold strip. rewrite (lstrip_tight _ Hs).
  now apply rstrip_tight.
Qed.

Lemma filter_all (p : char -> bool) (s : str) :
  List.forallb p s = true -> List.filter p s = s.
Proof.
  induction s as [|c t IH]; simpl; [reflexivity|].
  intros H. apply andb_prop in H. destruct H as [-> H]. now rewrite IH.
Qed.

Lemma forallb_filter_self (p : char -> bool) (s : str) :
  List.forallb p (List.filter p s) = true.
Proof.
  apply forallb_forall. intros x Hx. now apply filter_In in Hx.
Qed.

(** Where no mark is doubled the substitution has nothing to replace. *)
Lemma sub_repeats_nothing (p : char -> bool) (s : str) :
  has_run p s = false -> Re.sub_repeats p None s = s.
Proof.
  induction s as [|c t IH]; [reflexivity|]. intros H.
  destruct t as [|d t']; [reflexivity|].
  change (has_run p (c :: d :: t'))
    with (p c && char_eqb c d || has_run p (d :: t')) in H.
  apply orb_false_elim in H. destruct H as [Hh Ht].
  change (Re.sub_repeats p None (c :: d :: t'))
    with (if p c && char_eqb c d
          then c :: Re.sub_repeats p (Some c) (d :: t')
          else c :: Re.sub_repeats p None (d :: t')).
  now rewrite Hh, IH.
Qed.
End CleanTwice.

(** A second pass of [clean_text] changes nothing when the first pass left
    no two whitespace characters side by side. *)
Theorem clean_text_idempotent_without_space_runs
    (db : Py.UnicodeData) (text : Py.str) :
  has_adjacent (Py.isspace db) (TextPreprocessor.clean_text db text) = false ->
  TextPreprocessor.clean_text db (TextPreprocessor.clean_text db text)
  = TextPreprocessor.clean_text db text.
Proof.
  unfold TextPreprocessor.clean_text at 1 3 4.
  destruct (TextPreprocessor.falsy text); [reflexivity|].
  cbv zeta.
  set (z := Py.join (Py.lit " ") (Py.split db text)).
  set (u := Re.sub_repeats _ None (List.filter (TextPreprocessor.kept db) z)).
  set (y := Py.strip db u). intros Ha.
  assert (Hplain : plain_spaces db y = true).
  { apply forallb_strip, forallb_sub_repeats, forallb_filter.
    apply plain_spaces_join, split_words_no_space. }
  assert (Hkept : List.forallb (TextPreprocessor.kept db) y = true).
  { apply forallb_strip, forallb_sub_repeats, forallb_filter_self. }
  assert (Hrun : has_run collapsed_mark y = false)
    by apply strip_sub_repeats_no_run.
  assert (Hs : starts_tight db y) by apply strip_starts_tight.
  assert (He : ends_tight db y) by apply rstrip_ends_tight.
  unfold TextPreprocessor.clean_text.
  destruct (TextPreprocessor.falsy y) eqn:Ef;
    [now apply falsy_nil in Ef|].
  cbv zeta.
  rewrite (proj1 (join_split_tight Hplain Ha He) Hs).
  rewrite (@filter_all _ _ Hkept).
  replace (Re.sub_repeats _ None y) with y
    by (symmetry; apply sub_repeats_nothing; exact Hrun).
  now apply strip_tight.
Qed.

(** The text of the repository's cleaning test: it is cleaned without a
    whitespace run, and a second pass returns the same text. *)
Lemma clean_text_idempotent_without_space_runs_witness :
  let text :=
    Py.lit "This  is    a TEST!!!! With @@special $$characters??" in
  TextPreprocessor.clean_text Py.ascii_only text
    = Py.lit "This is a TEST! With special characters?" /\
  TextPreprocessor.clean_text Py.ascii_only
    (TextPreprocessor.clean_text Py.ascii_only text)
  = TextPreprocessor.clean_text Py.ascii_only text.
Proof.
  intros text. split; [reflexivity|].
  apply (clean_text_idempotent_without_space_runs Py.ascii_only text).
  reflexivity.
Defined.

(** ** The matchers *)

(** Two splits of one list at the same length are the same split. *)
Lemma app_same_length (A : Type) (a b c d : list A) :
  a ++ b = c ++ d -> List.length a = List.length c -> a = c /\ b = d.
Proof.
  revert c. induction a as [|x a IH]; intros [|y c] H L; simpl in *;
    try discriminate.
  - now split.
  - injection H as -> H. injection L as L. destruct (IH c H L) as [-> ->].
    now split.
Qed.

Section MatcherFacts.
Import Py.
Variable A : Type.
Implicit Types (k : Re.cont A) (s t : str) (r : A).

Lemma one_some (p : char -> bool) k s r :
  Re.one p k s = Some r <->
  exists c t, s = c :: t /\ p c = true /\ k t = Some r.
Proof.
  unfold Re.one. split.
  - destruct s as [|c t]; [discriminate|].
    destruct (p c) eqn:E; [|discriminate]. intros H. now exists c, t.
  - intros (c & t & -> & E & H). now rewrite E.
Qed.

Lemma literal_some (l : str) k s r :
  Re.literal char_eqb l k s = Some r <-> exists t, s = l ++ t /\ k t = Some r.
Proof.
  revert s. induction l as [|x l IH]; intros s; simpl.
  - split; [intros H; now exists s | now intros (t & -> & H)].
  - rewrite one_some. split.
    + intros (c & t & -> & E & H). apply char_eqb_eq in E. subst c.
      apply IH in H. destruct H as (t' & -> & H). now exists t'.
    + intros (t & -> & H). exists x, (l ++ t). repeat split.
      * now apply char_eqb_eq.
      * apply IH. now exists t.
Qed.

Lemma star_sound (p : char -> bool) k s r :
  Re.star p k s = Some r ->
  exists ws t, s = ws ++ t /\ List.forallb p ws = true /\ k t = Some r.
Proof.
  induction s as [|c s IH]; simpl; intros H.
  - now exists [], [].
  - destruct (p c) eqn:E; [|now exists [], (c :: s)].
    destruct (Re.star p k s) as [r'|] eqn:Es; [|now exists [], (c :: s)].
    destruct (IH H) as (ws & t & -> & F & Hk).
    exists (c :: ws), t. simpl. now rewrite E, F.
Qed.

Lemma star_complete (p : char -> bool) k (ws t : str) :
  List.forallb p ws = true -> k t <> None -> Re.star p k (ws ++ t) <> None.
Proof.
  intros F Hk. induction ws as [|c ws IH]; simpl.
  - destruct t as [|d t']; [exact Hk|]. simpl.
    destruct (p d); [|exact Hk].
    destruct (Re.star p k t'); [discriminate | exact Hk].
  - simpl in F. apply andb_prop in F. destruct F as [Ec F]. rewrite Ec.
    specialize (IH F). destruct (Re.star p k (ws ++ t)); [discriminate|].
    now elim IH.
Qed.

Lemma search_sound (m : Re.cont A) s r :
  Re.search m s = Some r -> exists pre t, s = pre ++ t /\ m t = Some r.
Proof.
  induction s as [|c s IH]; simpl.
  - destruct (m []) eqn:E; [|discriminate]. intros [= ->]. now exists [], [].
  - destruct (m (c :: s)) eqn:E.
    + intros [= ->]. now exists [], (c :: s).
    + intros H. destruct (IH H) as (pre & t & -> & Hm).
      now exists (c :: pre), t.
Qed.

Lemma search_complete (m : Re.cont A) (pre t : str) :
  m t <> None -> Re.search m (pre ++ t) <> None.
Proof.
  intros Hm. induction pre as [|c pre IH]; simpl.
  - destruct t as [|d t']; simpl; destruct (m _); congruence.
  - destruct (m (c :: pre ++ t)); [discriminate | exact IH].
Qed.

(** [re.search] returns the match at the leftmost position at which the
    pattern matches. *)
Lemma search_first (m : Re.cont A) s r :
  Re.search m s = Some r ->
  exists pre t,
    s = pre ++ t /\ m t = Some r /\
    forall pre' t', s = pre' ++ t' ->
                    (List.length pre' < List.length pre)%nat -> m t' = None.
Proof.
  induction s as [|c s IH]; simpl.
  - destruct (m []) eqn:E; [|discriminate]. intros [= ->].
    exists [], []. repeat split; [exact E|]. simpl. intros; lia.
  - destruct (m (c :: s)) eqn:E.
    + intros [= ->]. exists [], (c :: s). repeat split; [exact E|].
      simpl. intros; lia.
    + intros H. destruct (IH H) as (pre & t & -> & Hm & Hfirst).
      exists (c :: pre), t. repeat split; [exact Hm|].
      intros pre' t' Heq Hlen. destruct pre' as [|c' pre'].
      * simpl in Heq. now subst t'.
      * simpl in Heq, Hlen. injection Heq as _ Heq.
        apply (Hfirst pre' t' Heq). lia.
Qed.

Lemma search_at (m : Re.cont A) (pre t : str) r :
  m t = Some r ->
  (forall pre' t', pre ++ t = pre' ++ t' ->
                   (List.length pre' < List.length pre)%nat -> m t' = None) ->
  Re.search m (pre ++ t) = Some r.
Proof.
  intros Hm. induction pre as [|c pre IH]; intros Hfirst.
  - simpl. destruct t as [|d t']; simpl; now rewrite Hm.
  - simpl. rewrite (Hfirst [] (c :: pre ++ t) eq_refl) by (simpl; lia).
    apply IH. intros pre' t' Heq Hlen.
    apply (Hfirst (c :: pre') t'); [simpl; now rewrite Heq | simpl; lia].
Qed.

(** [p*] is greedy: what follows it is matched after the longest run of
    the class for which the rest of the pattern matches. *)
Lemma star_greedy_sound (p : char -> bool) k s r :
  Re.star p k s = Some r ->
  exists ws t,
    s = ws ++ t /\ List.forallb p ws = true /\ k t = Some r /\
    forall ws' t', s = ws' ++ t' -> List.forallb p ws' = true ->
                   (List.length ws < List.length ws')%nat -> k t' = None.
Proof.
  induction s as [|c s IH]; simpl; intros H.
  - exists [], []. repeat split; [exact H|].
    intros ws' t' Heq _ Hlen. destruct ws'; [simpl in Hlen; lia | discriminate].
  - assert (Hhere : k (c :: s) = Some r ->
                    (forall ws' t', s = ws' ++ t' ->
                                    List.forallb p ws' = true ->
                                    p c = true -> k t' = None) ->
                    exists ws t,
                      c :: s = ws ++ t /\ List.forallb p ws = true /\
                      k t = Some r /\
                      forall ws' t', c :: s = ws' ++ t' ->
                                     List.forallb p ws' = true ->
                                     (List.length ws < List.length ws')%nat ->
                                     k t' = None).
    { intros Hk Hlonger. exists [], (c :: s). repeat split; [exact Hk|].
      intros ws' t' Heq F Hlen. destruct ws' as [|c' ws'];
        [simpl in Hlen; lia|].
      simpl in Heq, F. injection Heq as <- Heq.
      apply andb_prop in F. destruct F as [Ec F].
      now apply (Hlonger ws' t'). }
    destruct (p c) eqn:E.
    + destruct (Re.star p k s) as [r'|] eqn:Es.
      * injection H as ->.
        destruct (IH eq_refl) as (ws & t & -> & F & Hk & Hlonger).
        exists (c :: ws), t. simpl. rewrite E, F. repeat split; [exact Hk|].
        intros ws' t' Heq F' Hlen. destruct ws' as [|c' ws'];
          [simpl in Hlen; lia|].
        simpl in Heq, F', Hlen. injection Heq as _ Heq.
        apply andb_prop in F'. destruct F' as [_ F'].
        apply (Hlonger ws' t' Heq F'). lia.
      * apply Hhere; [exact H|]. intros ws' t' -> F _.
        destruct (k t') eqn:Ek; [|reflexivity].
        exfalso. revert Es. apply star_complete; [exact F | congruence].
    + apply Hhere; [exact H|]. intros; congruence.
Qed.

Lemma star_greedy_complete (p : char -> bool) k (ws t : str) r :
  List.forallb p ws = true -> k t = Some r ->
  (forall ws' t', ws ++ t = ws' ++ t' -> List.forallb p ws' = true ->
                  (List.length ws < List.length ws')%nat -> k t' = None) ->
  Re.star p k (ws ++ t) = Some r.
Proof.
  intros F Hk Hlonger.
  destruct (Re.star p k (ws ++ t)) as [r'|] eqn:E.
  - apply star_greedy_sound in E.
    destruct E as (ws0 & t0 & Heq & F0 & Hk0 & Hlonger0).
    destruct (Nat.lt_trichotomy (List.length ws) (List.length ws0))
      as [Hlt|[Hlen|Hgt]].
    + rewrite (Hlonger ws0 t0 Heq F0 Hlt) in Hk0. discriminate.
    + apply app_same_length in Heq.
      * destruct Heq as [_ <-]. congruence.
      * exact Hlen.
    + rewrite (Hlonger0 ws t eq_refl F Hgt) in Hk. discriminate.
  - exfalso. revert E. apply star_complete; [exact F | congruence].
Qed.

End MatcherFacts.

(** ** The response parser *)

Section ParserFacts.
Import Py FakeNewsClassifier.
Variable db : UnicodeData.

Lemma labelled_sound (A : Type) (label : str) (k : Re.cont A) (s : str) (r : A) :
  labelled db char_eqb label k s = Some r ->
  exists ws1 sep ws2 t,
    s = label ++ ws1 ++ sep :: ws2 ++ t /\
    List.forallb (isspace db) ws1 = true /\ separator sep = true /\
    List.forallb (isspace db) ws2 = true /\ k t = Some r.
Proof.
  unfold labelled. intros H.
  apply literal_some in H. destruct H as (t1 & -> & H).
  apply star_sound in H. destruct H as (ws1 & t2 & -> & F1 & H).
  apply one_some in H. destruct H as (sep & t3 & -> & Hsep & H).
  apply star_sound in H. destruct H as (ws2 & t & -> & F2 & H).
  now exists ws1, sep, ws2, t.
Qed.

Lemma labelled_complete (A : Type) (label : str) (k : Re.cont A)
    (ws1 ws2 t : str) (sep : char) :
  List.forallb (isspace db) ws1 = true -> separator sep = true ->
  List.forallb (isspace db) ws2 = true -> k t <> None ->
  labelled db char_eqb label k (label ++ ws1 ++ sep :: ws2 ++ t) <> None.
Proof.
  intros F1 Hsep F2 Hk. unfold labelled.
  match goal with
  | |- Re.literal _ _ ?k1 _ <> None =>
      destruct (k1 (ws1 ++ sep :: ws2 ++ t)) as [r|] eqn:E
  end.
  - intros H.
    assert (Hl : Re.literal char_eqb label
                   (Re.star (isspace db)
                      (Re.one separator (Re.star (isspace db) k)))
                   (label ++ ws1 ++ sep :: ws2 ++ t) = Some r)
      by (apply literal_some; eexists; split; [reflexivity | exact E]).
    congruence.
  - exfalso. revert E. apply star_complete; [exact F1|].
    destruct (Re.one separator (Re.star (isspace db) k) (sep :: ws2 ++ t))
      as [r|] eqn:E; [discriminate|].
    exfalso. revert E. simpl. rewrite Hsep.
    now apply star_complete.
Qed.

(** The pattern is found by [re.search] exactly where the text holds the
    label followed by something the rest of the pattern matches. *)
Lemma search_labelled_sound (A : Type) (label : str) (k : Re.cont A)
    (s : str) (r : A) :
  Re.search (labelled db char_eqb label k) s = Some r ->
  exists pre ws1 sep ws2 t,
    s = pre ++ label ++ ws1 ++ sep :: ws2 ++ t /\
    List.forallb (isspace db) ws1 = true /\ separator sep = true /\
    List.forallb (isspace db) ws2 = true /\ k t = Some r.
Proof.
  intros H. apply search_sound in H. destruct H as (pre & t0 & -> & H).
  apply labelled_sound in H.
  destruct H as (ws1 & sep & ws2 & t & -> & F1 & Hsep & F2 & Hk).
  now exists pre, ws1, sep, ws2, t.
Qed.

Lemma search_labelled_complete (A : Type) (label : str) (k : Re.cont A)
    (pre ws1 ws2 t : str) (sep : char) :
  List.forallb (isspace db) ws1 = true -> separator sep = true ->
  List.forallb (isspace db) ws2 = true -> k t <> None ->
  Re.search (labelled db char_eqb label k)
    (pre ++ label ++ ws1 ++ sep :: ws2 ++ t) <> None.
Proof.
  intros. apply search_complete. now apply labelled_complete.
Qed.

(** The group [(REAL|FAKE)]. *)
Lemma real_or_fake_some (t g : str) :
  real_or_fake t = Some g ->
  (g = lit "REAL" \/ g = lit "FAKE") /\ exists post, t = g ++ post.
Proof.
  unfold real_or_fake, Re.alt. intros H.
  destruct (Re.literal char_eqb (lit "REAL") _ t) as [g'|] eqn:E.
  - injection H as ->. apply literal_some in E.
    destruct E as (post & -> & [= <-]). split; [now left | now exists post].
  - apply literal_some in H.
    destruct H as (post & -> & [= <-]). split; [now right | now exists post].
Qed.

Lemma real_or_fake_complete (g post : str) :
  g = lit "REAL" \/ g = lit "FAKE" -> real_or_fake (g ++ post) <> None.
Proof.
  unfold real_or_fake, Re.alt. intros [-> | ->].
  - assert (E : Re.literal char_eqb (lit "REAL")
                  (fun _ => Some (lit "REAL")) (lit "REAL" ++ post)
                = Some (lit "REAL"))
      by (apply literal_some; now exists post).
    now rewrite E.
  - destruct (Re.literal char_eqb (lit "REAL") _ (lit "FAKE" ++ post));
      [discriminate|].
    assert (E : Re.literal char_eqb (lit "FAKE")
                  (fun _ => Some (lit "FAKE")) (lit "FAKE" ++ post)
                = Some (lit "FAKE"))
      by (apply literal_some; now exists post).
    now rewrite E.
Qed.

(** The group [(\d{1,3})]. *)
Lemma take_upto_spec (p : char -> bool) (n : nat) (s : str) :
  List.forallb p (Re.take_upto p n s) = true /\
  (List.length (Re.take_upto p n s) <= n)%nat /\
  exists post, s = Re.take_upto p n s ++ post.
Proof.
  revert s. induction n as [|n IH]; intros s.
  - simpl. repeat split; [lia | now exists s].
  - destruct s as [|c t]; simpl.
    + repeat split; [lia | now exists []].
    + destruct (p c) eqn:E.
      * destruct (IH t) as (F & L & post & Ep). simpl. rewrite E, F.
        repeat split; [lia|]. exists post. now rewrite <- Ep.
      * simpl. repeat split; [lia | now exists (c :: t)].
Qed.

Lemma capture_upto_some (t g : str) :
  Re.capture_upto (isdecimal db) 3 t = Some g ->
  digits_1_3 db g /\ exists post, t = g ++ post.
Proof.
  unfold Re.capture_upto. intros H.
  destruct (take_upto_spec (isdecimal db) 3 t) as (F & L & post & E).
  destruct (Re.take_upto (isdecimal db) 3 t) as [|c g'] eqn:Et;
    [discriminate|].
  injection H as <-. split; [|now exists post].
  split; [simpl in *; lia | exact F].
Qed.

Lemma capture_upto_complete (g post : str) :
  digits_1_3 db g ->
  Re.capture_upto (isdecimal db) 3 (g ++ post) <> None.
Proof.
  intros [[L _] F]. unfold Re.capture_upto.
  destruct g as [|c g']; [simpl in L; lia|].
  simpl in F. apply andb_prop in F. destruct F as [Ec _].
  simpl. now rewrite Ec.
Qed.

(** [int()] does not raise on decimal digits. *)
Lemma int_digits_total (g : str) (acc : Z) :
  List.forallb (isdecimal db) g = true -> exists n, int_digits db acc g = Some n.
Proof.
  revert acc. induction g as [|c g IH]; intros acc F; simpl.
  - now exists acc.
  - simpl in F. apply andb_prop in F. destruct F as [Ec F].
    unfold isdecimal in Ec. destruct (decimal_value db c); [|discriminate].
    now apply IH.
Qed.

Lemma int_total (g : str) :
  digits_1_3 db g -> exists n, int db g = Some n.
Proof.
  intros [[L _] F]. destruct g as [|c g']; [simpl in L; lia|].
  unfold int. now apply int_digits_total.
Qed.

(** The group [(\d{1,3})] is greedy: it stops at three digits or where
    the digits stop. *)
Lemma take_upto_stop (p : char -> bool) (n : nat) (s : str) :
  exists post,
    s = Re.take_upto p n s ++ post /\
    (List.length (Re.take_upto p n s) = n \/
     match post with
     | [] => True
     | c :: _ => p c = false
     end).
Proof.
  revert s. induction n as [|n IH]; intros s.
  - exists s. split; [reflexivity | now left].
  - destruct s as [|c t]; simpl.
    + exists []. split; [reflexivity | now right].
    + destruct (p c) eqn:E.
      * destruct (IH t) as (post & Ep & Hstop). exists post. simpl.
        split; [now rewrite <- Ep|]. destruct Hstop as [H|H]; [left | now right].
        now rewrite H.
      * exists (c :: t). split; [reflexivity | now right].
Qed.

Lemma take_upto_exact (p : char -> bool) (n : nat) (g post : str) :
  List.forallb p g = true -> (List.length g <= n)%nat ->
  (List.length g = n \/
   match post with
   | [] => True
   | c :: _ => p c = false
   end) ->
  Re.take_upto p n (g ++ post) = g.
Proof.
  revert n. induction g as [|c g IH]; intros n F L Hstop.
  - destruct n as [|n]; [reflexivity|]. simpl.
    destruct Hstop as [H|H]; [simpl in H; lia|].
    destruct post as [|d post]; [reflexivity|]. simpl. now rewrite H.
  - destruct n as [|n]; [simpl in L; lia|].
    simpl in F. apply andb_prop in F. destruct F as [Ec F].
    simpl. rewrite Ec. f_equal. apply IH; [exact F | simpl in L; lia|].
    destruct Hstop as [H|H]; [left; simpl in H; lia | now right].
Qed.

Lemma capture_upto_stop (t g : str) :
  Re.capture_upto (isdecimal db) 3 t = Some g ->
  exists post,
    t = g ++ post /\ digits_1_3 db g /\
    (List.length g = 3%nat \/
     match post with
     | [] => True
     | c :: _ => isdecimal db c = false
     end).
Proof.
  intros H. destruct (capture_upto_some _ H) as [Hd _].
  unfold Re.capture_upto in H.
  destruct (take_upto_stop (isdecimal db) 3 t) as (post & E & Hstop).
  destruct (Re.take_upto (isdecimal db) 3 t) as [|c g'] eqn:Et;
    [discriminate|].
  injection H as <-. now exists post.
Qed.

Lemma capture_upto_greedy (g post : str) :
  digits_1_3 db g ->
  (List.length g = 3%nat \/
   match post with
   | [] => True
   | c :: _ => isdecimal db c = false
   end) ->
  Re.capture_upto (isdecimal db) 3 (g ++ post) = Some g.
Proof.
  intros [[L1 L3] F] Hstop. unfold Re.capture_upto.
  rewrite (take_upto_exact (isdecimal db) g post F L3 Hstop).
  destruct g; [simpl in L1; lia | reflexivity].
Qed.

Lemma capture_upto_no_digit (t : str) :
  match t with
  | [] => True
  | c :: _ => isdecimal db c = false
  end ->
  Re.capture_upto (isdecimal db) 3 t = None.
Proof.
  destruct t as [|c t]; [reflexivity|]. intros H.
  unfold Re.capture_upto. simpl. now rewrite H.
Qed.

(** A colon and a hyphen are not whitespace. *)
Lemma separator_not_space (sep : char) :
  separator sep = true -> isspace db sep = false.
Proof.
  unfold separator. intros H. apply orb_prop in H.
  destruct H as [H|H]; apply char_eqb_eq in H; subst sep; reflexivity.
Qed.

(** A run of whitespace that ends before a separator is the whole run. *)
Lemma whitespace_before_separator (ws ws' t t' : str) (sep : char) :
  separator sep = true ->
  List.forallb (isspace db) ws = true ->
  List.forallb (isspace db) ws' = true ->
  ws ++ sep :: t = ws' ++ t' ->
  (List.length ws' <= List.length ws)%nat.
Proof.
  intros Hsep. revert ws'. induction ws as [|c ws IH]; intros ws' F F' Heq.
  - destruct ws' as [|c' ws']; [simpl; lia|].
    simpl in Heq, F'. injection Heq as <- _.
    apply andb_prop in F'. destruct F' as [Ec _].
    rewrite (separator_not_space _ Hsep) in Ec. discriminate.
  - destruct ws' as [|c' ws']; [simpl; lia|].
    simpl in Heq, F, F'. injection Heq as _ Heq.
    apply andb_prop in F. destruct F as [_ F].
    apply andb_prop in F'. destruct F' as [_ F'].
    specialize (IH ws' F F' Heq). simpl. lia.
Qed.
End ParserFacts.

Section ParserTotal.
Import Py FakeNewsClassifier.
Variable db : UnicodeData.

(** What [re.search] found for the confidence is always a text that
    [int()] reads. *)
Lemma confidence_match_digits (s g : str) :
  confidence_match db s = Some g ->
  follows_label db (lit "CONFIDENCE") (eq g) s /\ digits_1_3 db g.
Proof.
  unfold confidence_match. intros H.
  apply search_labelled_sound in H.
  destruct H as (pre & ws1 & sep & ws2 & t & -> & F1 & Hsep & F2 & H).
  apply capture_upto_some in H. destruct H as [Hd [post ->]].
  split; [|exact Hd]. now exists pre, ws1, sep, ws2, g, post.
Qed.

Lemma confidence_match_complete (s : str) :
  follows_label db (lit "CONFIDENCE") (digits_1_3 db) s ->
  confidence_match db s <> None.
Proof.
  intros (pre & ws1 & sep & ws2 & g & post & -> & F1 & Hsep & F2 & Hd).
  unfold confidence_match. apply search_labelled_complete; try assumption.
  now apply capture_upto_complete.
Qed.

Lemma classification_match_sound (s g : str) :
  classification_match db s = Some g ->
  (g = lit "REAL" \/ g = lit "FAKE") /\
  follows_label db (lit "CLASSIFICATION") (eq g) s.
Proof.
  unfold classification_match. intros H.
  apply search_labelled_sound in H.
  destruct H as (pre & ws1 & sep & ws2 & t & -> & F1 & Hsep & F2 & H).
  apply real_or_fake_some in H. destruct H as [Hg [post ->]].
  split; [exact Hg|]. now exists pre, ws1, sep, ws2, g, post.
Qed.

Lemma classification_match_complete (s : str) :
  follows_label db (lit "CLASSIFICATION")
    (fun g => g = lit "REAL" \/ g = lit "FAKE") s ->
  classification_match db s <> None.
Proof.
  intros (pre & ws1 & sep & ws2 & g & post & -> & F1 & Hsep & F2 & Hg).
  unfold classification_match. apply search_labelled_complete; try assumption.
  now apply real_or_fake_complete.
Qed.

(** The pattern of the confidence matches at the start of a text exactly
    when the text starts with the label and one to three digits. *)
Lemma confidence_pattern_starts (t g : str) :
  labelled db char_eqb (lit "CONFIDENCE")
    (Re.capture_upto (isdecimal db) 3) t = Some g ->
  starts_with_label db (lit "CONFIDENCE") (digits_1_3 db) t.
Proof.
  intros H. apply labelled_sound in H.
  destruct H as (ws1 & sep & ws2 & t' & -> & F1 & Hsep & F2 & H).
  apply capture_upto_some in H. destruct H as [Hd [post ->]].
  now exists ws1, sep, ws2, g, post.
Qed.

Lemma confidence_pattern_fails (t : str) :
  ~ starts_with_label db (lit "CONFIDENCE") (digits_1_3 db) t ->
  labelled db char_eqb (lit "CONFIDENCE")
    (Re.capture_upto (isdecimal db) 3) t = None.
Proof.
  intros Hn.
  destruct (labelled db char_eqb (lit "CONFIDENCE")
              (Re.capture_upto (isdecimal db) 3) t) as [g|] eqn:E;
    [|reflexivity].
  elim Hn. now apply confidence_pattern_starts in E.
Qed.

(** What [re.search] returns for the confidence is the group of the first
    match, with both greedy items at their longest. *)
Lemma confidence_match_first (s g : str) :
  confidence_match db s = Some g -> first_confidence db s g.
Proof.
  unfold confidence_match. intros H.
  apply search_first in H. destruct H as (pre & t0 & -> & H & Hfirst).
  unfold labelled in H.
  apply literal_some in H. destruct H as (t1 & -> & H).
  apply star_greedy_sound in H.
  destruct H as (ws1 & t2 & -> & F1 & H & _).
  apply one_some in H. destruct H as (sep & t3 & -> & Hsep & H).
  apply star_greedy_sound in H.
  destruct H as (ws2 & t4 & -> & F2 & H & Hlonger).
  apply capture_upto_stop in H. destruct H as (post & -> & Hd & Hstop).
  exists pre, ws1, sep, ws2, post. repeat split; try assumption.
  - apply Hd.
  - apply Hd.
  - apply Hd.
  - intros pre' t Heq Hlen Hs.
    destruct Hs as (a1 & s1 & a2 & g1 & p1 & -> & G1 & Gs & G2 & Gd).
    specialize (Hfirst pre' _ Heq Hlen). revert Hfirst.
    apply labelled_complete; try assumption.
    now apply capture_upto_complete.
  - intros ws c rest Heq F Hc.
    destruct (Nat.le_gt_cases (List.length ws) (List.length ws2))
      as [Hle|Hgt]; [exact Hle|].
    specialize (Hlonger ws (c :: rest) Heq F Hgt).
    unfold Re.capture_upto in Hlonger. simpl in Hlonger.
    rewrite Hc in Hlonger. discriminate Hlonger.
Qed.

Lemma first_confidence_match (s g : str) :
  first_confidence db s g -> confidence_match db s = Some g.
Proof.
  intros (pre & ws1 & sep & ws2 & post & -> & F1 & Hsep & F2 & Hd
          & Hfirst & Hgreedy & Hstop).
  unfold confidence_match. apply search_at.
  - unfold labelled. apply literal_some. eexists. split; [reflexivity|].
    apply star_greedy_complete; [exact F1| |].
    + apply one_some. exists sep, (ws2 ++ g ++ post).
      repeat split; [exact Hsep|].
      apply star_greedy_complete; [exact F2 | | ].
      * now apply capture_upto_greedy.
      * intros ws' t' Heq F' Hlen. apply capture_upto_no_digit.
        destruct t' as [|c rest]; [exact I|].
        destruct (isdecimal db c) eqn:Ec; [|reflexivity].
        specialize (Hgreedy ws' c rest Heq F' Ec). lia.
    + intros ws' t' Heq F' Hlen.
      pose proof (@whitespace_before_separator db ws1 ws' _ t' sep Hsep F1
                    F' Heq). lia.
  - intros pre' t' Heq Hlen. apply confidence_pattern_fails.
    now apply (Hfirst pre' t' Heq).
Qed.

(** On a string the [try] block of the parser never raises: it returns
    the record of the three fields it found or defaulted. *)
Lemma parse_body_some (response : str) :
  exists n,
    match confidence_match db (upper db response) with
    | Some group1 => int db group1
    | None => Some 50%Z
    end = Some n /\
    parse_body db response =
    Some {| Parsed.classification :=
              match classification_match db (upper db response) with
              | Some group1 => group1
              | None => lit "UNKNOWN"
              end;
            Parsed.confidence := clamp n;
            Parsed.reasoning :=
              match reasoning_match db response with
              | Some group1 => strip db group1
              | None => strip db response
              end;
            Parsed.raw_response := response |}.
Proof.
  unfold parse_body.
  destruct (confidence_match db (upper db response)) as [g|] eqn:E.
  - apply confidence_match_digits in E. destruct E as [_ Hd].
    destruct (int_total Hd) as [n En]. exists n. now rewrite En.
  - now exists 50%Z.
Qed.

Lemma parse_model_response_body (response : str) :
  _parse_model_response db (Json.Str response)
  = Returned (parse_body db response).
Proof.
  unfold _parse_model_response.
  destruct (parse_body_some response) as (n & _ & E). now rewrite E.
Qed.
End ParserTotal.

(** C2.  For every reply that is a string the parser returns a record whose
    confidence is an integer from 0 to 100.  When the upper-cased reply
    holds the label CONFIDENCE, a colon or hyphen and one to three digits,
    the confidence is the number that [re.search] matched, clamped to that
    range: the group of the first match, taken greedily.  When the reply
    holds no such label, it is 50. *)
Theorem parsed_confidence_in_range
    (db : Py.UnicodeData) (response : Py.str) :
  exists parsed,
    FakeNewsClassifier._parse_model_response db (Json.Str response)
    = Returned (Some parsed) /\
    let c := FakeNewsClassifier.Parsed.confidence parsed in
    let found :=
      follows_label db (Py.lit "CONFIDENCE") (digits_1_3 db)
        (Py.upper db response) in
    (0 <= c <= 100)%Z /\
    (found -> exists g, first_confidence db (Py.upper db response) g) /\
    (forall g,
       first_confidence db (Py.upper db response) g ->
       exists n, Py.int db g = Some n /\ c = clamp n) /\
    (~ found -> c = 50%Z).
Proof.
  rewrite parse_model_response_body.
  destruct (parse_body_some db response) as (n & En & E).
  eexists. split; [now rewrite E|]. cbv zeta. simpl.
  split; [unfold clamp; lia|].
  destruct (FakeNewsClassifier.confidence_match db (Py.upper db response))
    as [g|] eqn:Em.
  - split; [|split].
    + intros _. exists g. now apply confidence_match_first.
    + intros g' Hg. apply first_confidence_match in Hg.
      assert (g' = g) as -> by congruence. now exists n.
    + intros Hn. exfalso. apply Hn.
      destruct (confidence_match_digits _ _ Em) as [Hl Hd].
      destruct Hl as (pre & ws1 & sep & ws2 & g' & post & -> & F1 & Hs & F2 & <-).
      now exists pre, ws1, sep, ws2, g, post.
  - injection En as <-. split; [|split; [|reflexivity]].
    + intros Hf. now apply confidence_match_complete in Hf.
    + intros g Hg. apply first_confidence_match in Hg. congruence.
Qed.

(** The reply of the scenario, whose confidence is the 95 it states; a
    reply whose number is out of range, with the three digits taken and
    the value clamped; and a reply without the label. *)
Lemma parsed_confidence_in_range_witness :
  (exists parsed,
     FakeNewsClassifier._parse_model_response Py.ascii_only
       (Json.Str labelled_reply) = Returned (Some parsed) /\
     FakeNewsClassifier.Parsed.confidence parsed = 95%Z) /\
  (exists parsed,
     FakeNewsClassifier._parse_model_response Py.ascii_only
       (Json.Str (Py.lit "Confidence - 2500%")) = Returned (Some parsed) /\
     FakeNewsClassifier.Parsed.confidence parsed = 100%Z) /\
  (exists parsed,
     FakeNewsClassifier._parse_model_response Py.ascii_only
       (Json.Str (Py.lit "I cannot tell whether this is true."))
     = Returned (Some parsed) /\
     FakeNewsClassifier.Parsed.confidence parsed = 50%Z).
Proof.
  refine (conj _ (conj _ _)).
  - destruct (parsed_confidence_in_range Py.ascii_only labelled_reply)
      as (parsed & E & _ & _ & Hg & _).
    exists parsed. split; [exact E|].
    destruct (Hg (Py.lit "95")) as (n & Hi & ->).
    + apply confidence_match_first. reflexivity.
    + vm_compute in Hi. injection Hi as <-. reflexivity.
  - destruct (parsed_confidence_in_range Py.ascii_only
                (Py.lit "Confidence - 2500%")) as (parsed & E & _ & _ & Hg & _).
    exists parsed. split; [exact E|].
    destruct (Hg (Py.lit "250")) as (n & Hi & ->).
    + exists [], [32%N], 45%N, [32%N], (Py.lit "0%").
      repeat split; try reflexivity; try (vm_compute; lia).
      intros ws c rest Heq F _.
      destruct ws as [|a [|b ws]]; [simpl; lia | simpl; lia|].
      exfalso. vm_compute in Heq. injection Heq as <- <- _.
      vm_compute in F. discriminate F.
    + vm_compute in Hi. injection Hi as <-. reflexivity.
  - destruct (parsed_confidence_in_range Py.ascii_only
                (Py.lit "I cannot tell whether this is true."))
      as (parsed & E & _ & _ & _ & Hn).
    exists parsed. split; [exact E|]. apply Hn. intros Hf.
    apply confidence_match_complete in Hf. now apply Hf.
Defined.

(** C8.  For every reply the parser returns a record, and its
    classification is REAL or FAKE exactly when the upper-cased reply holds
    the label CLASSIFICATION, a colon or hyphen and then REAL or FAKE (it
    is then the word that was matched), and UNKNOWN otherwise.  The reply
    of the scenario parses to REAL with confidence 95. *)
Theorem parsed_classification_by_label :
  (forall (db : Py.UnicodeData) (response : Py.str),
     exists parsed,
       FakeNewsClassifier._parse_model_response db (Json.Str response)
       = Returned (Some parsed) /\
       let c := FakeNewsClassifier.Parsed.classification parsed in
       let found payload :=
         follows_label db (Py.lit "CLASSIFICATION") payload
           (Py.upper db response) in
       (c = Py.lit "REAL" \/ c = Py.lit "FAKE" <->
        found (fun g => g = Py.lit "REAL" \/ g = Py.lit "FAKE")) /\
       (c = Py.lit "REAL" \/ c = Py.lit "FAKE" -> found (eq c)) /\
       (c = Py.lit "UNKNOWN" <->
        ~ found (fun g => g = Py.lit "REAL" \/ g = Py.lit "FAKE"))) /\
  (forall db : Py.UnicodeData,
     exists parsed,
       FakeNewsClassifier._parse_model_response db (Json.Str labelled_reply)
         = Returned (Some parsed) /\
       FakeNewsClassifier.Parsed.classification parsed = Py.lit "REAL" /\
       FakeNewsClassifier.Parsed.confidence parsed = 95%Z).
Proof.
  split; [|intros db; eexists; split; [reflexivity | split; reflexivity]].
  intros db response.
  rewrite parse_model_response_body.
  destruct (parse_body_some db response) as (n & _ & E).
  eexists. split; [now rewrite E|]. cbv zeta. simpl.
  destruct (FakeNewsClassifier.classification_match db (Py.upper db response))
    as [g|] eqn:Em.
  - destruct (classification_match_sound _ _ Em) as [Hg Hl].
    assert (Hf : follows_label db (Py.lit "CLASSIFICATION")
                   (fun g => g = Py.lit "REAL" \/ g = Py.lit "FAKE")
                   (Py.upper db response)).
    { destruct Hl as (pre & ws1 & sep & ws2 & g' & post & -> & F1 & Hs & F2 & <-).
      now exists pre, ws1, sep, ws2, g, post. }
    split; [tauto|]. split; [tauto|].
    split; [|tauto].
    intros ->. destruct Hg as [Hg|Hg]; vm_compute in Hg; discriminate Hg.
  - assert (Hn : ~ follows_label db (Py.lit "CLASSIFICATION")
                     (fun g => g = Py.lit "REAL" \/ g = Py.lit "FAKE")
                     (Py.upper db response))
      by (intros Hf; now apply classification_match_complete in Hf).
    split; [|split; [|tauto]].
    + split; [|tauto]. intros [H|H]; vm_compute in H; discriminate H.
    + intros [H|H]; vm_compute in H; discriminate H.
Qed.

(** A reply in lower case with a hyphen after the label, and a reply that
    names no verdict after the label. *)
Lemma parsed_classification_by_label_witness :
  follows_label Py.ascii_only (Py.lit "CLASSIFICATION") (eq (Py.lit "FAKE"))
    (Py.upper Py.ascii_only (Py.lit "classification - fake")) /\
  ~ follows_label Py.ascii_only (Py.lit "CLASSIFICATION")
      (fun g => g = Py.lit "REAL" \/ g = Py.lit "FAKE")
      (Py.upper Py.ascii_only (Py.lit "Classification: [REAL or FAKE]")).
Proof.
  split.
  - destruct (proj1 parsed_classification_by_label Py.ascii_only
                (Py.lit "classification - fake"))
      as (parsed & E & _ & Hc & _).
    vm_compute in E. injection E as <-. apply Hc. now right.
  - destruct (proj1 parsed_classification_by_label Py.ascii_only
                (Py.lit "Classification: [REAL or FAKE]"))
      as (parsed & E & _ & _ & Hu).
    vm_compute in E. injection E as <-. now apply Hu.
Defined.

(** ** The model client *)

Section HandlerFacts.
Import OllamaHandler.
Variable config : Config.t.
Variable endpoint : Endpoint.
Variable payload : Payload.t.

Lemma repeat_shift (k : nat) (w : list Payload.t) :
  List.repeat payload k ++ payload :: w = payload :: List.repeat payload k ++ w.
Proof.
  induction k as [|k IH]; simpl; [reflexivity|]. now rewrite IH.
Qed.

(** While the endpoint times out and the attempt is not the last one, the
    loop sends the request again. *)
Lemma attempt_loop_timeouts (k a : nat) (rest : list Z)
    (w : list Payload.t) :
  (forall i, (i < k)%nat ->
             endpoint (List.length w + i) payload = Timeout) ->
  (forall i, (i < k)%nat ->
             Z.of_nat (a + i) <> (max_retries config - 1)%Z) ->
  attempt_loop config endpoint payload
    (List.map Z.of_nat (List.seq a k) ++ rest) w
  = attempt_loop config endpoint payload rest (List.repeat payload k ++ w).
Proof.
  revert a w. induction k as [|k IH]; intros a w Ht Hlast; [reflexivity|].
  simpl. unfold post.
  rewrite <- (Nat.add_0_r (List.length w)), (Ht 0%nat) by lia.
  destruct (Z.eqb_spec (Z.of_nat a) (max_retries config - 1)) as [E|_].
  { exfalso. apply (Hlast 0%nat); [lia|]. now rewrite Nat.add_0_r. }
  rewrite IH.
  - now rewrite repeat_shift.
  - intros i Hi. simpl. rewrite <- Nat.add_succ_r. apply Ht. lia.
  - intros i Hi. rewrite Nat.add_succ_comm. apply Hlast. lia.
Qed.

Lemma range_split (n k : nat) :
  (k < n)%nat ->
  List.map Z.of_nat (List.seq 0 n)
  = List.map Z.of_nat (List.seq 0 k)
      ++ Z.of_nat k :: List.map Z.of_nat (List.seq (S k) (n - S k)).
Proof.
  intros H. replace n with (k + S (n - S k))%nat at 1 by lia.
  rewrite seq_app, map_app. reflexivity.
Qed.

(** Whatever the endpoint does, every request but the last one sent by the
    loop was answered by a timeout. *)
Lemma attempt_loop_retries_timeouts (attempts : list Z)
    (w w' : list Payload.t)
    (r : option Reply.t) :
  attempt_loop config endpoint payload attempts w = (r, w') ->
  exists m,
    w' = List.repeat payload m ++ w /\ (m <= List.length attempts)%nat /\
    forall i, (S i < m)%nat ->
              endpoint (List.length w + i) payload = Timeout.
Proof.
  revert w. induction attempts as [|a rest IH]; intros w H; simpl in H.
  - injection H as _ <-. exists 0%nat. repeat split; [lia|]. intros; lia.
  - unfold post in H.
    assert (Hone : exists m,
               payload :: w = List.repeat payload m ++ w /\
               (m <= List.length (a :: rest))%nat /\
               forall i, (S i < m)%nat ->
                         endpoint (List.length w + i) payload = Timeout).
    { exists 1%nat. repeat split; [simpl; lia|]. intros; lia. }
    destruct (endpoint (List.length w) payload) as [body| | | | |] eqn:E;
      [destruct (Json.sliceable _) in H|..];
      try (injection H as _ <-; exact Hone).
    destruct (Z.eqb a (max_retries config - 1));
      [injection H as _ <-; exact Hone|].
    destruct (IH _ H) as (m & -> & Hm & Ht).
    exists (S m). split; [now rewrite repeat_shift|]. split; [simpl; lia|].
    intros [|i] Hi; [now rewrite Nat.add_0_r|].
    rewrite Nat.add_succ_r. apply (Ht i). lia.
Qed.
End HandlerFacts.

Section GenerateResponse.
Import OllamaHandler.
Variable config : Config.t.
Variable endpoint : Endpoint.

(** A run of [k] timeouts followed by an outcome that ends the loop: the
    loop stops at that request. *)
Lemma generate_response_stops (prompt : Py.str) (temperature : option Q)
    (w : World) (k : nat) :
  let payload := build_payload config prompt temperature in
  (Z.of_nat k < Config.MAX_RETRIES config)%Z ->
  let sent := requests w in
  (forall i, (i < k)%nat ->
             endpoint (List.length sent + i) payload = Timeout) ->
  (endpoint (List.length sent + k) payload = Timeout ->
   Z.of_nat k = (Config.MAX_RETRIES config - 1)%Z) ->
  (forall body, endpoint (List.length sent + k) payload <> Replied body) ->
  generate_response config endpoint prompt temperature w
  = (None, {| calls := prompt :: calls w;
              requests := List.repeat payload (S k) ++ sent |}).
Proof.
  intros payload Hk sent Ht Hlast Hfail.
  unfold generate_response, range. fold payload. fold sent.
  rewrite (@range_split (Z.to_nat (max_retries config)) k)
    by (unfold max_retries; lia).
  rewrite attempt_loop_timeouts; [|exact Ht|].
  - simpl. unfold post. rewrite length_app, repeat_length.
    rewrite (Nat.add_comm k).
    destruct (endpoint (List.length sent + k) payload) eqn:E;
      try reflexivity.
    + now elim (Hfail body).
    + unfold max_retries. rewrite (Hlast eq_refl), Z.eqb_refl. reflexivity.
  - intros i Hi. unfold max_retries. simpl. lia.
Qed.
End GenerateResponse.

(** When every request times out, [generate_response] sends
    [max_retries] requests, one after the other, and returns [None]. *)
Lemma generate_response_all_timeouts
    (config : Config.t) (endpoint : OllamaHandler.Endpoint)
    (prompt : Py.str) (temperature : option Q) (w : OllamaHandler.World) :
  (0 <= Config.MAX_RETRIES config)%Z ->
  (forall n p, endpoint n p = OllamaHandler.Timeout) ->
  exists n,
    Z.of_nat n = Config.MAX_RETRIES config /\
    OllamaHandler.generate_response config endpoint prompt temperature w
    = (None, sent_after config prompt temperature n w).
Proof.
  intros Hpos Ht. exists (Z.to_nat (Config.MAX_RETRIES config)).
  split; [lia|]. unfold sent_after.
  destruct (Z.to_nat (Config.MAX_RETRIES config)) as [|k] eqn:En.
  - unfold OllamaHandler.generate_response, OllamaHandler.range,
      OllamaHandler.max_retries.
    now rewrite En.
  - apply generate_response_stops; intros; try apply Ht; try lia.
    rewrite Ht. discriminate.
Qed.

(** C7.  A connection failure, an HTTP error or an undecodable body ends
    [generate_response] at the request it answers: the result is [None]
    and no request follows.  Only a timeout is followed by another request:
    whatever the endpoint does, every request but the last was answered by
    a timeout. *)
Theorem only_timeouts_are_retried
    (config : Config.t) (endpoint : OllamaHandler.Endpoint)
    (prompt : Py.str) (temperature : option Q) (w : OllamaHandler.World) :
  let payload := OllamaHandler.build_payload config prompt temperature in
  let run :=
    OllamaHandler.generate_response config endpoint prompt temperature w in
  let before := List.length (OllamaHandler.requests w) in
  (forall k : nat,
     (Z.of_nat k < Config.MAX_RETRIES config)%Z ->
     (forall i, (i < k)%nat ->
        endpoint (before + i)%nat payload = OllamaHandler.Timeout) ->
     non_transient (endpoint (before + k)%nat payload) = true ->
     run = (None, sent_after config prompt temperature (S k) w)) /\
  (exists m,
     snd run = sent_after config prompt temperature m w /\
     forall i, (S i < m)%nat ->
       endpoint (before + i)%nat payload = OllamaHandler.Timeout).
Proof.
  intros payload run before. split.
  - intros k Hk Ht Hn. subst run payload.
    apply generate_response_stops; try assumption.
    + intros E. fold before in E. rewrite E in Hn. discriminate Hn.
    + intros body E. fold before in E. rewrite E in Hn. discriminate Hn.
  - subst run. unfold OllamaHandler.generate_response. fold payload.
    destruct (OllamaHandler.attempt_loop config endpoint payload
                (OllamaHandler.range (OllamaHandler.max_retries config))
                (OllamaHandler.requests w))
      as [r w'] eqn:E.
    apply attempt_loop_retries_timeouts in E.
    destruct E as (m & -> & _ & Ht). now exists m.
Qed.

(** A timeout and then a refused connection: two requests, where three
    were allowed. *)
Lemma only_timeouts_are_retried_witness :
  let endpoint (n : nat) (_ : OllamaHandler.Payload.t) :=
    match n with
    | O => OllamaHandler.Timeout
    | S _ => OllamaHandler.ConnectionError
    end in
  let payload := OllamaHandler.build_payload default_config (Py.lit "?") None in
  OllamaHandler.generate_response default_config endpoint (Py.lit "?") None
    OllamaHandler.untouched
  = (None, {| OllamaHandler.calls := [Py.lit "?"];
              OllamaHandler.requests := [payload; payload] |}).
Proof.
  intros endpoint payload.
  apply (proj1 (only_timeouts_are_retried default_config endpoint
                  (Py.lit "?") None OllamaHandler.untouched) 1%nat).
  - reflexivity.
  - intros i Hi. assert (i = 0%nat) as -> by lia. reflexivity.
  - reflexivity.
Defined.

(** ** The orchestrator *)

Section Classify.
Import Py FakeNewsClassifier.
Variable db : UnicodeData.
Variable config : Config.t.
Variable endpoint : OllamaHandler.Endpoint.

(** [classify] on a text that fails validation. *)
Lemma classify_invalid (text : str) (w : OllamaHandler.World)
    (message : option str) :
  validate db text = (false, message) ->
  classify db config endpoint text w = (Returned (failure message None), w).
Proof.
  unfold validate, classify. intros E. now rewrite E.
Qed.

(** [classify] on a text that passes validation, by what the client
    returns. *)
Lemma classify_valid (text : str) (w : OllamaHandler.World)
    (message : option str) :
  validate db text = (true, message) ->
  classify db config endpoint text w =
  match OllamaHandler.generate_response config endpoint (prompt_of db text)
          None w with
  | (None, w') => (Returned (failure (Some communication_error) None), w')
  | (Some model_output, w') =>
      match _parse_model_response db
              (OllamaHandler.Reply.response model_output) with
      | Raised e => (Raised e, w')
      | Returned None =>
          (Returned
             (failure (Some parse_error)
                (Some (OllamaHandler.Reply.response model_output))), w')
      | Returned (Some parsed_result) =>
          (Returned
             {| Result.success := true;
                Result.error := None;
                Result.classification :=
                  Some (Parsed.classification parsed_result);
                Result.confidence := Parsed.confidence parsed_result;
                Result.reasoning :=
                  Some (Json.Str (Parsed.reasoning parsed_result));
                Result.features :=
                  Some (TextPreprocessor.extract_features db
                          (TextPreprocessor.clean_text db text));
                Result.model_info :=
                  Some {| ModelInfo.model :=
                            OllamaHandler.Reply.model model_output;
                          ModelInfo.eval_count :=
                            OllamaHandler.Reply.eval_count model_output |} |},
           w')
      end
  end.
Proof.
  unfold validate, classify, prompt_of. intros E. rewrite E. simpl negb.
  cbv iota zeta.
  destruct (OllamaHandler.generate_response _ _ _ _ _) as [[reply|] w'];
    reflexivity.
Qed.

(** The parser on each kind of value: on a string its [try] block returns
    the record; on any other value the [except] branch raises. *)
Lemma parse_model_response_cases (v : Json.t) :
  match v with
  | Json.Str response =>
      exists parsed,
        _parse_model_response db v = Returned (Some parsed) /\
        parse_body db response = Some parsed /\
        Parsed.raw_response parsed = response
  | _ => _parse_model_response db v = Raised (no_attribute v (lit "strip"))
  end.
Proof.
  destruct v as [response| | | | | |]; try reflexivity.
  rewrite parse_model_response_body.
  destruct (parse_body_some db response) as (n & _ & E).
  rewrite E. eexists. repeat split.
Qed.

(** [classify] on a valid text for which the client returned a reply. *)
Lemma classify_reply (text : str) (w w' : OllamaHandler.World)
    (reply : OllamaHandler.Reply.t) :
  fst (validate db text) = true ->
  OllamaHandler.generate_response config endpoint (prompt_of db text)
    None w = (Some reply, w') ->
  match OllamaHandler.Reply.response reply with
  | Json.Str response =>
      exists parsed,
        _parse_model_response db (Json.Str response)
        = Returned (Some parsed) /\
        classify db config endpoint text w
        = (Returned
             {| Result.success := true;
                Result.error := None;
                Result.classification := Some (Parsed.classification parsed);
                Result.confidence := Parsed.confidence parsed;
                Result.reasoning := Some (Json.Str (Parsed.reasoning parsed));
                Result.features :=
                  Some (TextPreprocessor.extract_features db
                          (TextPreprocessor.clean_text db text));
                Result.model_info :=
                  Some {| ModelInfo.model := OllamaHandler.Reply.model reply;
                          ModelInfo.eval_count :=
                            OllamaHandler.Reply.eval_count reply |} |},
           w')
  | v =>
      classify db config endpoint text w
      = (Raised (no_attribute v (lit "strip")), w')
  end.
Proof.
  intros Hv Hg. destruct (validate db text) as [valid m] eqn:Ev.
  simpl in Hv. subst valid.
  rewrite (classify_valid text w Ev), Hg.
  pose proof (parse_model_response_cases (OllamaHandler.Reply.response reply))
    as Hp.
  destruct (OllamaHandler.Reply.response reply) as [response| | | | | |];
    try (now rewrite Hp).
  destruct Hp as (parsed & E & _). exists parsed. split; [exact E|].
  now rewrite E.
Qed.

(** The message of a failed validation is one of the four of
    [validate_input]; none of them is a message of [classify]'s own. *)
Lemma validate_message (text : str) (message : option str) :
  validate db text = (false, message) ->
  exists m, message = Some m /\ List.hd_error m = Some 84%N.
Proof.
  unfold validate. intros E.
  destruct (validate_input_cases db text
              TextPreprocessor.default_min_length
              TextPreprocessor.default_max_length)
    as (Hblank & Hshort & Hlong & Hletters & Hok).
  destruct (strip db text) as [|c t] eqn:Es.
  - rewrite (Hblank eq_refl) in E. injection E as <-. now eexists.
  - destruct (Z.ltb_spec (len (c :: t)) TextPreprocessor.default_min_length).
    { rewrite Hshort in E by (try discriminate; lia).
      injection E as <-. now eexists. }
    destruct (Z.ltb_spec TextPreprocessor.default_max_length (len (c :: t))).
    { rewrite Hlong in E by (try discriminate; lia).
      injection E as <-. now eexists. }
    destruct (List.existsb (is_letter db) (c :: t)) eqn:El.
    + rewrite Hok in E by (try discriminate; try lia; reflexivity).
      discriminate E.
    + rewrite Hletters in E by (try discriminate; try lia; reflexivity).
      injection E as <-. now eexists.
Qed.
End Classify.

(** C1.  When every request to the model endpoint times out,
    [generate_response] sends exactly [max_retries] requests, one after the
    other, and returns [None]; [classify], on a text that passes
    validation, then returns a record with [success] false and the message
    of a failed communication. *)
Theorem timeouts_exhaust_the_retries
    (db : Py.UnicodeData) (config : Config.t)
    (endpoint : OllamaHandler.Endpoint) :
  (0 <= Config.MAX_RETRIES config)%Z ->
  (forall n p, endpoint n p = OllamaHandler.Timeout) ->
  exists n,
    Z.of_nat n = Config.MAX_RETRIES config /\
    (forall prompt temperature w,
       OllamaHandler.generate_response config endpoint prompt temperature w
       = (None, sent_after config prompt temperature n w)) /\
    (forall text w,
       fst (validate db text) = true ->
       let answer := FakeNewsClassifier.classify db config endpoint text w in
       exists record,
         fst answer = Returned record /\
         FakeNewsClassifier.Result.success record = false /\
         FakeNewsClassifier.Result.error record
           = Some (Py.lit "Failed to communicate with Ollama. Please ensure the service is running.") /\
         snd answer = sent_after config (prompt_of db text) None n w).
Proof.
  intros Hpos Ht. exists (Z.to_nat (Config.MAX_RETRIES config)).
  split; [lia|].
  assert (Hg : forall prompt temperature w,
             OllamaHandler.generate_response config endpoint prompt
               temperature w
             = (None,
                sent_after config prompt temperature
                  (Z.to_nat (Config.MAX_RETRIES config)) w)).
  { intros prompt temperature w.
    destruct (generate_response_all_timeouts config endpoint prompt
                temperature w Hpos Ht) as (n & En & E).
    rewrite E. f_equal. f_equal. lia. }
  split; [exact Hg|].
  intros text w Hv answer. subst answer.
  destruct (validate db text) as [v m] eqn:Ev. simpl in Hv. subst v.
  rewrite (classify_valid db config endpoint text w Ev), Hg.
  eexists. repeat split.
Qed.

(** With the default configuration, three requests time out before
    [classify] reports the failure. *)
Lemma timeouts_exhaust_the_retries_witness :
  let text := Py.lit "NASA successfully landed the Perseverance rover on Mars in 2021." in
  let payload :=
    OllamaHandler.build_payload default_config
      (prompt_of Py.ascii_only text) None in
  let answer :=
    FakeNewsClassifier.classify Py.ascii_only default_config
      (fun _ _ => OllamaHandler.Timeout) text OllamaHandler.untouched in
  (exists record,
     fst answer = Returned record /\
     FakeNewsClassifier.Result.success record = false) /\
  snd answer
  = {| OllamaHandler.calls := [prompt_of Py.ascii_only text];
       OllamaHandler.requests := [payload; payload; payload] |}.
Proof.
  intros text payload answer.
  destruct (@timeouts_exhaust_the_retries Py.ascii_only default_config
              (fun _ _ => OllamaHandler.Timeout))
    as (n & En & _ & Hc); [vm_compute; discriminate | reflexivity |].
  destruct (Hc text OllamaHandler.untouched) as (record & Hr & Hs & _ & Hw);
    [reflexivity|].
  split; [now exists record|].
  assert (n = 3%nat) as -> by (simpl in En; lia).
  exact Hw.
Defined.

(** C6.  On a text that fails validation [classify] returns at once the
    record with [success] false and the message of [validate_input].  The
    world is as it was, whatever the endpoint: [generate_response] was not
    called and no request was sent. *)
Theorem invalid_input_sends_no_request
    (db : Py.UnicodeData) (config : Config.t)
    (endpoint : OllamaHandler.Endpoint) (text : Py.str)
    (w : OllamaHandler.World) :
  fst (validate db text) = false ->
  exists message,
    snd (validate db text) = Some message /\
    FakeNewsClassifier.classify db config endpoint text w
    = (Returned
         {| FakeNewsClassifier.Result.success := false;
            FakeNewsClassifier.Result.error := Some message;
            FakeNewsClassifier.Result.classification := None;
            FakeNewsClassifier.Result.confidence := 0;
            FakeNewsClassifier.Result.reasoning := None;
            FakeNewsClassifier.Result.features := None;
            FakeNewsClassifier.Result.model_info := None |}, w).
Proof.
  intros Hv. destruct (validate db text) as [v m] eqn:Ev.
  simpl in Hv. subst v.
  destruct (validate_message db text Ev) as (message & -> & _).
  exists message. split; [reflexivity|].
  now rewrite (classify_invalid db config endpoint text w Ev).
Qed.

(** The text "Hi" is answered without a call of the client, here with an
    endpoint that would have replied. *)
Lemma invalid_input_sends_no_request_witness :
  exists message,
    Py.contains (Py.lit "too short") message = true /\
    FakeNewsClassifier.classify Py.ascii_only default_config
      (fun _ _ =>
         OllamaHandler.Replied
           {| OllamaHandler.Body.response := Some (Json.Str labelled_reply);
              OllamaHandler.Body.model := None;
              OllamaHandler.Body.total_duration := None;
              OllamaHandler.Body.load_duration := None;
              OllamaHandler.Body.prompt_eval_count := None;
              OllamaHandler.Body.eval_count := None |})
      (Py.lit "Hi") OllamaHandler.untouched
    = (Returned (FakeNewsClassifier.failure (Some message) None),
       OllamaHandler.untouched).
Proof.
  destruct (@invalid_input_sends_no_request Py.ascii_only default_config
              (fun _ _ =>
                 OllamaHandler.Replied
                   {| OllamaHandler.Body.response :=
                        Some (Json.Str labelled_reply);
                      OllamaHandler.Body.model := None;
                      OllamaHandler.Body.total_duration := None;
                      OllamaHandler.Body.load_duration := None;
                      OllamaHandler.Body.prompt_eval_count := None;
                      OllamaHandler.Body.eval_count := None |})
              (Py.lit "Hi") OllamaHandler.untouched)
    as (message & Em & Ec); [reflexivity|].
  exists message. split; [|exact Ec].
  vm_compute in Em. injection Em as <-. reflexivity.
Defined.

(** C9.  The parser does raise outward.  On a reply that is a string its
    [try] block returns the record, and [classify] returns a record with
    [success] true.  On a reply of any other type [response.upper()]
    raises inside the [try] block, the [except] branch is entered, and its
    own [response.strip()] raises again: the exception leaves the parser
    and [classify], and no record is returned.  The client hands on such a
    reply when it is a list, which its log line can slice.  So the record
    of the [except] branch is never returned; nor is the message of the
    "parse failure" branch. *)
Theorem reply_that_is_no_string_escapes_the_parser :
  (forall (db : Py.UnicodeData) (v : Json.t),
     match v with
     | Json.Str response =>
         exists parsed,
           FakeNewsClassifier._parse_model_response db v
           = Returned (Some parsed) /\
           FakeNewsClassifier.parse_body db response = Some parsed /\
           FakeNewsClassifier.Parsed.raw_response parsed = response
     | _ =>
         FakeNewsClassifier._parse_model_response db v
         = Raised (no_attribute v (Py.lit "strip"))
     end) /\
  (forall (db : Py.UnicodeData) (config : Config.t)
          (endpoint : OllamaHandler.Endpoint) text w reply w',
     fst (validate db text) = true ->
     OllamaHandler.generate_response config endpoint (prompt_of db text)
       None w = (Some reply, w') ->
     let answer := FakeNewsClassifier.classify db config endpoint text w in
     snd answer = w' /\
     match OllamaHandler.Reply.response reply with
     | Json.Str response =>
         exists record,
           fst answer = Returned record /\
           FakeNewsClassifier.Result.success record = true
     | v => fst answer = Raised (no_attribute v (Py.lit "strip"))
     end) /\
  (forall (db : Py.UnicodeData) (config : Config.t)
          (endpoint : OllamaHandler.Endpoint) text w record,
     fst (FakeNewsClassifier.classify db config endpoint text w)
     = Returned record ->
     FakeNewsClassifier.Result.error record
     <> Some (Py.lit "Failed to parse model response")) /\
  (let body :=
     {| OllamaHandler.Body.response :=
          Some (Json.Array [Json.Str (Py.lit "REAL")]);
        OllamaHandler.Body.model := None;
        OllamaHandler.Body.total_duration := None;
        OllamaHandler.Body.load_duration := None;
        OllamaHandler.Body.prompt_eval_count := None;
        OllamaHandler.Body.eval_count := None |} in
   let endpoint (_ : nat) (_ : OllamaHandler.Payload.t) :=
     OllamaHandler.Replied body in
   let text := Py.lit "NASA successfully landed the Perseverance rover on Mars in 2021." in
   let prompt := prompt_of Py.ascii_only text in
   OllamaHandler.generate_response default_config endpoint prompt None
     OllamaHandler.untouched
   = (Some (reply_of default_config body),
      sent_after default_config prompt None 1 OllamaHandler.untouched) /\
   FakeNewsClassifier.classify Py.ascii_only default_config endpoint text
     OllamaHandler.untouched
   = (Raised
        (AttributeError (Py.lit "'list' object has no attribute 'strip'")),
      sent_after default_config prompt None 1 OllamaHandler.untouched)).
Proof.
  refine (conj _ (conj _ (conj _ _))).
  - intros db v. apply parse_model_response_cases.
  - intros db config endpoint text w reply w' Hv Hg answer. subst answer.
    pose proof (@classify_reply db config endpoint text w w' reply Hv Hg)
      as Hc.
    destruct (OllamaHandler.Reply.response reply) as [response| | | | | |];
      try (rewrite Hc; split; reflexivity).
    destruct Hc as (parsed & _ & ->). split; [reflexivity|].
    eexists. split; reflexivity.
  - intros db config endpoint text w record.
    destruct (validate db text) as [[|] m] eqn:Ev.
    + rewrite (classify_valid db config endpoint text w Ev).
      destruct (OllamaHandler.generate_response _ _ _ _ _) as [[reply|] w'].
      * pose proof (parse_model_response_cases db
                      (OllamaHandler.Reply.response reply)) as Hp.
        destruct (OllamaHandler.Reply.response reply)
          as [response| | | | | |];
          try (rewrite Hp; discriminate).
        destruct Hp as (parsed & -> & _). intros [= <-]. discriminate.
      * intros [= <-]. simpl. intros H. vm_compute in H. discriminate H.
    + rewrite (classify_invalid db config endpoint text w Ev).
      intros [= <-]. simpl.
      destruct (validate_message db text Ev) as (msg & -> & Hh).
      intros H. injection H as ->. vm_compute in Hh. discriminate Hh.
  - split; reflexivity.
Qed.

(** * Further properties of the code *)

(** ** What [clean_text] returns *)

Section SplitFacts.
Import Py.
Variable db : UnicodeData.

Lemma split_spaces (a : str) :
  List.forallb (isspace db) a = true -> split db a = [].
Proof.
  induction a as [|c a IH]; simpl; [reflexivity|]. intros H.
  apply andb_prop in H. destruct H as [Ec H]. rewrite Ec. now apply IH.
Qed.

Lemma split_lpad (a s : str) :
  List.forallb (isspace db) a = true -> split db (a ++ s) = split db s.
Proof.
  induction a as [|c a IH]; simpl; [reflexivity|]. intros H.
  apply andb_prop in H. destruct H as [Ec H]. rewrite Ec. now apply IH.
Qed.

Lemma split_rpad (s r : str) :
  List.forallb (isspace db) r = true -> split db (s ++ r) = split db s.
Proof.
  intros Hr. induction s as [|c t IH]; [now apply split_spaces|].
  simpl. destruct (isspace db c); [exact IH|].
  destruct t as [|d t'].
  - simpl. destruct r as [|x r']; [reflexivity|].
    simpl in Hr. apply andb_prop in Hr. destruct Hr as [Ex Hr'].
    rewrite Ex. rewrite (@split_spaces (x :: r')); [reflexivity|].
    simpl. now rewrite Ex.
  - simpl app. simpl app in IH. now rewrite IH.
Qed.

(** Whitespace around a text does not change its words. *)
Lemma split_padding (l core r : str) :
  List.forallb (isspace db) l = true ->
  List.forallb (isspace db) r = true ->
  split db (l ++ core ++ r) = split db core.
Proof.
  intros Hl Hr. rewrite (@split_lpad l _ Hl). now apply split_rpad.
Qed.

(** The text made of the words of [s] joined by single spaces, one
    character of [s] at a time. *)
Lemma join_split_step (c : char) (t : str) :
  let g s := join (lit " ") (split db s) in
  if isspace db c then g (c :: t) = g t
  else g (c :: t) = c :: g t \/
       (g (c :: t) = c :: 32%N :: g t /\
        exists d t', t = d :: t' /\ isspace db d = true).
Proof.
  intros g. unfold g. simpl. destruct (isspace db c); [reflexivity|].
  destruct t as [|d t']; [now left|].
  destruct (isspace db d) eqn:Ed.
  - destruct (split db (d :: t')) as [|w ws]; [now left|].
    right. split; [reflexivity | now exists d, t'].
  - destruct (split db (d :: t')) as [|w ws]; [now left|].
    left. apply join_cons_head.
Qed.

Lemma join_split_length_tight (s : str) :
  (List.length (join (lit " ") (split db s)) <= List.length s)%nat /\
  (forall d t, s = d :: t -> isspace db d = true ->
     (S (List.length (join (lit " ") (split db s))) <= List.length s)%nat).
Proof.
  induction s as [|c t [IH IHs]]; [split; [simpl; lia | discriminate]|].
  pose proof (join_split_step c t) as H. cbv zeta in H.
  cbn [List.length]. split.
  - destruct (isspace db c).
    + rewrite H. lia.
    + destruct H as [H|[H (d & t' & -> & Ed)]]; rewrite H;
        cbn [List.length]; [lia|].
      specialize (IHs d t' eq_refl Ed). cbn [List.length] in IHs. lia.
  - intros d t0 E Ed. injection E as -> ->. rewrite Ed in H. rewrite H. lia.
Qed.

Lemma join_split_length (s : str) :
  (List.length (join (lit " ") (split db s)) <= List.length s)%nat.
Proof. apply join_split_length_tight. Qed.

(** A class of characters that holds no whitespace is untouched by
    splitting and joining. *)
Lemma filter_join_split (q : char -> bool) (s : str) :
  (forall c, q c = true -> isspace db c = false) ->
  List.filter q (join (lit " ") (split db s)) = List.filter q s.
Proof.
  intros Hq.
  assert (Hsp : forall c, isspace db c = true -> q c = false).
  { intros c Hc. destruct (q c) eqn:E; [|reflexivity].
    apply Hq in E. congruence. }
  induction s as [|c t IH]; [reflexivity|].
  pose proof (join_split_step c t) as H. cbv zeta in H.
  destruct (isspace db c) eqn:Ec.
  - rewrite H, IH. simpl. now rewrite (Hsp c Ec).
  - destruct H as [H|[H _]]; rewrite H; simpl; rewrite IH; [reflexivity|].
    replace (q 32%N) with false; [reflexivity|].
    symmetry. now apply Hsp.
Qed.
End SplitFacts.

Section CleanShape.
Import Py TextPreprocessor.
Variable db : UnicodeData.

Lemma length_sub_repeats (p : char -> bool) (s : str) (run : option char) :
  (List.length (Re.sub_repeats p run s) <= List.length s)%nat.
Proof.
  revert run. induction s as [|c t IH]; intros run; [simpl; lia|].
  assert (Hfresh :
            (List.length
               match t with
               | d :: _ =>
                   if p c && char_eqb c d
                   then c :: Re.sub_repeats p (Some c) t
                   else c :: Re.sub_repeats p None t
               | [] => [c]
               end <= S (List.length t))%nat).
  { destruct t as [|d t'] eqn:Et; [simpl; lia|]. rewrite <- Et in *.
    destruct (p c && char_eqb c d); cbn [List.length].
    - specialize (IH (Some c)). lia.
    - specialize (IH None). lia. }
  simpl. destruct run as [r|]; [|exact Hfresh].
  destruct (char_eqb c r); [|exact Hfresh].
  specialize (IH (Some r)). lia.
Qed.

Lemma length_strip (s : str) :
  (List.length (strip db s) <= List.length s)%nat.
Proof.
  unfold strip.
  destruct (lstrip_suffix db s) as [a [Ea _]].
  destruct (rstrip_prefix db (lstrip db s)) as [b [Eb _]].
  rewrite Ea at 2. rewrite Eb at 2. rewrite !length_app. lia.
Qed.

(** The substitution only deletes characters of its class. *)
Lemma filter_sub_repeats (q p : char -> bool) (s : str) (run : option char) :
  (forall c, p c = true -> q c = false) ->
  (forall r, run = Some r -> q r = false) ->
  List.filter q (Re.sub_repeats p run s) = List.filter q s.
Proof.
  intros Hp. revert run. induction s as [|c t IH]; intros run Hrun;
    [reflexivity|].
  assert (Hfresh :
            List.filter q
              match t with
              | d :: _ =>
                  if p c && char_eqb c d
                  then c :: Re.sub_repeats p (Some c) t
                  else c :: Re.sub_repeats p None t
              | [] => [c]
              end = List.filter q (c :: t)).
  { destruct t as [|d t'] eqn:Et; [reflexivity|]. rewrite <- Et in *.
    destruct (p c && char_eqb c d) eqn:E; simpl; rewrite IH;
      try reflexivity; try discriminate.
    intros r [= <-]. apply andb_prop in E. now apply Hp. }
  simpl. destruct run as [r|]; [|exact Hfresh].
  destruct (char_eqb c r) eqn:E; [|exact Hfresh].
  apply char_eqb_eq in E. subst r.
  rewrite (Hrun c eq_refl). now apply IH.
Qed.

Lemma filter_spaces (q : char -> bool) (a : str) :
  (forall c, q c = true -> isspace db c = false) ->
  List.forallb (isspace db) a = true -> List.filter q a = [].
Proof.
  intros Hq. induction a as [|c a IH]; simpl; [reflexivity|]. intros H.
  apply andb_prop in H. destruct H as [Ec H].
  destruct (q c) eqn:E; [apply Hq in E; congruence | now apply IH].
Qed.

(** [strip] only deletes whitespace. *)
Lemma filter_strip (q : char -> bool) (s : str) :
  (forall c, q c = true -> isspace db c = false) ->
  List.filter q (strip db s) = List.filter q s.
Proof.
  intros Hq. unfold strip.
  destruct (lstrip_suffix db s) as [a [Ea Fa]].
  destruct (rstrip_prefix db (lstrip db s)) as [b [Eb Fb]].
  rewrite Ea at 2. rewrite Eb at 2.
  rewrite !filter_app, (@filter_spaces q a Hq Fa), (@filter_spaces q b Hq Fb).
  now rewrite app_nil_r.
Qed.

Lemma filter_filter_implied (q p : char -> bool) (s : str) :
  (forall c, q c = true -> p c = true) ->
  List.filter q (List.filter p s) = List.filter q s.
Proof.
  intros H. induction s as [|c t IH]; simpl; [reflexivity|].
  destruct (p c) eqn:Ep; simpl; rewrite IH; [reflexivity|].
  destruct (q c) eqn:Eq; [apply H in Eq; congruence | reflexivity].
Qed.

Lemma word_character_facts (c : char) :
  word_character db c = true ->
  isspace db c = false /\ kept db c = true /\ collapsed_mark c = false.
Proof.
  unfold word_character, kept. intros H. apply andb_prop in H.
  destruct H as [Hw Hs]. apply negb_true_iff in Hs. rewrite Hw.
  repeat split; [exact Hs|].
  destruct (collapsed_mark c) eqn:E; [|reflexivity].
  unfold collapsed_mark, mem in E. simpl in E.
  repeat (apply orb_prop in E; destruct E as [E|E]);
    try discriminate E; apply char_eqb_eq in E; subst c; discriminate Hw.
Qed.

(** The double quote is never kept. *)
Lemma quote_not_kept : kept db 34%N = false.
Proof. reflexivity. Qed.
End CleanShape.

(** X2.  What [clean_text] returns holds only characters of the kept set
    (word characters, whitespace of the pattern and the eight marks), so
    never a double quote; its only whitespace, as [str.isspace] reads it,
    is the plain space; and it is already trimmed. *)
Theorem clean_text_output_shape (db : Py.UnicodeData) (text : Py.str) :
  let cleaned := TextPreprocessor.clean_text db text in
  (forall c, List.In c cleaned ->
     Py.re_word db c || Py.re_space db c || kept_mark c = true) /\
  ~ List.In 34%N cleaned /\
  (forall c, List.In c cleaned -> Py.isspace db c = true -> c = 32%N) /\
  Py.strip db cleaned = cleaned.
Proof.
  intros cleaned.
  assert (Hkept : List.forallb (TextPreprocessor.kept db) cleaned = true).
  { subst cleaned. unfold TextPreprocessor.clean_text.
    destruct (TextPreprocessor.falsy text); [reflexivity|].
    apply forallb_strip, forallb_sub_repeats, forallb_filter_self. }
  assert (Hplain : plain_spaces db cleaned = true).
  { subst cleaned. unfold TextPreprocessor.clean_text.
    destruct (TextPreprocessor.falsy text); [reflexivity|].
    apply forallb_strip, forallb_sub_repeats, forallb_filter.
    apply plain_spaces_join, split_words_no_space. }
  rewrite forallb_forall in Hkept. unfold plain_spaces in Hplain.
  rewrite forallb_forall in Hplain.
  split; [intros c Hc; exact (Hkept c Hc)|].
  split; [intros Hq; apply Hkept in Hq; discriminate Hq|].
  split.
  - intros c Hc Hs. specialize (Hplain c Hc). rewrite Hs in Hplain.
    now apply char_eqb_eq.
  - subst cleaned. unfold TextPreprocessor.clean_text.
    destruct (TextPreprocessor.falsy text); [reflexivity|].
    apply strip_tight; [apply strip_starts_tight | apply rstrip_ends_tight].
Qed.

(** X3.  [clean_text] never returns a text longer than its input. *)
Theorem clean_text_never_lengthens (db : Py.UnicodeData) (text : Py.str) :
  (Py.len (TextPreprocessor.clean_text db text) <= Py.len text)%Z.
Proof.
  unfold Py.len. apply inj_le. unfold TextPreprocessor.clean_text.
  destruct (TextPreprocessor.falsy text); [simpl; lia|]. cbv zeta.
  eapply Nat.le_trans; [apply length_strip|].
  eapply Nat.le_trans; [apply length_sub_repeats|].
  eapply Nat.le_trans; [apply filter_length_le|].
  apply join_split_length.
Qed.

(** X4.  [clean_text] keeps every word character that is not whitespace,
    in the order of the text; so a text that holds one is never cleaned to
    the empty string. *)
Theorem clean_text_keeps_word_characters
    (db : Py.UnicodeData) (text : Py.str) :
  List.filter (word_character db) (TextPreprocessor.clean_text db text)
    = List.filter (word_character db) text /\
  (List.existsb (word_character db) text = true ->
   TextPreprocessor.clean_text db text <> []).
Proof.
  assert (Hs : forall c, word_character db c = true ->
                         Py.isspace db c = false)
    by (intros c H; now apply word_character_facts in H).
  assert (E : List.filter (word_character db)
                (TextPreprocessor.clean_text db text)
              = List.filter (word_character db) text).
  { unfold TextPreprocessor.clean_text.
    destruct (TextPreprocessor.falsy text) eqn:Ef;
      [apply falsy_nil in Ef; now subst text|].
    cbv zeta. rewrite (@filter_strip db _ _ Hs).
    rewrite filter_sub_repeats.
    - rewrite filter_filter_implied
        by (intros c H; now apply word_character_facts in H).
      now apply filter_join_split.
    - intros c Hc. destruct (word_character db c) eqn:Ew; [|reflexivity].
      apply word_character_facts in Ew. destruct Ew as (_ & _ & Ew).
      unfold collapsed_mark in Ew. congruence.
    - discriminate. }
  split; [exact E|].
  intros Hex Hnil. rewrite Hnil in E. simpl in E.
  apply existsb_exists in Hex. destruct Hex as (c & Hin & Hc).
  assert (Hf : List.In c (List.filter (word_character db) text))
    by (apply filter_In; now split).
  rewrite <- E in Hf. exact Hf.
Qed.

(** A headline with a handle and an amount: the word characters survive
    the cleaning. *)
Lemma clean_text_keeps_word_characters_witness :
  TextPreprocessor.clean_text Py.ascii_only (Py.lit "@bbc: 5 dead!!") <> [].
Proof.
  apply (clean_text_keeps_word_characters Py.ascii_only
           (Py.lit "@bbc: 5 dead!!")).
  reflexivity.
Defined.

(** X5.  Whitespace before and after a text does not change what
    [clean_text] returns. *)
Theorem clean_text_ignores_padding
    (db : Py.UnicodeData) (l core r : Py.str) :
  List.forallb (Py.isspace db) l = true ->
  List.forallb (Py.isspace db) r = true ->
  TextPreprocessor.clean_text db (l ++ core ++ r)
  = TextPreprocessor.clean_text db core.
Proof.
  intros Hl Hr. unfold TextPreprocessor.clean_text.
  rewrite (@split_padding db l core r Hl Hr).
  destruct (TextPreprocessor.falsy (l ++ core ++ r)) eqn:E1.
  - apply falsy_nil in E1. apply app_eq_nil in E1. destruct E1 as [_ E1].
    apply app_eq_nil in E1. destruct E1 as [-> _]. reflexivity.
  - destruct (TextPreprocessor.falsy core) eqn:E2; [|reflexivity].
    apply falsy_nil in E2. subst core. reflexivity.
Qed.

(** A headline pasted with a leading tab and a trailing newline. *)
Lemma clean_text_ignores_padding_witness :
  TextPreprocessor.clean_text Py.ascii_only
    ([9%N] ++ Py.lit "Rates rise again" ++ [10%N])
  = Py.lit "Rates rise again".
Proof.
  exact (eq_trans
           (@clean_text_ignores_padding Py.ascii_only
              [9%N] (Py.lit "Rates rise again") [10%N] eq_refl eq_refl)
           eq_refl).
Defined.

(** ** The features of a text *)

Section FeatureFacts.
Import Py TextPreprocessor.
Variable db : UnicodeData.

Lemma split_nil_spaces (s : str) :
  split db s = [] <-> List.forallb (isspace db) s = true.
Proof.
  split; [|apply split_spaces].
  induction s as [|c t IH]; [reflexivity|]. simpl.
  destruct (isspace db c); [exact IH|].
  destruct t as [|d t']; [discriminate|].
  destruct (isspace db d); [discriminate|].
  destruct (split db (d :: t')); discriminate.
Qed.


(** Two words are at least one whitespace character apart. *)
Lemma split_length_tight (s : str) :
  (2 * List.length (split db s) <= List.length s + 1)%nat /\
  (forall d t, s = d :: t -> isspace db d = true ->
     (2 * List.length (split db s) <= List.length s)%nat).
Proof.
  induction s as [|c t [IH IHs]]; [split; [simpl; lia | discriminate]|].
  split.
  - simpl. destruct (isspace db c); [lia|].
    destruct t as [|d t']; [simpl; lia|].
    destruct (isspace db d) eqn:Ed.
    + specialize (IHs d t' eq_refl Ed). cbn [List.length] in *. lia.
    + destruct (split db (d :: t')) as [|w ws]; cbn [List.length] in *; lia.
  - intros d t0 E Ed. injection E as -> ->. simpl. rewrite Ed. lia.
Qed.

Lemma filter_disjoint_length (p q : char -> bool) (s : str) :
  (forall c, p c = true -> q c = false) ->
  (List.length (List.filter p s) + List.length (List.filter q s)
   <= List.length s)%nat.
Proof.
  intros H. induction s as [|c t IH]; simpl; [lia|].
  destruct (p c) eqn:Ep; [rewrite (H c Ep)|destruct (q c)]; simpl; lia.
Qed.
End FeatureFacts.

(** X6.  The features of a text stay within the bounds its length sets:
    the uppercase ratio lies between 0 and 1 and is 0 for the empty text
    (no division by zero), the exclamation and question marks together are
    no more than the characters, and [n] words need at least [2n - 1]
    characters; the clickbait flag is never set. *)
Theorem extract_features_bounds (db : Py.UnicodeData) (text : Py.str) :
  let f := TextPreprocessor.extract_features db text in
  let n := TextPreprocessor.Features.length f in
  n = Py.len text /\
  (0 <= TextPreprocessor.Features.uppercase_ratio f)%Q /\
  (TextPreprocessor.Features.uppercase_ratio f <= 1)%Q /\
  (text = [] -> TextPreprocessor.Features.uppercase_ratio f = 0%Q) /\
  (0 <= TextPreprocessor.Features.exclamation_count f)%Z /\
  (0 <= TextPreprocessor.Features.question_count f)%Z /\
  (TextPreprocessor.Features.exclamation_count f
   + TextPreprocessor.Features.question_count f <= n)%Z /\
  (0 <= TextPreprocessor.Features.word_count f)%Z /\
  (2 * TextPreprocessor.Features.word_count f <= n + 1)%Z /\
  TextPreprocessor.Features.has_clickbait_words f = false.
Proof.
  intros f n. subst n f. unfold TextPreprocessor.extract_features.
  cbn [TextPreprocessor.Features.length TextPreprocessor.Features.word_count
       TextPreprocessor.Features.exclamation_count
       TextPreprocessor.Features.question_count
       TextPreprocessor.Features.uppercase_ratio
       TextPreprocessor.Features.has_clickbait_words].
  unfold Py.count, Py.len.
  split; [reflexivity|].
  assert (Hratio :
            (0 <= (if TextPreprocessor.falsy text then 0
                   else Z.of_nat
                          (List.length (List.filter (Py.isupper db) text))
                        # Pos.of_nat (List.length text)))%Q /\
            ((if TextPreprocessor.falsy text then 0
              else Z.of_nat
                     (List.length (List.filter (Py.isupper db) text))
                   # Pos.of_nat (List.length text)) <= 1)%Q).
  { destruct text as [|c t]; [split; discriminate|].
    cbn [TextPreprocessor.falsy].
    pose proof (filter_length_le (Py.isupper db) (c :: t)) as Hle.
    unfold Qle. cbn [Qnum Qden].
    assert (Hd : Z.pos (Pos.of_nat (List.length (c :: t)))
                 = Z.of_nat (List.length (c :: t))).
    { rewrite <- positive_nat_Z, Nat2Pos.id; [reflexivity | discriminate]. }
    rewrite Hd. split; lia. }
  destruct Hratio as [H0 H1].
  split; [exact H0|]. split; [exact H1|].
  split; [intros ->; reflexivity|].
  split; [lia|]. split; [lia|].
  split.
  - pose proof (@filter_disjoint_length
                  (Py.char_eqb 33%N) (Py.char_eqb 63%N) text) as H.
    assert (Hd : forall c, Py.char_eqb 33%N c = true ->
                           Py.char_eqb 63%N c = false).
    { intros c E. apply char_eqb_eq in E. now subst c. }
    specialize (H Hd). lia.
  - split; [lia|]. split; [|reflexivity].
    pose proof (proj1 (split_length_tight db text)). lia.
Qed.


(** ** The prompt *)

Section PromptFacts.
Import Py TextPreprocessor FakeNewsClassifier.

Lemma count_app (c : char) (a b : str) :
  count c (a ++ b) = (count c a + count c b)%Z.
Proof. unfold count. rewrite filter_app, length_app. lia. Qed.

Lemma count_absent (c : char) (s : str) :
  ~ List.In c s -> count c s = 0%Z.
Proof.
  intros H. unfold count.
  replace (List.filter (char_eqb c) s) with (@nil char); [reflexivity|].
  symmetry. induction s as [|x t IH]; [reflexivity|]. simpl.
  destruct (char_eqb c x) eqn:E.
  - apply char_eqb_eq in E. subst x. elim H. now left.
  - apply IH. intros Hin. apply H. now right.
Qed.

(** Every character of a cleaned text is one that the deletion keeps. *)
Lemma clean_text_all_kept (db : UnicodeData) (text : str) :
  List.forallb (kept db) (clean_text db text) = true.
Proof.
  unfold clean_text. destruct (falsy text); [reflexivity|].
  apply forallb_strip, forallb_sub_repeats, forallb_filter_self.
Qed.

Lemma clean_text_no_quote (db : UnicodeData) (text : str) :
  ~ List.In 34%N (clean_text db text).
Proof.
  intros H. pose proof (clean_text_all_kept db text) as Hk.
  rewrite forallb_forall in Hk. apply Hk in H. discriminate H.
Qed.
End PromptFacts.

(** X8.  The prompt is the fixed template of 684 characters around the
    text: two texts with the same prompt are the same text, and the prompt
    that [classify] sends holds exactly two double quotes, the two that
    delimit the article, because a cleaned text holds none. *)
Theorem prompt_delimits_the_article :
  (forall a b,
     FakeNewsClassifier._create_classification_prompt a
     = FakeNewsClassifier._create_classification_prompt b -> a = b) /\
  (forall text,
     Py.len (FakeNewsClassifier._create_classification_prompt text)
     = (684 + Py.len text)%Z) /\
  (forall db text, Py.count 34%N (prompt_of db text) = 2%Z).
Proof.
  split; [|split].
  - intros a b H. unfold FakeNewsClassifier._create_classification_prompt in H.
    apply app_inv_head in H. apply app_inv_head in H.
    now apply app_inv_tail in H.
  - intros text. unfold FakeNewsClassifier._create_classification_prompt, Py.len.
    rewrite !length_app.
    match goal with
    | |- Z.of_nat (List.length ?p + (_ + (_ + (_ + List.length ?q))))%nat = _ =>
        replace (List.length p) with 432%nat by (vm_compute; reflexivity);
        replace (List.length q) with 250%nat by (vm_compute; reflexivity)
    end.
    unfold FakeNewsClassifier.quote. simpl List.length. lia.
  - intros db text. unfold prompt_of,
      FakeNewsClassifier._create_classification_prompt.
    rewrite !count_app.
    rewrite (@count_absent _ _ (@clean_text_no_quote db text)).
    match goal with
    | |- (Py.count _ ?p + (_ + (_ + (_ + Py.count _ ?q))))%Z = _ =>
        replace (Py.count 34%N p) with 0%Z by (vm_compute; reflexivity);
        replace (Py.count 34%N q) with 0%Z by (vm_compute; reflexivity)
    end.
    reflexivity.
Qed.

(** ** The reasoning of a reply *)

Section ReasoningFacts.
Import Py FakeNewsClassifier.
Variable db : UnicodeData.

Lemma literal_match (A : Type) (eqb : char -> char -> bool) (l : str)
    (k : Re.cont A) (s : str) (r : A) :
  Re.literal eqb l k s = Some r <->
  exists m t, s = m ++ t /\
              List.Forall2 (fun p c => eqb p c = true) l m /\
              k t = Some r.
Proof.
  revert s. induction l as [|x l IH]; intros s; simpl.
  - split.
    + intros H. exists [], s. repeat split; [constructor | exact H].
    + intros (m & t & -> & F & H). inversion F; subst. exact H.
  - rewrite one_some. split.
    + intros (c & t & -> & E & H). apply IH in H.
      destruct H as (m & t' & -> & F & H).
      exists (c :: m), t'. repeat split; [now constructor | exact H].
    + intros (m & t & -> & F & H). inversion F as [|? c ? m' E F']; subst.
      exists c, (m' ++ t). repeat split; [exact E|].
      apply IH. now exists m', t.
Qed.

Lemma strip_lpad (a s : str) :
  List.forallb (isspace db) a = true -> strip db (a ++ s) = strip db s.
Proof. intros H. unfold strip. now rewrite lstrip_app, H. Qed.

Lemma strip_idempotent (s : str) : strip db (strip db s) = strip db s.
Proof.
  apply strip_tight; [apply strip_starts_tight | apply rstrip_ends_tight].
Qed.

Lemma reasoning_match_sound (s g : str) :
  reasoning_match db s = Some g ->
  exists rest, reasoning_label db s rest /\ strip db rest = strip db g.
Proof.
  unfold reasoning_match, labelled. intros H.
  apply search_sound in H. destruct H as (pre & t0 & -> & H).
  apply literal_match in H. destruct H as (m & t1 & -> & F & H).
  apply star_sound in H. destruct H as (ws1 & t2 & -> & F1 & H).
  apply one_some in H. destruct H as (sep & t3 & -> & Hsep & H).
  apply star_sound in H. destruct H as (ws2 & t & -> & F2 & H).
  injection H as <-. exists (ws2 ++ t). split.
  - now exists pre, m, ws1, sep.
  - now apply strip_lpad.
Qed.

Lemma reasoning_match_complete (s rest : str) :
  reasoning_label db s rest -> reasoning_match db s <> None.
Proof.
  intros (pre & m & ws & sep & -> & F & Fw & Hsep).
  unfold reasoning_match. apply search_complete. unfold labelled.
  match goal with
  | |- Re.literal _ _ ?k1 _ <> None =>
      destruct (k1 (ws ++ sep :: rest)) as [r|] eqn:E
  end.
  - intros H.
    assert (Hl : Re.literal (ignorecase_eqb db) (lit "REASONING")
                   (Re.star (isspace db)
                      (Re.one separator
                         (Re.star (isspace db) (fun rest => Some rest))))
                   (m ++ ws ++ sep :: rest) = Some r)
      by (apply literal_match; exists m, (ws ++ sep :: rest); now repeat split).
    congruence.
  - exfalso. revert E. apply star_complete; [exact Fw|].
    simpl. rewrite Hsep.
    apply (@star_complete str (isspace db) (fun rest => Some rest) [] rest);
      [reflexivity | discriminate].
Qed.

(** The pattern of the reasoning at the start of a text. *)
Lemma reasoning_pattern_sound (t g : str) :
  labelled db (ignorecase_eqb db) (lit "REASONING") (fun rest => Some rest) t
  = Some g ->
  exists m ws sep ws2,
    t = m ++ ws ++ sep :: ws2 ++ g /\
    List.Forall2 (fun p c => ignorecase_eqb db p c = true)
      (lit "REASONING") m /\
    List.forallb (isspace db) ws = true /\ separator sep = true /\
    List.forallb (isspace db) ws2 = true.
Proof.
  unfold labelled. intros H.
  apply literal_match in H. destruct H as (m & t1 & -> & F & H).
  apply star_sound in H. destruct H as (ws1 & t2 & -> & F1 & H).
  apply one_some in H. destruct H as (sep & t3 & -> & Hsep & H).
  apply star_sound in H. destruct H as (ws2 & t & -> & F2 & H).
  injection H as <-. now exists m, ws1, sep, ws2.
Qed.

Lemma reasoning_pattern_complete (t : str) :
  starts_with_reasoning db t ->
  labelled db (ignorecase_eqb db) (lit "REASONING") (fun rest => Some rest) t
  <> None.
Proof.
  intros (m & ws & sep & rest & -> & F & Fw & Hsep). unfold labelled.
  match goal with
  | |- Re.literal _ _ ?k1 _ <> None =>
      destruct (k1 (ws ++ sep :: rest)) as [r|] eqn:E
  end.
  - intros H.
    assert (Hl : Re.literal (ignorecase_eqb db) (lit "REASONING")
                   (Re.star (isspace db)
                      (Re.one separator
                         (Re.star (isspace db) (fun rest => Some rest))))
                   (m ++ ws ++ sep :: rest) = Some r)
      by (apply literal_match; exists m, (ws ++ sep :: rest); now repeat split).
    congruence.
  - exfalso. revert E. apply star_complete; [exact Fw|].
    simpl. rewrite Hsep.
    apply (@star_complete str (isspace db) (fun rest => Some rest) [] rest);
      [reflexivity | discriminate].
Qed.

(** What [re.search] returns for the reasoning is, once trimmed, what
    follows the first label. *)
Lemma reasoning_match_first (s g : str) :
  reasoning_match db s = Some g ->
  exists rest, first_reasoning_label db s rest /\ strip db rest = strip db g.
Proof.
  unfold reasoning_match. intros H.
  apply search_first in H. destruct H as (pre & t0 & -> & H & Hfirst).
  apply reasoning_pattern_sound in H.
  destruct H as (m & ws & sep & ws2 & -> & F & Fw & Hsep & F2).
  exists (ws2 ++ g). split; [|now apply strip_lpad].
  exists pre, m, ws, sep. repeat split; try assumption.
  intros pre' t Heq Hlen Hs. apply reasoning_pattern_complete in Hs.
  apply Hs. now apply (Hfirst pre' t Heq).
Qed.

Lemma first_reasoning_match (s rest : str) :
  first_reasoning_label db s rest ->
  exists g, reasoning_match db s = Some g /\ strip db g = strip db rest.
Proof.
  intros (pre & m & ws & sep & -> & F & Fw & Hsep & Hfirst).
  assert (Hstart : starts_with_reasoning db (m ++ ws ++ sep :: rest))
    by (now exists m, ws, sep, rest).
  destruct (labelled db (ignorecase_eqb db) (lit "REASONING")
              (fun rest => Some rest) (m ++ ws ++ sep :: rest))
    as [g|] eqn:Ek;
    [|now apply reasoning_pattern_complete in Hstart].
  exists g. split.
  - unfold reasoning_match. apply search_at; [exact Ek|].
    intros pre' t' Heq Hlen.
    destruct (labelled db (ignorecase_eqb db) (lit "REASONING")
                (fun rest => Some rest) t') as [g'|] eqn:Ek';
      [|reflexivity].
    exfalso. apply (Hfirst pre' t' Heq Hlen).
    apply reasoning_pattern_sound in Ek'.
    destruct Ek' as (m' & ws' & sep' & ws2' & -> & F' & Fw' & Hsep' & _).
    now exists m', ws', sep', (ws2' ++ g').
  - apply reasoning_pattern_sound in Ek.
    destruct Ek as (m' & ws' & sep' & ws2 & Heq & F' & Fw' & Hsep' & F2).
    assert (Hm : List.length m = List.length m')
      by (rewrite <- (Forall2_length F), <- (Forall2_length F'); reflexivity).
    destruct (app_same_length _ _ _ _ Heq Hm) as [_ Heq1].
    assert (Hw : List.length ws = List.length ws').
    { pose proof (@whitespace_before_separator db ws ws' rest
                    (sep' :: ws2 ++ g) sep Hsep Fw Fw' Heq1).
      pose proof (@whitespace_before_separator db ws' ws (ws2 ++ g)
                    (sep :: rest) sep' Hsep' Fw' Fw (eq_sym Heq1)).
      lia. }
    destruct (app_same_length _ _ _ _ Heq1 Hw) as [_ Heq2].
    injection Heq2 as _ ->. symmetry. now apply strip_lpad.
Qed.
End ReasoningFacts.

(** X9.  The reasoning of a parsed reply is always a trimmed text.  When
    the reply holds a REASONING label (in any letter case, before a colon
    or hyphen), it is what follows the first such label, to the end of the
    reply, trimmed; otherwise it is the whole reply, trimmed.  The reply
    itself is kept, unchanged, as the raw response. *)
Theorem parsed_reasoning_is_trimmed_rest
    (db : Py.UnicodeData) (response : Py.str) :
  exists parsed,
    FakeNewsClassifier._parse_model_response db (Json.Str response)
    = Returned (Some parsed) /\
    FakeNewsClassifier.Parsed.raw_response parsed = response /\
    let reasoning := FakeNewsClassifier.Parsed.reasoning parsed in
    Py.strip db reasoning = reasoning /\
    ((exists rest, reasoning_label db response rest) ->
     exists rest, first_reasoning_label db response rest) /\
    (forall rest,
       first_reasoning_label db response rest ->
       reasoning = Py.strip db rest) /\
    (~ (exists rest, reasoning_label db response rest) ->
     reasoning = Py.strip db response).
Proof.
  rewrite parse_model_response_body.
  destruct (parse_body_some db response) as (n & _ & E).
  eexists. split; [now rewrite E|]. split; [reflexivity|]. cbv zeta.
  cbn [FakeNewsClassifier.Parsed.reasoning].
  destruct (FakeNewsClassifier.reasoning_match db response) as [g|] eqn:Em.
  - split; [apply strip_idempotent|].
    destruct (reasoning_match_first _ _ Em) as (rest & Hl & Hs).
    split; [|split].
    + intros _. now exists rest.
    + intros rest' Hrest. apply first_reasoning_match in Hrest.
      destruct Hrest as (g' & Eg & Hg). congruence.
    + intros Hn. elim Hn.
      destruct Hl as (pre & m & ws & sep & Hl & F & Fw & Hsep & _).
      exists rest. now exists pre, m, ws, sep.
  - split; [apply strip_idempotent|]. split; [|split; [|reflexivity]].
    + intros (rest & Hl). now apply reasoning_match_complete in Hl.
    + intros rest Hrest. apply first_reasoning_match in Hrest.
      destruct Hrest as (g & Eg & _). congruence.
Qed.

(** A reply with two labels: the reasoning starts after the first one and
    keeps the second.  And a reply of plain prose. *)
Lemma parsed_reasoning_is_trimmed_rest_witness :
  (exists parsed,
     FakeNewsClassifier._parse_model_response Py.ascii_only
       (Json.Str (Py.lit "REASONING: a reasoning: b "))
     = Returned (Some parsed) /\
     FakeNewsClassifier.Parsed.reasoning parsed
     = Py.lit "a reasoning: b") /\
  (exists parsed,
     FakeNewsClassifier._parse_model_response Py.ascii_only
       (Json.Str (Py.lit "  I cannot tell whether this is true. "))
     = Returned (Some parsed) /\
     FakeNewsClassifier.Parsed.reasoning parsed
     = Py.lit "I cannot tell whether this is true.").
Proof.
  split.
  - destruct (parsed_reasoning_is_trimmed_rest Py.ascii_only
                (Py.lit "REASONING: a reasoning: b "))
      as (parsed & E & _ & _ & _ & Hf & _).
    exists parsed. split; [exact E|].
    rewrite (Hf (Py.lit " a reasoning: b ")); [reflexivity|].
    exists [], (Py.lit "REASONING"), [], 58%N.
    repeat split; try reflexivity.
    + repeat constructor.
    + intros pre' t _ Hlen. simpl in Hlen. lia.
  - destruct (parsed_reasoning_is_trimmed_rest Py.ascii_only
                (Py.lit "  I cannot tell whether this is true. "))
      as (parsed & E & _ & _ & _ & _ & Hn).
    exists parsed. split; [exact E|]. rewrite Hn; [reflexivity|].
    intros (rest & Hl). apply reasoning_match_complete in Hl.
    now apply Hl.
Defined.

(** ** Replies of the model client *)

Section ReplyFacts.
Import OllamaHandler.
Variable config : Config.t.
Variable endpoint : Endpoint.
Variable payload : Payload.t.

(** What the loop returns, by the requests it sent: a reply is the body
    that answered the last request. *)
Lemma attempt_loop_outcome (attempts : list Z) (w w' : list Payload.t)
    (r : option Reply.t) :
  attempt_loop config endpoint payload attempts w = (r, w') ->
  exists m,
    w' = List.repeat payload m ++ w /\ (m <= List.length attempts)%nat /\
    forall reply, r = Some reply ->
      exists m' body,
        m = S m' /\
        endpoint (List.length w + m')%nat payload = Replied body /\
        reply = reply_of config body /\
        Json.sliceable (Reply.response reply) = true.
Proof.
  revert w. induction attempts as [|a rest IH]; intros w H; simpl in H.
  - injection H as <- <-. exists 0%nat. repeat split; [lia | discriminate].
  - unfold post in H.
    assert (Hnone : forall w1,
               (None : option Reply.t, payload :: w) = (r, w1) ->
               exists m,
                 w1 = List.repeat payload m ++ w /\
                 (m <= List.length (a :: rest))%nat /\
                 forall reply, r = Some reply ->
                   exists m' body,
                     m = S m' /\
                     endpoint (List.length w + m')%nat payload
                     = Replied body /\
                     reply = reply_of config body /\
                     Json.sliceable (Reply.response reply) = true).
    { intros w1 E. injection E as <- <-. exists 1%nat.
      repeat split; [simpl; lia | discriminate]. }
    destruct (endpoint (List.length w) payload) eqn:E;
      try (apply Hnone; exact H).
    + destruct (Json.sliceable (get (Body.response body) (Json.Str [])))
        eqn:Es; [|apply Hnone; exact H].
      injection H as <- <-. exists 1%nat.
      repeat split; [simpl; lia|]. intros reply [= <-].
      exists 0%nat, body. rewrite Nat.add_0_r. now repeat split.
    + destruct (Z.eqb a (max_retries config - 1)); [apply Hnone; exact H|].
      destruct (IH _ H) as (m & -> & Hm & Hr).
      exists (S m). split; [now rewrite repeat_shift|].
      split; [simpl; lia|]. intros reply Hreply.
      destruct (Hr reply Hreply) as (m' & body & -> & Hb & -> & Hs).
      exists (S m'), body. repeat split; [|exact Hs].
      rewrite <- Hb. f_equal. simpl. lia.
Qed.
End ReplyFacts.

(** X10.  A reply that comes after [k] timeouts, with [k] below
    [max_retries], ends the loop: [generate_response] sends [k + 1]
    requests.  It returns the body of the last one, each field the body
    lacks replaced by its default (the empty text, the configured model,
    0), when the [response] is missing, a string or a list; for any other
    [response] the log line cannot slice it and the result is [None]. *)
Theorem reply_after_timeouts
    (config : Config.t) (endpoint : OllamaHandler.Endpoint)
    (prompt : Py.str) (temperature : option Q) (w : OllamaHandler.World)
    (k : nat) (body : OllamaHandler.Body.t) :
  let payload := OllamaHandler.build_payload config prompt temperature in
  let before := List.length (OllamaHandler.requests w) in
  (Z.of_nat k < Config.MAX_RETRIES config)%Z ->
  (forall i, (i < k)%nat ->
     endpoint (before + i)%nat payload = OllamaHandler.Timeout) ->
  endpoint (before + k)%nat payload = OllamaHandler.Replied body ->
  OllamaHandler.generate_response config endpoint prompt temperature w
  = (if Json.sliceable
          (OllamaHandler.get (OllamaHandler.Body.response body)
             (Json.Str []))
     then Some (reply_of config body) else None,
     sent_after config prompt temperature (S k) w).
Proof.
  intros payload before Hk Ht Hb.
  unfold OllamaHandler.generate_response, OllamaHandler.range.
  fold payload.
  rewrite (@range_split (Z.to_nat (OllamaHandler.max_retries config)) k)
    by (unfold OllamaHandler.max_retries; lia).
  rewrite attempt_loop_timeouts; [|exact Ht|].
  - simpl. unfold OllamaHandler.post.
    rewrite length_app, repeat_length, (Nat.add_comm k). fold before.
    rewrite Hb.
    destruct (Json.sliceable _); reflexivity.
  - intros i Hi. unfold OllamaHandler.max_retries. simpl. lia.
Qed.

(** Two timeouts, then a body that only holds the text of the reply. *)
Lemma reply_after_timeouts_witness :
  let body :=
    {| OllamaHandler.Body.response := Some (Json.Str labelled_reply);
       OllamaHandler.Body.model := None;
       OllamaHandler.Body.total_duration := None;
       OllamaHandler.Body.load_duration := None;
       OllamaHandler.Body.prompt_eval_count := None;
       OllamaHandler.Body.eval_count := None |} in
  let endpoint (n : nat) (_ : OllamaHandler.Payload.t) :=
    match n with
    | 0%nat | 1%nat => OllamaHandler.Timeout
    | _ => OllamaHandler.Replied body
    end in
  exists reply,
    OllamaHandler.generate_response default_config endpoint (Py.lit "?") None
      OllamaHandler.untouched
    = (Some reply,
       sent_after default_config (Py.lit "?") None 3 OllamaHandler.untouched)
    /\ OllamaHandler.Reply.response reply = Json.Str labelled_reply
    /\ OllamaHandler.Reply.model reply = Py.lit "llama3:8b"
    /\ OllamaHandler.Reply.eval_count reply = 0%Z.
Proof.
  intros body endpoint. exists (reply_of default_config body).
  split; [|repeat split].
  refine (eq_trans
            (@reply_after_timeouts default_config endpoint (Py.lit "?") None
               OllamaHandler.untouched 2%nat body _ _ _) eq_refl).
  - reflexivity.
  - intros i Hi. destruct i as [|[|i]]; [reflexivity | reflexivity | lia].
  - reflexivity.
Defined.

(** X11.  Whatever the endpoint does, [generate_response] sends the same
    payload at most [max_retries] times, on top of the requests already
    sent, and records one call; a reply it returns is the body that
    answered the last request; with [max_retries] at 0 or below it sends
    nothing and returns [None]. *)
Theorem generate_response_is_bounded
    (config : Config.t) (endpoint : OllamaHandler.Endpoint)
    (prompt : Py.str) (temperature : option Q) (w : OllamaHandler.World) :
  let payload := OllamaHandler.build_payload config prompt temperature in
  let before := List.length (OllamaHandler.requests w) in
  let run :=
    OllamaHandler.generate_response config endpoint prompt temperature w in
  exists m,
    snd run = sent_after config prompt temperature m w /\
    (Z.of_nat m <= Z.max 0 (Config.MAX_RETRIES config))%Z /\
    (forall reply, fst run = Some reply ->
       exists m' body,
         m = S m' /\
         endpoint (before + m')%nat payload = OllamaHandler.Replied body /\
         reply = reply_of config body) /\
    ((Config.MAX_RETRIES config <= 0)%Z ->
     run = (None, sent_after config prompt temperature 0 w)).
Proof.
  intros payload before run. subst run.
  unfold OllamaHandler.generate_response. fold payload.
  destruct (OllamaHandler.attempt_loop config endpoint payload
              (OllamaHandler.range (OllamaHandler.max_retries config))
              (OllamaHandler.requests w)) as [r w'] eqn:E.
  pose proof E as E0.
  apply attempt_loop_outcome in E. destruct E as (m & -> & Hm & Hr).
  exists m. split; [reflexivity|].
  unfold OllamaHandler.range in Hm. rewrite length_map, length_seq in Hm.
  unfold OllamaHandler.max_retries in Hm.
  split; [lia|].
  split; [intros reply Hreply;
          destruct (Hr reply Hreply) as (m' & body & Em & Hb & Er & _);
          now exists m', body|].
  intros Hz. unfold OllamaHandler.range, OllamaHandler.max_retries in E0.
  replace (Z.to_nat (Config.MAX_RETRIES config)) with 0%nat in E0 by lia.
  simpl in E0. injection E0 as <- E0.
  assert (m = 0%nat) as -> by lia. reflexivity.
Qed.

(** With no retry allowed the client returns [None] without a request,
    even to an endpoint that would reply. *)
Lemma generate_response_is_bounded_witness :
  let config :=
    {| Config.OLLAMA_BASE_URL := Py.lit "http://localhost:11434";
       Config.OLLAMA_MODEL := Py.lit "llama3:8b";
       Config.OLLAMA_API_ENDPOINT :=
         Py.lit "http://localhost:11434/api/generate";
       Config.REQUEST_TIMEOUT := 120;
       Config.MAX_RETRIES := 0;
       Config.TEMPERATURE := 1 # 10;
       Config.MAX_TOKENS := 500 |} in
  OllamaHandler.generate_response config
    (fun _ _ =>
       OllamaHandler.Replied
         {| OllamaHandler.Body.response := Some (Json.Str labelled_reply);
            OllamaHandler.Body.model := None;
            OllamaHandler.Body.total_duration := None;
            OllamaHandler.Body.load_duration := None;
            OllamaHandler.Body.prompt_eval_count := None;
            OllamaHandler.Body.eval_count := None |})
    (Py.lit "?") None OllamaHandler.untouched
  = (None, {| OllamaHandler.calls := [Py.lit "?"];
              OllamaHandler.requests := [] |}).
Proof.
  intros config.
  match goal with
  | |- OllamaHandler.generate_response _ ?e _ _ _ = _ =>
      destruct (@generate_response_is_bounded config e (Py.lit "?") None
                  OllamaHandler.untouched) as (m & _ & _ & _ & Hz)
  end.
  apply Hz. vm_compute. discriminate.
Defined.

(** ** Results of the orchestrator *)

Section ClassifyFacts.
Import Py FakeNewsClassifier.
Variable db : UnicodeData.

(** [clean_text] reads its text through [split] only. *)
Lemma clean_text_words (text : str) :
  TextPreprocessor.clean_text db text =
  strip db
    (Re.sub_repeats
       (fun c => TextPreprocessor.mem c TextPreprocessor.collapsed_punctuation)
       None
       (List.filter (TextPreprocessor.kept db)
          (join (lit " ") (split db text)))).
Proof.
  unfold TextPreprocessor.clean_text.
  destruct (TextPreprocessor.falsy text) eqn:E; [|reflexivity].
  apply falsy_nil in E. now subst text.
Qed.

Lemma parse_failure_free (response : str) :
  exists parsed,
    _parse_model_response db (Json.Str response) = Returned (Some parsed).
Proof.
  rewrite parse_model_response_body.
  destruct (parse_body_some db response) as (n & _ & E).
  eexists. now rewrite E.
Qed.

(** The two fields of a parsed reply that [classify] hands on. *)
Lemma parsed_fields (response : str) (parsed : Parsed.t) :
  _parse_model_response db (Json.Str response) = Returned (Some parsed) ->
  (Parsed.classification parsed = lit "REAL" \/
   Parsed.classification parsed = lit "FAKE" \/
   Parsed.classification parsed = lit "UNKNOWN") /\
  (0 <= Parsed.confidence parsed <= 100)%Z.
Proof.
  rewrite parse_model_response_body.
  destruct (parse_body_some db response) as (n & _ & E).
  rewrite E. intros [= <-]. cbn [Parsed.classification Parsed.confidence].
  split; [|unfold clamp; lia].
  destruct (classification_match db (upper db response)) as [g|] eqn:Em;
    [|now right; right].
  apply classification_match_sound in Em. tauto.
Qed.
End ClassifyFacts.

(** X12.  Every record that [classify] returns is one of two kinds.  With
    [success] true it has no error, a classification among REAL, FAKE and
    UNKNOWN, a confidence from 0 to 100, a reasoning, the model in use and
    the features of the cleaned text, and the text had passed validation.
    With [success] false it has an error message, no classification, no
    reasoning, no features and confidence 0. *)
Theorem classify_result_invariant
    (db : Py.UnicodeData) (config : Config.t)
    (endpoint : OllamaHandler.Endpoint) (text : Py.str)
    (w : OllamaHandler.World) (r : FakeNewsClassifier.Result.t) :
  fst (FakeNewsClassifier.classify db config endpoint text w) = Returned r ->
  (0 <= FakeNewsClassifier.Result.confidence r <= 100)%Z /\
  (FakeNewsClassifier.Result.success r = true ->
   fst (validate db text) = true /\
   FakeNewsClassifier.Result.error r = None /\
   (FakeNewsClassifier.Result.classification r = Some (Py.lit "REAL") \/
    FakeNewsClassifier.Result.classification r = Some (Py.lit "FAKE") \/
    FakeNewsClassifier.Result.classification r = Some (Py.lit "UNKNOWN")) /\
   FakeNewsClassifier.Result.reasoning r <> None /\
   FakeNewsClassifier.Result.model_info r <> None /\
   FakeNewsClassifier.Result.features r
   = Some (TextPreprocessor.extract_features db
             (TextPreprocessor.clean_text db text))) /\
  (FakeNewsClassifier.Result.success r = false ->
   FakeNewsClassifier.Result.error r <> None /\
   FakeNewsClassifier.Result.classification r = None /\
   FakeNewsClassifier.Result.confidence r = 0%Z /\
   FakeNewsClassifier.Result.reasoning r = None /\
   FakeNewsClassifier.Result.features r = None /\
   FakeNewsClassifier.Result.model_info r = None).
Proof.
  intros Hr.
  destruct (validate db text) as [[|] m] eqn:Ev.
  - destruct (OllamaHandler.generate_response config endpoint
                (prompt_of db text) None w) as [[reply|] w'] eqn:Eg.
    + assert (Hv : fst (validate db text) = true) by now rewrite Ev.
      pose proof (@classify_reply db config endpoint text w w' reply Hv Eg)
        as Hc.
      destruct (OllamaHandler.Reply.response reply) as [response| | | | | |];
        try (rewrite Hc in Hr; discriminate Hr).
      destruct Hc as (parsed & E & Hc). rewrite Hc in Hr.
      injection Hr as <-. destruct (parsed_fields db _ E) as [Hcl Hb].
      cbn [fst FakeNewsClassifier.Result.success
           FakeNewsClassifier.Result.error
           FakeNewsClassifier.Result.classification
           FakeNewsClassifier.Result.confidence
           FakeNewsClassifier.Result.reasoning
           FakeNewsClassifier.Result.features
           FakeNewsClassifier.Result.model_info].
      split; [exact Hb|]. split; [|discriminate]. intros _.
      repeat split; try discriminate.
      destruct Hcl as [->|[->| ->]]; tauto.
    + rewrite (classify_valid db config endpoint text w Ev), Eg in Hr.
      injection Hr as <-.
      cbn. split; [lia|]. split; [discriminate|]. intros _.
      repeat split. discriminate.
  - rewrite (classify_invalid db config endpoint text w Ev) in Hr.
    injection Hr as <-.
    destruct (validate_message db text Ev) as (msg & -> & _).
    cbn. split; [lia|]. split; [discriminate|]. intros _.
    repeat split. discriminate.
Qed.

(** The reply of the scenario for a valid text: the record has [success]
    true, the classification REAL and the confidence 95. *)
Lemma classify_result_invariant_witness :
  let endpoint (_ : nat) (_ : OllamaHandler.Payload.t) :=
    OllamaHandler.Replied
      {| OllamaHandler.Body.response := Some (Json.Str labelled_reply);
         OllamaHandler.Body.model := None;
         OllamaHandler.Body.total_duration := None;
         OllamaHandler.Body.load_duration := None;
         OllamaHandler.Body.prompt_eval_count := None;
         OllamaHandler.Body.eval_count := None |} in
  let text := Py.lit "NASA successfully landed the Perseverance rover on Mars in 2021." in
  exists r,
    fst (FakeNewsClassifier.classify Py.ascii_only default_config endpoint
           text OllamaHandler.untouched) = Returned r /\
    FakeNewsClassifier.Result.success r = true /\
    FakeNewsClassifier.Result.classification r = Some (Py.lit "REAL") /\
    (0 <= FakeNewsClassifier.Result.confidence r <= 100)%Z.
Proof.
  intros endpoint text. eexists. split; [reflexivity|].
  split; [reflexivity|]. split; [reflexivity|].
  apply (@classify_result_invariant Py.ascii_only default_config endpoint
           text OllamaHandler.untouched).
  reflexivity.
Defined.

Section ClassifyRequests.
Import Py FakeNewsClassifier.
Variable db : UnicodeData.
Variable config : Config.t.
Variable endpoint : OllamaHandler.Endpoint.

(** What one call of the client leaves in the world, and where its reply
    comes from. *)
Lemma generate_response_sent (prompt : str) (temperature : option Q)
    (w w' : OllamaHandler.World) (r : option OllamaHandler.Reply.t) :
  OllamaHandler.generate_response config endpoint prompt temperature w
  = (r, w') ->
  exists m,
    w' = sent_after config prompt temperature m w /\
    (Z.of_nat m <= Z.max 0 (Config.MAX_RETRIES config))%Z /\
    forall reply, r = Some reply ->
      exists m' body,
        m = S m' /\
        endpoint (List.length (OllamaHandler.requests w) + m')%nat
          (OllamaHandler.build_payload config prompt temperature)
        = OllamaHandler.Replied body /\
        reply = reply_of config body /\
        Json.sliceable (OllamaHandler.Reply.response reply) = true.
Proof.
  unfold OllamaHandler.generate_response.
  destruct (OllamaHandler.attempt_loop config endpoint
              (OllamaHandler.build_payload config prompt temperature)
              (OllamaHandler.range (OllamaHandler.max_retries config))
              (OllamaHandler.requests w)) as [r0 sent] eqn:E.
  intros [= <- <-].
  apply attempt_loop_outcome in E. destruct E as (m & -> & Hm & Hr).
  exists m. split; [reflexivity|].
  unfold OllamaHandler.range in Hm. rewrite length_map, length_seq in Hm.
  unfold OllamaHandler.max_retries in Hm.
  split; [lia | exact Hr].
Qed.

(** A text that passed validation, said on its trimmed form. *)
Lemma validate_true (text : str) :
  fst (validate db text) = true ->
  List.existsb (is_letter db) (strip db text) = true /\
  (TextPreprocessor.default_min_length <= len (strip db text)
   <= TextPreprocessor.default_max_length)%Z.
Proof.
  unfold validate. intros E.
  destruct (validate_input_cases db text
              TextPreprocessor.default_min_length
              TextPreprocessor.default_max_length)
    as (Hblank & Hshort & Hlong & Hletters & Hok).
  destruct (strip db text) as [|c t] eqn:Es.
  - rewrite (Hblank eq_refl) in E. discriminate E.
  - destruct (Z.ltb_spec (len (c :: t)) TextPreprocessor.default_min_length).
    { rewrite Hshort in E by (try discriminate; lia). discriminate E. }
    destruct (Z.ltb_spec TextPreprocessor.default_max_length (len (c :: t))).
    { rewrite Hlong in E by (try discriminate; lia). discriminate E. }
    destruct (List.existsb (is_letter db) (c :: t)) eqn:El.
    + split; [reflexivity | lia].
    + rewrite Hletters in E by (try discriminate; try lia; reflexivity).
      discriminate E.
Qed.

(** [clean_text] keeps, in their order, the characters of any class whose
    members are neither whitespace, nor deleted, nor collapsed. *)
Lemma clean_text_filter (q : char -> bool) (text : str) :
  (forall c, q c = true ->
     isspace db c = false /\ TextPreprocessor.kept db c = true /\
     collapsed_mark c = false) ->
  List.filter q (TextPreprocessor.clean_text db text) = List.filter q text.
Proof.
  intros Hq.
  assert (Hs : forall c, q c = true -> isspace db c = false)
    by (intros c H; now apply Hq in H).
  rewrite clean_text_words, (@filter_strip db _ _ Hs), filter_sub_repeats.
  - rewrite filter_filter_implied by (intros c H; now apply Hq in H).
    now apply filter_join_split.
  - intros c Hc. destruct (q c) eqn:Ew; [|reflexivity].
    apply Hq in Ew. destruct Ew as (_ & _ & Ew).
    unfold collapsed_mark in Ew. congruence.
  - discriminate.
Qed.

(** An ASCII letter is a word character. *)
Lemma ascii_letter_word (c : char) :
  is_ascii c = true -> is_letter db c = true -> word_character db c = true.
Proof.
  unfold is_letter, word_character, re_word, isspace. intros ->.
  unfold ascii_upper_letter, ascii_lower_letter, ascii_digit, between.
  intros H. rewrite H. simpl.
  apply negb_true_iff. apply orb_false_iff.
  apply orb_prop in H.
  split; apply andb_false_iff;
    destruct H as [H|H]; apply andb_prop in H; destruct H as [H1 H2];
    apply N.leb_le in H1; apply N.leb_le in H2;
    (left; apply N.leb_gt; lia) || (right; apply N.leb_gt; lia).
Qed.
End ClassifyRequests.

(** X13.  Whatever the endpoint does, [classify] sends at most
    [max_retries] requests, each the same payload: the prompt built from
    the cleaned text, no streaming, the configured model, temperature and
    token limit.  A record with [success] true was read from the body that
    answered the last of these requests: its classification, confidence and
    reasoning are what the parser finds in that body's [response], and its
    model information is that body's, with the configured model and 0 for
    what the body leaves out. *)
Theorem classify_reads_the_last_reply
    (db : Py.UnicodeData) (config : Config.t)
    (endpoint : OllamaHandler.Endpoint) (text : Py.str)
    (w : OllamaHandler.World) :
  let answer := FakeNewsClassifier.classify db config endpoint text w in
  let payload :=
    {| OllamaHandler.Payload.model := Config.OLLAMA_MODEL config;
       OllamaHandler.Payload.prompt :=
         FakeNewsClassifier._create_classification_prompt
           (TextPreprocessor.clean_text db text);
       OllamaHandler.Payload.stream := false;
       OllamaHandler.Payload.temperature := Config.TEMPERATURE config;
       OllamaHandler.Payload.num_predict := Config.MAX_TOKENS config |} in
  exists m,
    OllamaHandler.requests (snd answer)
    = List.repeat payload m ++ OllamaHandler.requests w /\
    (Z.of_nat m <= Z.max 0 (Config.MAX_RETRIES config))%Z /\
    (forall record,
       fst answer = Returned record ->
       FakeNewsClassifier.Result.success record = true ->
       exists m' body parsed,
         m = S m' /\
         endpoint (List.length (OllamaHandler.requests w) + m')%nat payload
         = OllamaHandler.Replied body /\
         FakeNewsClassifier._parse_model_response db
           (OllamaHandler.get (OllamaHandler.Body.response body)
              (Json.Str []))
         = Returned (Some parsed) /\
         FakeNewsClassifier.Result.classification record
         = Some (FakeNewsClassifier.Parsed.classification parsed) /\
         FakeNewsClassifier.Result.confidence record
         = FakeNewsClassifier.Parsed.confidence parsed /\
         FakeNewsClassifier.Result.reasoning record
         = Some (Json.Str (FakeNewsClassifier.Parsed.reasoning parsed)) /\
         FakeNewsClassifier.Result.model_info record
         = Some {| FakeNewsClassifier.ModelInfo.model :=
                     OllamaHandler.get (OllamaHandler.Body.model body)
                       (Config.OLLAMA_MODEL config);
                   FakeNewsClassifier.ModelInfo.eval_count :=
                     OllamaHandler.get (OllamaHandler.Body.eval_count body)
                       0%Z |}).
Proof.
  intros answer payload. subst answer.
  destruct (validate db text) as [[|] msg] eqn:Ev.
  - rewrite (classify_valid db config endpoint text w Ev).
    destruct (OllamaHandler.generate_response config endpoint
                (prompt_of db text) None w) as [r w'] eqn:Eg.
    apply generate_response_sent in Eg.
    destruct Eg as (m & -> & Hm & Hr).
    exists m.
    destruct r as [reply|].
    + destruct (Hr reply eq_refl) as (m' & body & -> & Hb & -> & _).
      pose proof (parse_model_response_cases db
                    (OllamaHandler.Reply.response (reply_of config body)))
        as Hp.
      change (OllamaHandler.Reply.response (reply_of config body))
        with (OllamaHandler.get (OllamaHandler.Body.response body)
                (Json.Str [])) in *.
      destruct (OllamaHandler.get (OllamaHandler.Body.response body)
                  (Json.Str [])) as [response| | | | | |] eqn:Er;
        try (rewrite Hp; split; [reflexivity|]; split; [exact Hm|];
             intros record H; discriminate H).
      destruct Hp as (parsed & E & _). rewrite E.
      split; [reflexivity|]. split; [exact Hm|].
      intros record [= <-] _.
      exists m', body, parsed. rewrite Er. repeat split; assumption.
    + split; [reflexivity|]. split; [exact Hm|].
      intros record [= <-]. discriminate.
  - rewrite (classify_invalid db config endpoint text w Ev).
    exists 0%nat. split; [reflexivity|]. split; [lia|].
    intros record [= <-]. discriminate.
Qed.

(** X14.  Whitespace before and after the text changes nothing of what
    [classify] does: the same record, the same requests. *)
Theorem classify_ignores_padding
    (db : Py.UnicodeData) (config : Config.t)
    (endpoint : OllamaHandler.Endpoint) (l core r : Py.str)
    (w : OllamaHandler.World) :
  List.forallb (Py.isspace db) l = true ->
  List.forallb (Py.isspace db) r = true ->
  FakeNewsClassifier.classify db config endpoint (l ++ core ++ r) w
  = FakeNewsClassifier.classify db config endpoint core w.
Proof.
  intros Hl Hr. unfold FakeNewsClassifier.classify.
  rewrite (@validate_input_strip db (l ++ core ++ r) core _ _
             (@strip_padding db l core r Hl Hr)).
  rewrite !clean_text_words, (@split_padding db l core r Hl Hr).
  reflexivity.
Qed.

(** An article pasted with a leading tab and a trailing line break, the
    service timing out. *)
Lemma classify_ignores_padding_witness :
  let endpoint (_ : nat) (_ : OllamaHandler.Payload.t) :=
    OllamaHandler.Timeout in
  FakeNewsClassifier.classify Py.ascii_only default_config endpoint
    ([9%N] ++ Py.lit "Breaking news today" ++ [10%N])
    OllamaHandler.untouched
  = FakeNewsClassifier.classify Py.ascii_only default_config endpoint
      (Py.lit "Breaking news today") OllamaHandler.untouched.
Proof.
  intros endpoint.
  apply (@classify_ignores_padding Py.ascii_only default_config endpoint
           [9%N] (Py.lit "Breaking news today") [10%N]
           OllamaHandler.untouched); reflexivity.
Defined.

(** X15.  When no letter above ASCII is whitespace and each is a word
    character of the cleaning pattern, a text that passes validation is
    never cleaned away: [clean_text] keeps all its letters in their order,
    so the article of the prompt holds a letter and at least one word. *)
Theorem valid_text_keeps_its_letters
    (db : Py.UnicodeData) (text : Py.str) :
  (forall c, Py.u_letter db c = true ->
     Py.u_word db c = true /\ Py.u_isspace db c = false) ->
  let cleaned := TextPreprocessor.clean_text db text in
  List.filter (Py.is_letter db) cleaned = List.filter (Py.is_letter db) text /\
  (fst (validate db text) = true ->
   List.existsb (Py.is_letter db) cleaned = true /\
   (1 <= TextPreprocessor.Features.word_count
           (TextPreprocessor.extract_features db cleaned))%Z).
Proof.
  intros Hdb cleaned. subst cleaned.
  assert (Hw : forall c, Py.is_letter db c = true ->
                         word_character db c = true).
  { intros c Hc. destruct (Py.is_ascii c) eqn:Ea.
    - now apply ascii_letter_word.
    - unfold Py.is_letter in Hc. rewrite Ea in Hc.
      apply Hdb in Hc. destruct Hc as [H1 H2].
      unfold word_character, Py.re_word, Py.isspace. rewrite Ea, H1, H2.
      reflexivity. }
  assert (E : List.filter (Py.is_letter db)
                (TextPreprocessor.clean_text db text)
              = List.filter (Py.is_letter db) text).
  { apply clean_text_filter. intros c Hc.
    apply word_character_facts. now apply Hw. }
  split; [exact E|]. intros Hv.
  apply validate_true in Hv. destruct Hv as [Hl _].
  assert (Hex : List.existsb (Py.is_letter db)
                  (TextPreprocessor.clean_text db text) = true).
  { apply existsb_exists in Hl. destruct Hl as (c & Hin & Hc).
    assert (Hin' : List.In c text).
    { unfold Py.strip in Hin.
      destruct (rstrip_prefix db (Py.lstrip db text)) as [b [Eb _]].
      destruct (lstrip_suffix db text) as [a [Ea _]].
      rewrite Ea, Eb. apply in_or_app. right. apply in_or_app. now left. }
    assert (Hf : List.In c (List.filter (Py.is_letter db) text))
      by (apply filter_In; now split).
    rewrite <- E in Hf. apply filter_In in Hf.
    apply existsb_exists. now exists c. }
  split; [exact Hex|].
  destruct (Z.ltb_spec
              (TextPreprocessor.Features.word_count
                 (TextPreprocessor.extract_features db
                    (TextPreprocessor.clean_text db text))) 1) as [Hlt|];
    [|assumption].
  exfalso.
  assert (Hz : TextPreprocessor.Features.word_count
                 (TextPreprocessor.extract_features db
                    (TextPreprocessor.clean_text db text)) = 0%Z).
  { unfold TextPreprocessor.extract_features in *.
    cbn [TextPreprocessor.Features.word_count] in *. unfold Py.len in *. lia. }
  unfold TextPreprocessor.extract_features in Hz.
  cbn [TextPreprocessor.Features.word_count] in Hz. unfold Py.len in Hz.
  assert (Hsplit : Py.split db (TextPreprocessor.clean_text db text) = [])
    by (destruct (Py.split db _); [reflexivity | simpl in Hz; lia]).
  apply split_nil_spaces in Hsplit.
  apply existsb_exists in Hex. destruct Hex as (c & Hin & Hc).
  rewrite forallb_forall in Hsplit. specialize (Hsplit c Hin).
  apply Hw in Hc. apply word_character_facts in Hc. destruct Hc as [Hc _].
  congruence.
Qed.

(** A headline in ASCII: the table with nothing above ASCII has no letter
    there, and the cleaned headline keeps a letter and counts words. *)
Lemma valid_text_keeps_its_letters_witness :
  List.existsb (Py.is_letter Py.ascii_only)
    (TextPreprocessor.clean_text Py.ascii_only
       (Py.lit "@bbc: 5 dead in storm!!")) = true.
Proof.
  apply (@valid_text_keeps_its_letters Py.ascii_only
           (Py.lit "@bbc: 5 dead in storm!!")).
  - intros c H. discriminate H.
  - reflexivity.
Defined.

(** ** The page *)

Section AppFacts.
Import Py FakeNewsClassifier.
Variable db : UnicodeData.
Variable config : Config.t.
Variable endpoint : OllamaHandler.Endpoint.
Variable str_of_value : Json.t -> str.

(** A run that asks for an analysis. *)
Lemma main_pressed (state : App.Stored.t) (news_text : str)
    (w : OllamaHandler.World) :
  TextPreprocessor.falsy (strip db news_text) = false ->
  App.main db config endpoint str_of_value state news_text true w =
  let answer := classify db config endpoint news_text w in
  (frame
     ++ App.Empty
     :: match fst answer with
        | Returned result =>
            App.render_result_card str_of_value (Some result)
        | Raised e =>
            App.Error (analysis_error e)
            :: results str_of_value (settled state)
        end,
   match fst answer with
   | Returned result =>
       {| App.SessionState.classifier := Some App.FakeNewsClassifier_object;
          App.SessionState.latest_result := Some result;
          App.SessionState.is_loading := false |}
   | Raised e => settled state
   end,
   snd answer).
Proof.
  intros Hb. unfold App.main, settled, results. rewrite Hb.
  destruct (classify db config endpoint news_text w) as [[result|e] w'];
    cbv zeta;
    destruct (App.initialize_session_state state) as [[[]|] latest loading];
    reflexivity.
Qed.

(** A run that asks for none: the button not pressed, or a blank text. *)
Lemma main_idle (state : App.Stored.t) (news_text : str)
    (analyze_button : bool) (w : OllamaHandler.World) :
  analyze_button && negb (TextPreprocessor.falsy (strip db news_text))
  = false ->
  App.main db config endpoint str_of_value state news_text analyze_button w =
  (frame
     ++ (if analyze_button
         then [App.Warning (lit "Please enter text to analyze.")] else [])
     ++ results str_of_value (ready state),
   ready state, w).
Proof.
  intros Hb. unfold App.main, ready, results.
  destruct analyze_button.
  - simpl in Hb. apply negb_false_iff in Hb. rewrite Hb.
    destruct (App.initialize_session_state state) as [[[]|] latest loading];
      reflexivity.
  - destruct (App.initialize_session_state state) as [[[]|] latest loading];
      reflexivity.
Qed.
End AppFacts.

Section PageFacts.
Import Py FakeNewsClassifier.
Variable db : UnicodeData.
Variable config : Config.t.
Variable endpoint : OllamaHandler.Endpoint.
Variable str_of_value : Json.t -> str.

(** A text that passes validation is not blank. *)
Lemma valid_not_blank (text : str) :
  fst (validate db text) = true ->
  TextPreprocessor.falsy (strip db text) = false.
Proof.
  intros H. apply validate_true in H. destruct H as [_ [H _]].
  destruct (strip db text); [|reflexivity].
  unfold TextPreprocessor.default_min_length, len in H. simpl in H. lia.
Qed.

(** The client when a body answers after [k] timeouts. *)
Lemma generate_response_after_timeouts (prompt : str)
    (temperature : option Q) (w : OllamaHandler.World) (k : nat)
    (body : OllamaHandler.Body.t) :
  (Z.of_nat k < Config.MAX_RETRIES config)%Z ->
  (forall i, (i < k)%nat ->
     endpoint (List.length (OllamaHandler.requests w) + i)%nat
       (OllamaHandler.build_payload config prompt temperature)
     = OllamaHandler.Timeout) ->
  endpoint (List.length (OllamaHandler.requests w) + k)%nat
    (OllamaHandler.build_payload config prompt temperature)
  = OllamaHandler.Replied body ->
  Json.sliceable
    (OllamaHandler.get (OllamaHandler.Body.response body) (Json.Str []))
  = true ->
  OllamaHandler.generate_response config endpoint prompt temperature w
  = (Some (reply_of config body),
     sent_after config prompt temperature (S k) w).
Proof.
  intros Hk Ht Hb Hs.
  unfold OllamaHandler.generate_response, OllamaHandler.range.
  rewrite (@range_split (Z.to_nat (OllamaHandler.max_retries config)) k)
    by (unfold OllamaHandler.max_retries; lia).
  rewrite attempt_loop_timeouts; [|exact Ht|].
  - simpl. unfold OllamaHandler.post.
    rewrite length_app, repeat_length, (Nat.add_comm k).
    rewrite Hb, Hs. reflexivity.
  - intros i Hi. unfold OllamaHandler.max_retries. simpl. lia.
Qed.

(** The requests of one call of [classify]. *)
Lemma classify_requests (text : str) (w : OllamaHandler.World) :
  exists m,
    snd (classify db config endpoint text w)
    = (if fst (validate db text)
       then sent_after config (prompt_of db text) None m w else w) /\
    (m <= Z.to_nat (Config.MAX_RETRIES config))%nat.
Proof.
  destruct (validate db text) as [[|] msg] eqn:Ev.
  - rewrite (classify_valid db config endpoint text w Ev).
    destruct (OllamaHandler.generate_response config endpoint
                (prompt_of db text) None w) as [r w'] eqn:Eg.
    apply generate_response_sent in Eg. destruct Eg as (m & -> & Hm & _).
    exists m. split; [|lia].
    destruct r as [reply|]; [|reflexivity].
    destruct (_parse_model_response db (OllamaHandler.Reply.response reply))
      as [[parsed|]|e]; reflexivity.
  - rewrite (classify_invalid db config endpoint text w Ev).
    exists 0%nat. split; [reflexivity | lia].
Qed.

(** No block of the result card is the loader. *)
Lemma card_not_loader (result : option Result.t) :
  ~ List.In (App.Markdown App.loader)
      (App.render_result_card str_of_value result).
Proof.
  assert (H1 : forall a b c,
             App.Markdown (App.result_block a b c)
             <> App.Markdown App.loader).
  { intros a b c H. discriminate H. }
  assert (H2 : forall a,
             App.Markdown (App.explanation_block a)
             <> App.Markdown App.loader).
  { intros a H. discriminate H. }
  assert (H3 : App.Markdown (lit "</div>") <> App.Markdown App.loader)
    by (intros H; discriminate H).
  unfold App.render_result_card.
  destruct result as [result|]; [|intros []].
  destruct (negb (Result.success result)); [intros []|].
  cbv zeta. intros H. apply in_app_or in H. destruct H as [[H|[]]|H].
  - now apply H1 in H.
  - apply in_app_or in H. destruct H as [H|[H|[]]]; [|now apply H3 in H].
    destruct (Result.reasoning result) as [reasoning|]; [|destruct H].
    destruct (Json.truthy reasoning); [|destruct H].
    destruct H as [H|[]]. now apply H2 in H.
Qed.

Lemma frame_not_loader : ~ List.In (App.Markdown App.loader) frame.
Proof.
  unfold frame, App.render_hero, App.left_col. simpl.
  intros H. repeat (destruct H as [H|H]; [discriminate H|]). exact H.
Qed.

(** The results column of a state that is not loading holds no loader. *)
Lemma results_not_loader (s : App.SessionState.t) :
  App.SessionState.is_loading s = false ->
  ~ List.In (App.Markdown App.loader) (results str_of_value s).
Proof.
  intros Hl H. unfold results in H. rewrite Hl in H.
  destruct (App.SessionState.latest_result s).
  - now apply card_not_loader in H.
  - destruct H as [H|[]]. discriminate H.
Qed.

(** One run of the page from a state that is not loading. *)
Lemma main_not_loading (state : App.Stored.t) (news_text : str)
    (analyze_button : bool) (w : OllamaHandler.World) :
  App.Stored.is_loading state <> Some true ->
  let run :=
    App.main db config endpoint str_of_value state news_text
      analyze_button w in
  ~ List.In (App.Markdown App.loader) (fst (fst run)) /\
  App.SessionState.is_loading (snd (fst run)) = false.
Proof.
  intros Hs run. subst run.
  destruct (analyze_button
            && negb (TextPreprocessor.falsy (strip db news_text))) eqn:Hb.
  - apply andb_prop in Hb. destruct Hb as [-> Hb].
    apply negb_true_iff in Hb.
    rewrite (@main_pressed db config endpoint str_of_value state news_text
               w Hb).
    cbv zeta. cbn [fst snd].
    destruct (fst (classify db config endpoint news_text w)) as [result|e].
    + split; [|reflexivity]. intros H.
      apply in_app_or in H. destruct H as [H|H];
        [now apply frame_not_loader|].
      destruct H as [H|H]; [discriminate H|].
      exact (@card_not_loader _ H).
    + split; [|reflexivity]. intros H.
      apply in_app_or in H. destruct H as [H|H];
        [now apply frame_not_loader|].
      destruct H as [H|[H|H]]; [discriminate H | discriminate H|].
      revert H. now apply results_not_loader.
  - rewrite (@main_idle db config endpoint str_of_value state news_text
               analyze_button w Hb).
    cbn [fst snd].
    assert (Hl : App.SessionState.is_loading (ready state) = false).
    { unfold ready, App.initialize_session_state. simpl.
      destruct (App.Stored.is_loading state) as [[|]|]; congruence. }
    split; [|exact Hl]. intros H.
    apply in_app_or in H. destruct H as [H|H]; [now apply frame_not_loader|].
    apply in_app_or in H. destruct H as [H|H].
    + destruct analyze_button; [|destruct H].
      destruct H as [H|[]]. discriminate H.
    + revert H. now apply results_not_loader.
Qed.
End PageFacts.

(** X16.  When the analysis of a text that is not blank returns a failed
    record, by its validation or by the service, the page shows nothing
    under the header of the results but the emptied placeholder: no error
    message, no card.  The failed record is kept as the latest result, so
    the results stay empty on every later run on which the button is not
    pressed. *)
Theorem failed_analysis_shows_no_message
    (db : Py.UnicodeData) (config : Config.t)
    (endpoint : OllamaHandler.Endpoint) (str_of_value : Json.t -> Py.str)
    (state : App.Stored.t) (news_text : Py.str) (w : OllamaHandler.World)
    (record : FakeNewsClassifier.Result.t) :
  let answer := FakeNewsClassifier.classify db config endpoint news_text w in
  let run :=
    App.main db config endpoint str_of_value state news_text true w in
  Py.strip db news_text <> [] ->
  fst answer = Returned record ->
  FakeNewsClassifier.Result.success record = false ->
  fst (fst run) = frame ++ [App.Empty] /\
  App.SessionState.latest_result (snd (fst run)) = Some record /\
  snd run = snd answer /\
  forall (later_text : Py.str) (later : OllamaHandler.World),
    App.main db config endpoint str_of_value
      (App.kept_for_next_run (snd (fst run))) later_text false later
    = (frame, snd (fst run), later).
Proof.
  intros answer run Hb Hr Hf. subst run.
  assert (Hb' : TextPreprocessor.falsy (Py.strip db news_text) = false)
    by (destruct (Py.strip db news_text); [congruence | reflexivity]).
  rewrite (@main_pressed db config endpoint str_of_value state news_text w
             Hb').
  cbv zeta. fold answer. rewrite Hr.
  cbn [fst snd App.SessionState.latest_result].
  assert (Hcard : App.render_result_card str_of_value (Some record) = [])
    by (unfold App.render_result_card; now rewrite Hf).
  rewrite Hcard. repeat split.
  intros later_text later. rewrite main_idle by reflexivity.
  unfold ready, results, App.initialize_session_state, App.kept_for_next_run.
  cbn [App.Stored.classifier App.Stored.latest_result App.Stored.is_loading
       App.SessionState.classifier App.SessionState.latest_result
       App.SessionState.is_loading].
  rewrite Hcard, !app_nil_r. reflexivity.
Qed.

(** A two-letter text: validation fails and the page says nothing. *)
Lemma failed_analysis_shows_no_message_witness :
  let endpoint (_ : nat) (_ : OllamaHandler.Payload.t) :=
    OllamaHandler.Timeout in
  fst (fst (App.main Py.ascii_only default_config endpoint (fun _ => [])
              App.fresh (Py.lit "Hi") true OllamaHandler.untouched))
  = frame ++ [App.Empty].
Proof.
  intros endpoint.
  refine (proj1 (@failed_analysis_shows_no_message Py.ascii_only
                   default_config endpoint (fun _ => []) App.fresh
                   (Py.lit "Hi") OllamaHandler.untouched _ _ eq_refl _)).
  - discriminate.
  - reflexivity.
Defined.

(** X17.  When the service answers a valid text, after any timeouts that
    the retries allow, with a reply that holds no CLASSIFICATION label
    followed by REAL or FAKE, the page shows the card of the parsed reply
    with the label Fake News in the class result-fake: the confidence on
    the card is the one the parser returned for that reply, and the
    explanation is its reasoning. *)
Theorem unlabelled_reply_is_shown_as_fake
    (db : Py.UnicodeData) (config : Config.t)
    (endpoint : OllamaHandler.Endpoint) (str_of_value : Json.t -> Py.str)
    (state : App.Stored.t) (news_text : Py.str) (w : OllamaHandler.World)
    (k : nat) (body : OllamaHandler.Body.t) (reply : Py.str) :
  let payload :=
    OllamaHandler.build_payload config (prompt_of db news_text) None in
  let before := List.length (OllamaHandler.requests w) in
  fst (validate db news_text) = true ->
  (Z.of_nat k < Config.MAX_RETRIES config)%Z ->
  (forall i, (i < k)%nat ->
     endpoint (before + i)%nat payload = OllamaHandler.Timeout) ->
  endpoint (before + k)%nat payload = OllamaHandler.Replied body ->
  OllamaHandler.get (OllamaHandler.Body.response body) (Json.Str [])
  = Json.Str reply ->
  ~ follows_label db (Py.lit "CLASSIFICATION")
      (fun g => g = Py.lit "REAL" \/ g = Py.lit "FAKE")
      (Py.upper db reply) ->
  exists parsed,
    FakeNewsClassifier._parse_model_response db (Json.Str reply)
    = Returned (Some parsed) /\
    FakeNewsClassifier.Parsed.classification parsed = Py.lit "UNKNOWN" /\
    fst (fst (App.main db config endpoint str_of_value state news_text true
                w))
    = frame
        ++ [App.Empty;
            App.Markdown
              (App.result_block (Py.lit "result-fake") App.fake_news
                 (FakeNewsClassifier.Parsed.confidence parsed))]
        ++ (if TextPreprocessor.falsy
                 (FakeNewsClassifier.Parsed.reasoning parsed)
            then []
            else [App.Markdown
                    (App.explanation_block
                       (FakeNewsClassifier.Parsed.reasoning parsed))])
        ++ [App.Markdown (Py.lit "</div>")].
Proof.
  intros payload before Hv Hk Ht Hb Hreply Hn.
  rewrite (@main_pressed db config endpoint str_of_value state news_text w
             (@valid_not_blank db news_text Hv)).
  cbv zeta. cbn [fst].
  assert (Hs : Json.sliceable
                 (OllamaHandler.get (OllamaHandler.Body.response body)
                    (Json.Str [])) = true) by now rewrite Hreply.
  pose proof (@generate_response_after_timeouts config endpoint
                (prompt_of db news_text) None w k body Hk Ht Hb Hs) as Hg.
  pose proof (@classify_reply db config endpoint news_text w _ _ Hv Hg)
    as Hc.
  change (OllamaHandler.Reply.response (reply_of config body))
    with (OllamaHandler.get (OllamaHandler.Body.response body)
            (Json.Str [])) in Hc.
  rewrite Hreply in Hc. destruct Hc as (parsed & E & Hc).
  exists parsed. split; [exact E|].
  assert (Hu : FakeNewsClassifier.Parsed.classification parsed
               = Py.lit "UNKNOWN").
  { rewrite parse_model_response_body in E.
    destruct (parse_body_some db reply) as (n & _ & Ep).
    rewrite Ep in E. injection E as <-.
    cbn [FakeNewsClassifier.Parsed.classification].
    destruct (FakeNewsClassifier.classification_match db (Py.upper db reply))
      as [g|] eqn:Em; [|reflexivity].
    exfalso. apply Hn.
    destruct (classification_match_sound _ _ Em) as [Hg' Hl].
    destruct Hl as (pre & ws1 & sep & ws2 & g' & post & -> & F1 & Hsep & F2
                    & <-).
    now exists pre, ws1, sep, ws2, g, post. }
  split; [exact Hu|].
  rewrite Hc. cbn [fst]. unfold App.render_result_card.
  cbn [FakeNewsClassifier.Result.success
       FakeNewsClassifier.Result.classification
       FakeNewsClassifier.Result.confidence
       FakeNewsClassifier.Result.reasoning negb].
  cbv zeta. rewrite Hu.
  replace (App.str_eqb (Py.lit "UNKNOWN") (Py.lit "REAL")) with false
    by reflexivity.
  cbv iota.
  destruct (FakeNewsClassifier.Parsed.reasoning parsed); reflexivity.
Qed.

(** The service times out once and then answers with a sentence and no
    label: the card reads Fake News with the default confidence 50 and the
    sentence as the explanation. *)
Lemma unlabelled_reply_is_shown_as_fake_witness :
  let body :=
    {| OllamaHandler.Body.response :=
         Some (Json.Str (Py.lit "I cannot tell."));
       OllamaHandler.Body.model := None;
       OllamaHandler.Body.total_duration := None;
       OllamaHandler.Body.load_duration := None;
       OllamaHandler.Body.prompt_eval_count := None;
       OllamaHandler.Body.eval_count := None |} in
  let endpoint (n : nat) (_ : OllamaHandler.Payload.t) :=
    match n with
    | O => OllamaHandler.Timeout
    | S _ => OllamaHandler.Replied body
    end in
  fst (fst (App.main Py.ascii_only default_config endpoint (fun _ => [])
              App.fresh (Py.lit "Breaking news today") true
              OllamaHandler.untouched))
  = frame
      ++ [App.Empty;
          App.Markdown
            (App.result_block (Py.lit "result-fake") App.fake_news 50);
          App.Markdown (App.explanation_block (Py.lit "I cannot tell."));
          App.Markdown (Py.lit "</div>")].
Proof.
  intros body endpoint.
  destruct (@unlabelled_reply_is_shown_as_fake Py.ascii_only default_config
              endpoint (fun _ => []) App.fresh
              (Py.lit "Breaking news today") OllamaHandler.untouched
              1%nat body (Py.lit "I cannot tell."))
    as (parsed & E & _ & Hpage).
  - reflexivity.
  - reflexivity.
  - intros i Hi. assert (i = 0%nat) as -> by lia. reflexivity.
  - reflexivity.
  - reflexivity.
  - intros H. apply classification_match_complete in H. apply H.
    reflexivity.
  - vm_compute in E. injection E as <-. exact Hpage.
Defined.

(** X18.  In a session that starts with [is_loading] missing or false, no
    page ever shows the loader in the results column, whatever is typed
    and pressed and whatever the service does, and [is_loading] is never
    left true. *)
Theorem loader_is_never_shown
    (db : Py.UnicodeData) (config : Config.t)
    (endpoint : OllamaHandler.Endpoint) (str_of_value : Json.t -> Py.str)
    (state : App.Stored.t) (inputs : list (Py.str * bool))
    (w : OllamaHandler.World) :
  App.Stored.is_loading state <> Some true ->
  let run := session db config endpoint str_of_value state inputs w in
  List.Forall (fun page => ~ List.In (App.Markdown App.loader) page)
    (fst (fst run)) /\
  App.Stored.is_loading (snd (fst run)) <> Some true /\
  List.length (fst (fst run)) = List.length inputs.
Proof.
  revert state w. induction inputs as [|[news_text analyze_button] rest IH];
    intros state w Hs; cbv zeta.
  - simpl. repeat split; [constructor | exact Hs].
  - simpl.
    pose proof (@main_not_loading db config endpoint str_of_value state
                  news_text analyze_button w Hs) as Hm. cbv zeta in Hm.
    destruct (App.main db config endpoint str_of_value state news_text
                analyze_button w) as [[page s] w1].
    cbn [fst snd] in Hm. destruct Hm as [Hp Hl].
    assert (Hnext : App.Stored.is_loading (App.kept_for_next_run s)
                    <> Some true)
      by (unfold App.kept_for_next_run; simpl; congruence).
    specialize (IH (App.kept_for_next_run s) w1 Hnext). cbv zeta in IH.
    destruct (session db config endpoint str_of_value
                (App.kept_for_next_run s) rest w1)
      as [[pages state'] w2].
    cbn [fst snd] in *. destruct IH as (IH1 & IH2 & IH3).
    repeat split; [now constructor | exact IH2 | simpl; now rewrite IH3].
Qed.

(** A new session: a blank text, then a short one, the service down. *)
Lemma loader_is_never_shown_witness :
  let endpoint (_ : nat) (_ : OllamaHandler.Payload.t) :=
    OllamaHandler.ConnectionError in
  List.Forall (fun page => ~ List.In (App.Markdown App.loader) page)
    (fst (fst (session Py.ascii_only default_config endpoint (fun _ => [])
                 App.fresh
                 [(Py.lit "  ", true); (Py.lit "Breaking news today", true)]
                 OllamaHandler.untouched))).
Proof.
  intros endpoint.
  apply (@loader_is_never_shown Py.ascii_only default_config endpoint
           (fun _ => []) App.fresh
           [(Py.lit "  ", true); (Py.lit "Breaking news today", true)]
           OllamaHandler.untouched).
  discriminate.
Defined.

(** X19.  Over a whole session of the page, requests go out only on runs
    that press the button on a text that is not blank: the session adds at
    most [max_retries] requests for each such run to those sent before,
    each one without streaming, for the configured model, and carrying the
    prompt of a text that was typed; a session without such a run leaves
    the world as it was. *)
Theorem session_requests_are_bounded
    (db : Py.UnicodeData) (config : Config.t)
    (endpoint : OllamaHandler.Endpoint) (str_of_value : Json.t -> Py.str)
    (state : App.Stored.t) (inputs : list (Py.str * bool))
    (w : OllamaHandler.World) :
  let after :=
    snd (session db config endpoint str_of_value state inputs w) in
  (exists sent,
     OllamaHandler.requests after = sent ++ OllamaHandler.requests w /\
     (List.length sent
      <= analyses db inputs * Z.to_nat (Config.MAX_RETRIES config))%nat /\
     List.Forall
       (fun request =>
          OllamaHandler.Payload.stream request = false /\
          OllamaHandler.Payload.model request = Config.OLLAMA_MODEL config /\
          exists text,
            List.In (text, true) inputs /\
            OllamaHandler.Payload.prompt request = prompt_of db text)
       sent) /\
  (analyses db inputs = 0%nat -> after = w).
Proof.
  revert state w. induction inputs as [|[news_text analyze_button] rest IH];
    intros state w; cbv zeta.
  - split; [|reflexivity]. exists []. repeat split; [simpl; lia | constructor].
  - assert (Hweak :
              forall sent : list OllamaHandler.Payload.t,
                List.Forall
                  (fun request =>
                     OllamaHandler.Payload.stream request = false /\
                     OllamaHandler.Payload.model request
                     = Config.OLLAMA_MODEL config /\
                     exists text,
                       List.In (text, true) rest /\
                       OllamaHandler.Payload.prompt request
                       = prompt_of db text) sent ->
                List.Forall
                  (fun request =>
                     OllamaHandler.Payload.stream request = false /\
                     OllamaHandler.Payload.model request
                     = Config.OLLAMA_MODEL config /\
                     exists text,
                       List.In (text, true)
                         ((news_text, analyze_button) :: rest) /\
                       OllamaHandler.Payload.prompt request
                       = prompt_of db text) sent).
    { intros sent H. eapply Forall_impl; [|exact H].
      intros request (H1 & H2 & text & H3 & H4).
      repeat split; try assumption. exists text. split; [now right | exact H4]. }
    unfold analyses. cbn [List.filter fst snd session].
    fold (analyses db rest).
    destruct (analyze_button
              && negb (TextPreprocessor.falsy (Py.strip db news_text)))
      eqn:Hb.
    + apply andb_prop in Hb. destruct Hb as [-> Hb].
      apply negb_true_iff in Hb.
      rewrite (@main_pressed db config endpoint str_of_value state
                 news_text w Hb).
      cbv zeta.
      destruct (classify_requests db config endpoint news_text w)
        as (m & Hw & Hm).
      match goal with
      | |- context [session db config endpoint str_of_value ?s0 rest ?w0] =>
          specialize (IH s0 w0)
      end.
      cbv zeta in IH.
      destruct (session db config endpoint str_of_value _ rest _)
        as [[pages state'] w2].
      cbn [fst snd] in *.
      destruct IH as [(sent & Hsent & Hlen & Hall) _].
      split; [|simpl; discriminate].
      rewrite Hw in Hsent.
      destruct (fst (validate db news_text)).
      * exists (sent
                ++ List.repeat
                     (OllamaHandler.build_payload config
                        (prompt_of db news_text) None) m).
        split; [rewrite Hsent; unfold sent_after; simpl;
                now rewrite app_assoc|].
        split; [rewrite length_app, repeat_length; unfold analyses in Hlen;
                simpl; lia|].
        apply Forall_app. split; [now apply Hweak|].
        apply Forall_forall. intros request Hin.
        apply repeat_spec in Hin. subst request.
        repeat split. exists news_text. split; [now left | reflexivity].
      * exists sent. split; [exact Hsent|].
        split; [unfold analyses in Hlen; simpl; lia | now apply Hweak].
    + rewrite (@main_idle db config endpoint str_of_value state news_text
                 analyze_button w Hb).
      specialize (IH (App.kept_for_next_run (ready state)) w).
      cbv zeta in IH.
      destruct (session db config endpoint str_of_value _ rest _)
        as [[pages state'] w2].
      cbn [fst snd] in *.
      destruct IH as [(sent & Hsent & Hlen & Hall) Hzero].
      split; [|exact Hzero].
      exists sent. split; [exact Hsent|]. split; [exact Hlen|].
      now apply Hweak.
Qed.

(** X20.  When the service answers a valid text, after any timeouts that
    the retries allow, with a reply whose [response] is a list, the page
    shows no card: [classify] raises, the page shows the message of
    [st.error] with the text of the exception, the latest result stays
    the one of the run before and is drawn again, and [is_loading] is
    reset. *)
Theorem list_reply_is_shown_as_an_error
    (db : Py.UnicodeData) (config : Config.t)
    (endpoint : OllamaHandler.Endpoint) (str_of_value : Json.t -> Py.str)
    (state : App.Stored.t) (news_text : Py.str) (w : OllamaHandler.World)
    (k : nat) (body : OllamaHandler.Body.t) (items : list Json.t) :
  let payload :=
    OllamaHandler.build_payload config (prompt_of db news_text) None in
  let before := List.length (OllamaHandler.requests w) in
  let run :=
    App.main db config endpoint str_of_value state news_text true w in
  fst (validate db news_text) = true ->
  (Z.of_nat k < Config.MAX_RETRIES config)%Z ->
  (forall i, (i < k)%nat ->
     endpoint (before + i)%nat payload = OllamaHandler.Timeout) ->
  endpoint (before + k)%nat payload = OllamaHandler.Replied body ->
  OllamaHandler.Body.response body = Some (Json.Array items) ->
  fst (fst run)
  = frame
      ++ [App.Empty;
          App.Error
            ([10060%N]
               ++ Py.lit " **Analysis Error:** 'list' object has no attribute 'strip'")]
      ++ results str_of_value (settled state) /\
  snd (fst run) = settled state /\
  snd run = sent_after config (prompt_of db news_text) None (S k) w.
Proof.
  intros payload before run Hv Hk Ht Hb Hitems. subst run.
  rewrite (@main_pressed db config endpoint str_of_value state news_text w
             (@valid_not_blank db news_text Hv)).
  cbv zeta.
  assert (Hs : Json.sliceable
                 (OllamaHandler.get (OllamaHandler.Body.response body)
                    (Json.Str [])) = true) by now rewrite Hitems.
  pose proof (@generate_response_after_timeouts config endpoint
                (prompt_of db news_text) None w k body Hk Ht Hb Hs) as Hg.
  pose proof (@classify_reply db config endpoint news_text w _ _ Hv Hg)
    as Hc.
  change (OllamaHandler.Reply.response (reply_of config body))
    with (OllamaHandler.get (OllamaHandler.Body.response body)
            (Json.Str [])) in Hc.
  rewrite Hitems in Hc. simpl OllamaHandler.get in Hc. cbv iota in Hc.
  rewrite Hc. repeat split.
Qed.

(** The service answers with a list at once, in a new session: the page
    shows the error and, below it, the text shown before any analysis. *)
Lemma list_reply_is_shown_as_an_error_witness :
  let body :=
    {| OllamaHandler.Body.response :=
         Some (Json.Array [Json.Str (Py.lit "REAL")]);
       OllamaHandler.Body.model := None;
       OllamaHandler.Body.total_duration := None;
       OllamaHandler.Body.load_duration := None;
       OllamaHandler.Body.prompt_eval_count := None;
       OllamaHandler.Body.eval_count := None |} in
  let endpoint (_ : nat) (_ : OllamaHandler.Payload.t) :=
    OllamaHandler.Replied body in
  fst (fst (App.main Py.ascii_only default_config endpoint (fun _ => [])
              App.fresh (Py.lit "Breaking news today") true
              OllamaHandler.untouched))
  = frame
      ++ [App.Empty;
          App.Error
            ([10060%N]
               ++ Py.lit " **Analysis Error:** 'list' object has no attribute 'strip'");
          App.Markdown App.how_it_works].
Proof.
  intros body endpoint.
  refine (proj1 (@list_reply_is_shown_as_an_error Py.ascii_only
                   default_config endpoint (fun _ => []) App.fresh
                   (Py.lit "Breaking news today") OllamaHandler.untouched
                   0%nat body [Json.Str (Py.lit "REAL")] eq_refl eq_refl _
                   eq_refl eq_refl)).
  intros i Hi. lia.
Defined.
